(** * dw3_av2: task and project manager (src/js/app.js)

    A shallow embedding of the classes [Logger], [GerenciadorArmazenamento],
    [GerenciadorTarefas] and [GerenciadorProjetos] of [src/js/app.js], and the
    properties of the stores, of the filter and of the storage adapter.

    The program is event-driven JavaScript over a browser: the embedding
    threads one explicit state, [Estado], that holds the two manager objects
    (the globals [gerenciadorTarefas] and [gerenciadorProjetos]) and the part
    of the browser the methods read and write: [localStorage], the console,
    the dialogs and the elements of the page.  Methods are actions of a state
    and exception monad; [try]/[catch] is the combinator [tentar]. *)

From Stdlib Require Import Ascii String ZArith List Permutation Sorted Lia.
From Stdlib Require Import DecimalString DecimalN OrdersEx.
From stdpp Require Import gmap strings list fin_maps.

Local Open Scope Z_scope.

(* ===================================================================== *)
(** * JavaScript strings *)
(* ===================================================================== *)

(** A JavaScript string is a sequence of UTF-16 code units.  The embedding
    uses [string]: each character stands for the code unit of the same
    number, so the strings of the model are those over the code units 0000
    to 00FF, and the built-in methods are given for these. *)
Module JSString.

Definition codigo (c : ascii) : N := N_of_ascii c.

(** [WhiteSpace] and [LineTerminator] of ECMAScript among the code units
    0000 to 00FF: TAB, LF, VT, FF, CR, SP and NBSP. *)
Definition espaco (c : ascii) : bool :=
  let n := codigo c in
  ((9 <=? n) && (n <=? 13) || (n =? 32) || (n =? 160))%N.

Fixpoint trimStart (s : string) : string :=
  match s with
  | EmptyString => EmptyString
  | String c r => if espaco c then trimStart r else s
  end.

Fixpoint trimEnd (s : string) : string :=
  match s with
  | EmptyString => EmptyString
  | String c r =>
      match trimEnd r with
      | EmptyString => if espaco c then EmptyString else String c EmptyString
      | r' => String c r'
      end
  end.

(** [String.prototype.trim]. *)
Definition trim (s : string) : string := trimEnd (trimStart s).

(** [String.prototype.toLowerCase] on the code units 0000 to 00FF: the
    letters A to Z and the letters 00C0 to 00DE other than the
    multiplication sign 00D7 move up by 32. *)
Definition minuscula (c : ascii) : ascii :=
  let n := codigo c in
  if ((65 <=? n) && (n <=? 90)
      || (192 <=? n) && (n <=? 222) && negb (n =? 215))%N
  then ascii_of_N (n + 32) else c.

Fixpoint toLowerCase (s : string) : string :=
  match s with
  | EmptyString => EmptyString
  | String c r => String (minuscula c) (toLowerCase r)
  end.

(** [String.prototype.substr (inicio, comprimento)] for a start within
    the string's length. *)
Definition substr (inicio comprimento : nat) (s : string) : string :=
  String.substring inicio comprimento s.

(** The decimal text of a non-negative integer, as string concatenation
    and template literals produce it. *)
Definition de_numero (n : N) : string :=
  NilEmpty.string_of_uint (N.to_uint n).

(** The source's string literals that hold letters beyond ASCII are
    written here in UTF-8; [literal] gives their code units (the two-byte
    sequences that start with C2 or C3). *)
Fixpoint literal (s : string) : string :=
  match s with
  | EmptyString => EmptyString
  | String c r =>
      if (codigo c =? 194)%N then
        match r with
        | String d r' => String d (literal r')
        | EmptyString => String c EmptyString
        end
      else if (codigo c =? 195)%N then
        match r with
        | String d r' => String (ascii_of_N (codigo d + 64)) (literal r')
        | EmptyString => String c EmptyString
        end
      else String c (literal r)
  end.

(** Truthiness of a string: only the empty string is falsy. *)
Definition verdadeiro (s : string) : bool :=
  match s with EmptyString => false | _ => true end.

End JSString.

(* ===================================================================== *)
(** * JavaScript values that JSON carries *)
(* ===================================================================== *)

(** The values the program stores are arrays of objects whose fields are
    strings, booleans or [null]; the model has no numbers.  An object is the
    list of its properties in enumeration order. *)
Unset Elimination Schemes.
Inductive valor : Type :=
  | VNull
  | VBool (b : bool)
  | VStr (s : string)
  | VArr (itens : list valor)
  | VObj (campos : list (string * valor)).
Set Elimination Schemes.

(** Errors a browser call can throw.  [ForaDoModelo] is not an error of
    JavaScript: the model of [JSON.parse] reports with it a text that is
    valid JSON and whose value the model cannot hold. *)
Inductive Erro : Type :=
  | SecurityError
  | QuotaExceededError
  | SyntaxError
  | ForaDoModelo.

Inductive Resultado (A : Type) : Type :=
  | Retorna (a : A)
  | Lanca (e : Erro).
Arguments Retorna {A} a.
Arguments Lanca {A} e.

Module JSON.

Local Open Scope char_scope.

(** The quotation mark. *)
Definition aspas : ascii := "034".

Definition hex (n : N) : ascii :=
  ascii_of_N (if (n <? 10)%N then 48 + n else 87 + n).

(** [QuoteJSONString]: one code unit. *)
Definition citar_unidade (c : ascii) : list ascii :=
  let n := JSString.codigo c in
  if (n =? 8)%N then ["\"; "b"]
  else if (n =? 9)%N then ["\"; "t"]
  else if (n =? 10)%N then ["\"; "n"]
  else if (n =? 12)%N then ["\"; "f"]
  else if (n =? 13)%N then ["\"; "r"]
  else if (n =? 34)%N then ["\"; aspas]
  else if (n =? 92)%N then ["\"; "\"]
  else if (n <? 32)%N then ["\"; "u"; "0"; "0"; hex (n / 16); hex (n mod 16)]
  else [c].

Fixpoint citar_corpo (s : string) : list ascii :=
  match s with
  | EmptyString => []
  | String c r => citar_unidade c ++ citar_corpo r
  end.

Definition citar (s : string) : list ascii :=
  aspas :: citar_corpo s ++ [aspas].

(** The elements of an array or the members of an object, separated by
    commas. *)
Fixpoint separar (partes : list (list ascii)) : list ascii :=
  match partes with
  | [] => []
  | [p] => p
  | p :: resto => p ++ "," :: separar resto
  end.

Fixpoint serializar (v : valor) : list ascii :=
  match v with
  | VNull => ["n"; "u"; "l"; "l"]
  | VBool true => ["t"; "r"; "u"; "e"]
  | VBool false => ["f"; "a"; "l"; "s"; "e"]
  | VStr s => citar s
  | VArr itens => "[" :: separar (map serializar itens) ++ ["]"]
  | VObj campos =>
      "{" :: separar (map (fun kv => citar (fst kv) ++ ":" :: serializar (snd kv))
                         campos) ++ ["}"]
  end.

(** [JSON.stringify (v)]. *)
Definition stringify (v : valor) : string :=
  string_of_list_ascii (serializar v).

(** ** Reading *)

(** JSON white space: TAB, LF, CR and SP. *)
Definition branco (c : ascii) : bool :=
  let n := JSString.codigo c in
  ((n =? 9) || (n =? 10) || (n =? 13) || (n =? 32))%N.

Fixpoint saltar_brancos (s : list ascii) : list ascii :=
  match s with
  | c :: r => if branco c then saltar_brancos r else s
  | [] => []
  end.

Definition valor_hex (c : ascii) : option N :=
  let n := JSString.codigo c in
  if ((48 <=? n) && (n <=? 57))%N then Some (n - 48)%N
  else if ((97 <=? n) && (n <=? 102))%N then Some (n - 87)%N
  else if ((65 <=? n) && (n <=? 70))%N then Some (n - 55)%N
  else None.

Definition valor_hex4 (a b c d : ascii) : option N :=
  match valor_hex a, valor_hex b, valor_hex c, valor_hex d with
  | Some x, Some y, Some z, Some w => Some (((x * 16 + y) * 16 + z) * 16 + w)%N
  | _, _, _, _ => None
  end.

(** The code unit a one-letter escape names. *)
Definition escape_simples (c : ascii) : option ascii :=
  let n := JSString.codigo c in
  if (n =? 34)%N then Some aspas
  else if (n =? 92)%N then Some "\"
  else if (n =? 47)%N then Some "/"
  else if (n =? 98)%N then Some "008"
  else if (n =? 102)%N then Some "012"
  else if (n =? 110)%N then Some "010"
  else if (n =? 114)%N then Some "013"
  else if (n =? 116)%N then Some "009"
  else None.

Definition prefixar {A} (c : ascii) (r : Resultado (string * A))
  : Resultado (string * A) :=
  match r with
  | Retorna (s, x) => Retorna (String c s, x)
  | Lanca e => Lanca e
  end.

(** The characters of a string literal after its opening quotation mark,
    up to and including the closing one. *)
Fixpoint ler_cadeia (s : list ascii) : Resultado (string * list ascii) :=
  match s with
  | [] => Lanca SyntaxError
  | c :: r =>
      if (JSString.codigo c =? 34)%N then Retorna (EmptyString, r)
      else if (JSString.codigo c =? 92)%N then
        match r with
        | [] => Lanca SyntaxError
        | e :: r1 =>
            match escape_simples e with
            | Some x => prefixar x (ler_cadeia r1)
            | None =>
                if (JSString.codigo e =? 117)%N then
                  match r1 with
                  | h1 :: h2 :: h3 :: h4 :: r2 =>
                      match valor_hex4 h1 h2 h3 h4 with
                      | Some n =>
                          if (n <? 256)%N
                          then prefixar (ascii_of_N n) (ler_cadeia r2)
                          else Lanca ForaDoModelo
                      | None => Lanca SyntaxError
                      end
                  | _ => Lanca SyntaxError
                  end
                else Lanca SyntaxError
            end
        end
      else if (JSString.codigo c <? 32)%N then Lanca SyntaxError
      else prefixar c (ler_cadeia r)
  end.

(** A property name that is an integer index ("0", "17"): JavaScript
    enumerates such properties first, in numeric order, whatever the order
    they were created in. *)
Definition digito (c : ascii) : bool :=
  let n := JSString.codigo c in ((48 <=? n) && (n <=? 57))%N.

Fixpoint digitos (s : string) : bool :=
  match s with
  | EmptyString => true
  | String c r => digito c && digitos r
  end.

Definition chave_indice (k : string) : bool :=
  match k with
  | EmptyString => false
  | String c EmptyString => digito c
  | String c r => digito c && negb (JSString.codigo c =? 48)%N && digitos r
  end.

(** [CreateDataProperty]: a new property goes last, an existing one keeps
    its place and takes the new value. *)
Fixpoint definir (k : string) (v : valor) (campos : list (string * valor))
  : list (string * valor) :=
  match campos with
  | [] => [(k, v)]
  | (k', v') :: r =>
      if String.eqb k' k then (k', v) :: r else (k', v') :: definir k v r
  end.

Definition construir (membros : list (string * valor)) : list (string * valor) :=
  fold_left (fun campos kv => definir (fst kv) (snd kv) campos) membros [].

(** The recursive descent over a JSON text.  The first argument bounds the
    number of nested calls; [parse] starts with twice the length of the text
    and two more, which is more than the reading of any text uses
    ([parse_combustivel] below). *)
Fixpoint ler_valor (n : nat) (s : list ascii) {struct n}
  : Resultado (valor * list ascii) :=
  match n with
  | O => Lanca SyntaxError
  | S n' =>
      match s with
      | "n" :: "u" :: "l" :: "l" :: r => Retorna (VNull, r)
      | "t" :: "r" :: "u" :: "e" :: r => Retorna (VBool true, r)
      | "f" :: "a" :: "l" :: "s" :: "e" :: r => Retorna (VBool false, r)
      | "034" :: r =>
          match ler_cadeia r with
          | Retorna (t, r1) => Retorna (VStr t, r1)
          | Lanca e => Lanca e
          end
      | "[" :: r =>
          match saltar_brancos r with
          | "]" :: r1 => Retorna (VArr [], r1)
          | r1 =>
              match ler_elementos n' r1 with
              | Retorna (vs, r2) => Retorna (VArr vs, r2)
              | Lanca e => Lanca e
              end
          end
      | "{" :: r =>
          match saltar_brancos r with
          | "}" :: r1 => Retorna (VObj [], r1)
          | r1 =>
              match ler_membros n' r1 with
              | Retorna (ms, r2) => Retorna (VObj (construir ms), r2)
              | Lanca e => Lanca e
              end
          end
      | c :: _ =>
          if digito c || (JSString.codigo c =? 45)%N
          then Lanca ForaDoModelo else Lanca SyntaxError
      | [] => Lanca SyntaxError
      end
  end
with ler_elementos (n : nat) (s : list ascii) {struct n}
  : Resultado (list valor * list ascii) :=
  match n with
  | O => Lanca SyntaxError
  | S n' =>
      match ler_valor n' s with
      | Retorna (v, r) =>
          match saltar_brancos r with
          | "," :: r1 =>
              match ler_elementos n' (saltar_brancos r1) with
              | Retorna (vs, r2) => Retorna (v :: vs, r2)
              | Lanca e => Lanca e
              end
          | "]" :: r1 => Retorna ([v], r1)
          | _ => Lanca SyntaxError
          end
      | Lanca e => Lanca e
      end
  end
with ler_membros (n : nat) (s : list ascii) {struct n}
  : Resultado (list (string * valor) * list ascii) :=
  match n with
  | O => Lanca SyntaxError
  | S n' =>
      match s with
      | "034" :: r =>
          match ler_cadeia r with
          | Retorna (k, r1) =>
              match saltar_brancos r1 with
              | ":" :: r2 =>
                  match ler_valor n' (saltar_brancos r2) with
                  | Retorna (v, r3) =>
                      if chave_indice k then Lanca ForaDoModelo else
                      match saltar_brancos r3 with
                      | "," :: r4 =>
                          match ler_membros n' (saltar_brancos r4) with
                          | Retorna (ms, r5) => Retorna ((k, v) :: ms, r5)
                          | Lanca e => Lanca e
                          end
                      | "}" :: r4 => Retorna ([(k, v)], r4)
                      | _ => Lanca SyntaxError
                      end
                  | Lanca e => Lanca e
                  end
              | _ => Lanca SyntaxError
              end
          | Lanca e => Lanca e
          end
      | _ => Lanca SyntaxError
      end
  end.

(** [JSON.parse (texto)]: one value between optional white space. *)
Definition parse (texto : string) : Resultado valor :=
  let s := list_ascii_of_string texto in
  match ler_valor (2 * length s + 2) (saltar_brancos s) with
  | Retorna (v, r) =>
      match saltar_brancos r with
      | [] => Retorna v
      | _ => Lanca SyntaxError
      end
  | Lanca e => Lanca e
  end.

End JSON.


(* ===================================================================== *)
(** * Arrays *)
(* ===================================================================== *)

(** A JavaScript number that a comparator returns: an integer or [NaN]. *)
Inductive Numero : Type :=
  | Num (z : Z)
  | NaN.

Module Array.
Section Metodos.
Context {A : Type}.

(** [Array.prototype.findIndex]; [None] stands for -1. *)
Fixpoint findIndex (p : A -> bool) (l : list A) : option nat :=
  match l with
  | [] => None
  | x :: r => if p x then Some O else option_map S (findIndex p r)
  end.

(** [Array.prototype.find]; [None] stands for [undefined]. *)
Definition find (p : A -> bool) (l : list A) : option A := List.find p l.

(** [Array.prototype.filter]. *)
Definition filter (p : A -> bool) (l : list A) : list A := List.filter p l.

(** [splice (i, 1)]: the array without its element at [i]. *)
Fixpoint splice1 (i : nat) (l : list A) : list A :=
  match l, i with
  | [], _ => []
  | _ :: r, O => r
  | x :: r, S j => x :: splice1 j r
  end.

(** [push]. *)
Definition push (l : list A) (x : A) : list A := l ++ [x].

(** [SortCompare] for two defined elements: a comparator result that is
    [NaN] counts as +0. *)
Definition SortCompare (comparefn : A -> A -> Numero) (x y : A) : Z :=
  match comparefn x y with
  | Num z => z
  | NaN => 0
  end.

(** [Array.prototype.sort (comparefn)].  ECMAScript (since 2019) requires
    the sort to be stable; for a comparator that is a consistent ordering
    that fixes the result.  The model is the stable insertion sort: an
    element moves behind those of the sorted rest that [comparefn] puts
    strictly before it.

    For a comparator that is not a consistent ordering of the array's
    elements (one that gives [NaN] for some pairs and a sign for others, say)
    ECMAScript leaves the order to the implementation: of [sort] only the
    fact that its result is a permutation of the array is then a fact about
    every engine.  The statements about an order below are made for arrays
    on which the comparator is consistent. *)
Fixpoint inserir (comparefn : A -> A -> Numero) (x : A) (l : list A) : list A :=
  match l with
  | [] => [x]
  | y :: r =>
      if 0 <? SortCompare comparefn x y
      then y :: inserir comparefn x r
      else x :: y :: r
  end.

Fixpoint sort (comparefn : A -> A -> Numero) (l : list A) : list A :=
  match l with
  | [] => []
  | x :: r => inserir comparefn x (sort comparefn r)
  end.
End Metodos.
End Array.

(* ===================================================================== *)
(** * Data model *)
(* ===================================================================== *)

(** [obj[k]] on the properties of an object. *)
Fixpoint obter (k : string) (campos : list (string * valor)) : option valor :=
  match campos with
  | [] => None
  | (k', v) :: r => if String.eqb k' k then Some v else obter k r
  end.

Definition obter_str (k : string) (campos : list (string * valor)) : option string :=
  match obter k campos with Some (VStr s) => Some s | _ => None end.

Definition obter_bool (k : string) (campos : list (string * valor)) : option bool :=
  match obter k campos with Some (VBool b) => Some b | _ => None end.

(** A string or [null]. *)
Definition obter_str_null (k : string) (campos : list (string * valor))
  : option (option string) :=
  match obter k campos with
  | Some (VStr s) => Some (Some s)
  | Some VNull => Some None
  | _ => None
  end.

(** A task object.  [projetoId] is a project's id or [null]. *)
Module Tarefa.
Record t : Type := Build {
  id : string;
  titulo : string;
  descricao : string;
  dataVencimento : string;
  prioridade : string;
  projetoId : option string;
  concluida : bool;
  dataCriacao : string;
}.

Definition com_concluida (b : bool) (x : t) : t :=
  Build (id x) (titulo x) (descricao x) (dataVencimento x) (prioridade x)
        (projetoId x) b (dataCriacao x).

Definition com_projetoId (p : option string) (x : t) : t :=
  Build (id x) (titulo x) (descricao x) (dataVencimento x) (prioridade x)
        p (concluida x) (dataCriacao x).

(** The object literal [dadosTarefa] of [salvarTarefa]: a task's fields
    without [id]. *)
Module Dados.
Record t : Type := Build {
  titulo : string;
  descricao : string;
  dataVencimento : string;
  prioridade : string;
  projetoId : option string;
  concluida : bool;
  dataCriacao : string;
}.
End Dados.

(** [{ id: i, ...dados }]. *)
Definition nova (i : string) (d : Dados.t) : t :=
  Build i (Dados.titulo d) (Dados.descricao d) (Dados.dataVencimento d)
        (Dados.prioridade d) (Dados.projetoId d) (Dados.concluida d)
        (Dados.dataCriacao d).

(** [{ ...x, ...dados }]: the properties of [x], each one that [dados]
    also has taking the value [dados] gives it. *)
Definition espalhar (x : t) (d : Dados.t) : t :=
  Build (id x) (Dados.titulo d) (Dados.descricao d) (Dados.dataVencimento d)
        (Dados.prioridade d) (Dados.projetoId d) (Dados.concluida d)
        (Dados.dataCriacao d).

(** The object as [JSON.stringify] sees it: the properties in the order
    the object literals of [salvarTarefa] create them. *)
Definition para_valor (x : t) : valor :=
  VObj [("id", VStr (id x));
        ("titulo", VStr (titulo x));
        ("descricao", VStr (descricao x));
        ("dataVencimento", VStr (dataVencimento x));
        ("prioridade", VStr (prioridade x));
        ("projetoId", match projetoId x with Some p => VStr p | None => VNull end);
        ("concluida", VBool (concluida x));
        ("dataCriacao", VStr (dataCriacao x))].

(** The record of an object that has the fields of a task. *)
Definition de_valor (v : valor) : option t :=
  match v with
  | VObj c =>
      match obter_str "id" c, obter_str "titulo" c, obter_str "descricao" c,
            obter_str "dataVencimento" c, obter_str "prioridade" c,
            obter_str_null "projetoId" c, obter_bool "concluida" c,
            obter_str "dataCriacao" c with
      | Some i, Some ti, Some de, Some dv, Some pr, Some pj, Some co, Some dc =>
          Some (Build i ti de dv pr pj co dc)
      | _, _, _, _, _, _, _, _ => None
      end
  | _ => None
  end.
End Tarefa.

(** A project object. *)
Module Projeto.
Record t : Type := Build {
  id : string;
  nome : string;
  dataCriacao : string;
}.

Definition com_nome (n : string) (x : t) : t := Build (id x) n (dataCriacao x).

Definition para_valor (x : t) : valor :=
  VObj [("id", VStr (id x)); ("nome", VStr (nome x));
        ("dataCriacao", VStr (dataCriacao x))].

Definition de_valor (v : valor) : option t :=
  match v with
  | VObj c =>
      match obter_str "id" c, obter_str "nome" c, obter_str "dataCriacao" c with
      | Some i, Some n, Some dc => Some (Build i n dc)
      | _, _, _ => None
      end
  | _ => None
  end.
End Projeto.

(** An array of objects, each read by [de]. *)
Fixpoint lista_de_valores {A} (de : valor -> option A) (l : list valor)
  : option (list A) :=
  match l with
  | [] => Some []
  | v :: r =>
      match de v, lista_de_valores de r with
      | Some x, Some xs => Some (x :: xs)
      | _, _ => None
      end
  end.

Definition tarefas_para_valor (l : list Tarefa.t) : valor :=
  VArr (map Tarefa.para_valor l).

Definition tarefas_de_valor (v : valor) : option (list Tarefa.t) :=
  match v with VArr l => lista_de_valores Tarefa.de_valor l | _ => None end.

Definition projetos_para_valor (l : list Projeto.t) : valor :=
  VArr (map Projeto.para_valor l).

Definition projetos_de_valor (v : valor) : option (list Projeto.t) :=
  match v with VArr l => lista_de_valores Projeto.de_valor l | _ => None end.

(* ===================================================================== *)
(** * The state: the browser and the two managers *)
(* ===================================================================== *)

(** [window.localStorage].  Beside its items it carries the two ways a call
    can fail: a read or a removal that the browser refuses (storage disabled
    or blocked), and a write that it refuses (disabled, or over quota, which
    depends on the items already stored). *)
Record Armazenamento : Type := {
  itens : gmap string string;
  falha_leitura : string -> option Erro;
  falha_escrita : gmap string string -> string -> string -> option Erro;
}.

Inductive Nivel : Type := Info | Warn | Error.

(** The elements of the page the methods read and write.  The page itself
    (its HTML) is not part of the sources; the fields are the elements
    [app.js] looks up by id.  A form is open when it has the class [ativo]
    and not [oculto].  The two lists hold the objects whose items the render
    methods wrote last, in the order of the items; the markup of an item
    ([criarElementoTarefa]) and the highlighting of the selected filter and
    project are left out: the model is of calls for which the elements the
    methods look up exist in the page (see [aplicarFiltro] and
    [selecionarProjeto]). *)
Record Documento : Type := {
  titulo_tarefa : string;
  descricao_tarefa : string;
  data_vencimento : string;
  prioridade_tarefa : string;
  projeto_tarefa : string;
  opcoes_projeto_tarefa : list (string * string);
  nome_projeto : string;
  form_tarefa : bool;
  form_projeto : bool;
  lista_tarefas : list Tarefa.t;
  lista_projetos : list Projeto.t;
  titulo_secao : string;
}.

(** The fields of a [GerenciadorTarefas] object. *)
Record Tarefas : Type := {
  tarefas : list Tarefa.t;
  tarefaEditando : option Tarefa.t;
  projetoAtivo : string;
  filtroAtivo : string;
}.

(** The fields of a [GerenciadorProjetos] object. *)
Record Projetos : Type := {
  projetos : list Projeto.t;
  projetoEditando : option Projeto.t;
}.

(** What the next calls to the clock, to the random generator and to
    [confirm] give: [Date.now ()], [new Date ().toISOString ()], the text of
    [Math.random ().toString (36)], and the user's answer to a dialog; and
    the collation of the browser's locale, [a.localeCompare (b)] as a
    negative number, zero or a positive number. *)
Record Ambiente : Type := {
  Date_now : N;
  Date_toISOString : string;
  Math_random_36 : string;
  resposta : bool;
  localeCompare : string -> string -> Z;
}.

Record Estado : Type := {
  localStorage : Armazenamento;
  console : list (Nivel * string);
  alertas : list string;
  confirmacoes : list string;
  documento : Documento;
  ambiente : Ambiente;
  gerenciadorTarefas : Tarefas;
  gerenciadorProjetos : Projetos;
}.

Definition com_localStorage (f : Armazenamento -> Armazenamento) (e : Estado) : Estado :=
  {| localStorage := f (localStorage e); console := console e;
     alertas := alertas e; confirmacoes := confirmacoes e;
     documento := documento e; ambiente := ambiente e;
     gerenciadorTarefas := gerenciadorTarefas e;
     gerenciadorProjetos := gerenciadorProjetos e |}.

Definition com_console (f : list (Nivel * string) -> list (Nivel * string))
  (e : Estado) : Estado :=
  {| localStorage := localStorage e; console := f (console e);
     alertas := alertas e; confirmacoes := confirmacoes e;
     documento := documento e; ambiente := ambiente e;
     gerenciadorTarefas := gerenciadorTarefas e;
     gerenciadorProjetos := gerenciadorProjetos e |}.

Definition com_alertas (f : list string -> list string) (e : Estado) : Estado :=
  {| localStorage := localStorage e; console := console e;
     alertas := f (alertas e); confirmacoes := confirmacoes e;
     documento := documento e; ambiente := ambiente e;
     gerenciadorTarefas := gerenciadorTarefas e;
     gerenciadorProjetos := gerenciadorProjetos e |}.

Definition com_confirmacoes (f : list string -> list string) (e : Estado) : Estado :=
  {| localStorage := localStorage e; console := console e;
     alertas := alertas e; confirmacoes := f (confirmacoes e);
     documento := documento e; ambiente := ambiente e;
     gerenciadorTarefas := gerenciadorTarefas e;
     gerenciadorProjetos := gerenciadorProjetos e |}.

Definition com_documento (f : Documento -> Documento) (e : Estado) : Estado :=
  {| localStorage := localStorage e; console := console e;
     alertas := alertas e; confirmacoes := confirmacoes e;
     documento := f (documento e); ambiente := ambiente e;
     gerenciadorTarefas := gerenciadorTarefas e;
     gerenciadorProjetos := gerenciadorProjetos e |}.

Definition com_gerenciadorTarefas (f : Tarefas -> Tarefas) (e : Estado) : Estado :=
  {| localStorage := localStorage e; console := console e;
     alertas := alertas e; confirmacoes := confirmacoes e;
     documento := documento e; ambiente := ambiente e;
     gerenciadorTarefas := f (gerenciadorTarefas e);
     gerenciadorProjetos := gerenciadorProjetos e |}.

Definition com_gerenciadorProjetos (f : Projetos -> Projetos) (e : Estado) : Estado :=
  {| localStorage := localStorage e; console := console e;
     alertas := alertas e; confirmacoes := confirmacoes e;
     documento := documento e; ambiente := ambiente e;
     gerenciadorTarefas := gerenciadorTarefas e;
     gerenciadorProjetos := f (gerenciadorProjetos e) |}.

Definition com_form_tarefa (x : bool) (d : Documento) : Documento :=
  {| titulo_tarefa := titulo_tarefa d;
     descricao_tarefa := descricao_tarefa d;
     data_vencimento := data_vencimento d;
     prioridade_tarefa := prioridade_tarefa d;
     projeto_tarefa := projeto_tarefa d;
     opcoes_projeto_tarefa := opcoes_projeto_tarefa d;
     nome_projeto := nome_projeto d; form_tarefa := x;
     form_projeto := form_projeto d; lista_tarefas := lista_tarefas d;
     lista_projetos := lista_projetos d; titulo_secao := titulo_secao d |}.

Definition com_form_projeto (x : bool) (d : Documento) : Documento :=
  {| titulo_tarefa := titulo_tarefa d;
     descricao_tarefa := descricao_tarefa d;
     data_vencimento := data_vencimento d;
     prioridade_tarefa := prioridade_tarefa d;
     projeto_tarefa := projeto_tarefa d;
     opcoes_projeto_tarefa := opcoes_projeto_tarefa d;
     nome_projeto := nome_projeto d; form_tarefa := form_tarefa d;
     form_projeto := x; lista_tarefas := lista_tarefas d;
     lista_projetos := lista_projetos d; titulo_secao := titulo_secao d |}.

Definition com_lista_tarefas (x : list Tarefa.t) (d : Documento) : Documento :=
  {| titulo_tarefa := titulo_tarefa d;
     descricao_tarefa := descricao_tarefa d;
     data_vencimento := data_vencimento d;
     prioridade_tarefa := prioridade_tarefa d;
     projeto_tarefa := projeto_tarefa d;
     opcoes_projeto_tarefa := opcoes_projeto_tarefa d;
     nome_projeto := nome_projeto d; form_tarefa := form_tarefa d;
     form_projeto := form_projeto d; lista_tarefas := x;
     lista_projetos := lista_projetos d; titulo_secao := titulo_secao d |}.

Definition com_lista_projetos (x : list Projeto.t) (d : Documento) : Documento :=
  {| titulo_tarefa := titulo_tarefa d;
     descricao_tarefa := descricao_tarefa d;
     data_vencimento := data_vencimento d;
     prioridade_tarefa := prioridade_tarefa d;
     projeto_tarefa := projeto_tarefa d;
     opcoes_projeto_tarefa := opcoes_projeto_tarefa d;
     nome_projeto := nome_projeto d; form_tarefa := form_tarefa d;
     form_projeto := form_projeto d; lista_tarefas := lista_tarefas d;
     lista_projetos := x; titulo_secao := titulo_secao d |}.

Definition com_titulo_secao (x : string) (d : Documento) : Documento :=
  {| titulo_tarefa := titulo_tarefa d;
     descricao_tarefa := descricao_tarefa d;
     data_vencimento := data_vencimento d;
     prioridade_tarefa := prioridade_tarefa d;
     projeto_tarefa := projeto_tarefa d;
     opcoes_projeto_tarefa := opcoes_projeto_tarefa d;
     nome_projeto := nome_projeto d; form_tarefa := form_tarefa d;
     form_projeto := form_projeto d; lista_tarefas := lista_tarefas d;
     lista_projetos := lista_projetos d; titulo_secao := x |}.

(** The project select of the task form: its options and its value. *)
Definition com_projeto_tarefa (valor_ : string) (opcoes : list (string * string))
  (d : Documento) : Documento :=
  {| titulo_tarefa := titulo_tarefa d;
     descricao_tarefa := descricao_tarefa d;
     data_vencimento := data_vencimento d;
     prioridade_tarefa := prioridade_tarefa d; projeto_tarefa := valor_;
     opcoes_projeto_tarefa := opcoes; nome_projeto := nome_projeto d;
     form_tarefa := form_tarefa d; form_projeto := form_projeto d;
     lista_tarefas := lista_tarefas d; lista_projetos := lista_projetos d;
     titulo_secao := titulo_secao d |}.

Definition com_tarefas (f : list Tarefa.t -> list Tarefa.t) (g : Tarefas) : Tarefas :=
  {| tarefas := f (tarefas g); tarefaEditando := tarefaEditando g;
     projetoAtivo := projetoAtivo g; filtroAtivo := filtroAtivo g |}.

Definition com_tarefaEditando (x : option Tarefa.t) (g : Tarefas) : Tarefas :=
  {| tarefas := tarefas g; tarefaEditando := x;
     projetoAtivo := projetoAtivo g; filtroAtivo := filtroAtivo g |}.

Definition com_projetoAtivo (x : string) (g : Tarefas) : Tarefas :=
  {| tarefas := tarefas g; tarefaEditando := tarefaEditando g;
     projetoAtivo := x; filtroAtivo := filtroAtivo g |}.

Definition com_filtroAtivo (x : string) (g : Tarefas) : Tarefas :=
  {| tarefas := tarefas g; tarefaEditando := tarefaEditando g;
     projetoAtivo := projetoAtivo g; filtroAtivo := x |}.

Definition com_projetos (f : list Projeto.t -> list Projeto.t) (g : Projetos) : Projetos :=
  {| projetos := f (projetos g); projetoEditando := projetoEditando g |}.

Definition com_projetoEditando (x : option Projeto.t) (g : Projetos) : Projetos :=
  {| projetos := projetos g; projetoEditando := x |}.

(** ** Actions *)

(** A method runs from a state to a result, a value or a thrown error, and
    a new state. *)
Definition Acao (A : Type) : Type := Estado -> Resultado A * Estado.

Definition retornar {A} (a : A) : Acao A := fun e => (Retorna a, e).

Definition lancar {A} (x : Erro) : Acao A := fun e => (Lanca x, e).

Definition ligar {A B} (m : Acao A) (k : A -> Acao B) : Acao B :=
  fun e =>
    match m e with
    | (Retorna a, e') => k a e'
    | (Lanca x, e') => (Lanca x, e')
    end.

(** [try { m } catch (erro) { h erro }]. *)
Definition tentar {A} (m : Acao A) (h : Erro -> Acao A) : Acao A :=
  fun e =>
    match m e with
    | (Retorna a, e') => (Retorna a, e')
    | (Lanca x, e') => h x e'
    end.

Definition ler : Acao Estado := fun e => (Retorna e, e).

Definition modificar (f : Estado -> Estado) : Acao unit := fun e => (Retorna tt, f e).

Declare Scope acao_scope.
Delimit Scope acao_scope with acao.
Notation "x <- m ;; k" := (ligar m (fun x => k))
  (at level 100, m at next level, right associativity) : acao_scope.
Notation "m ;; k" := (ligar m (fun _ => k))
  (at level 100, right associativity) : acao_scope.
Local Open Scope acao_scope.

(** The state an action leaves, and what it returns. *)
Definition estado_apos {A} (m : Acao A) (e : Estado) : Estado := snd (m e).
Definition resultado_de {A} (m : Acao A) (e : Estado) : Resultado A := fst (m e).

(* ===================================================================== *)
(** * The browser's calls *)
(* ===================================================================== *)

Module Navegador.

(** [alert (mensagem)]. *)
Definition alert (mensagem : string) : Acao unit :=
  modificar (com_alertas (fun a => a ++ [mensagem])).

(** [confirm (mensagem)]: shows the dialog and returns the user's answer. *)
Definition confirm (mensagem : string) : Acao bool :=
  fun e => (Retorna (resposta (ambiente e)),
            com_confirmacoes (fun c => c ++ [mensagem]) e).

(** [localStorage.getItem (chave)]; [None] stands for [null]. *)
Definition getItem (chave : string) : Acao (option string) :=
  fun e =>
    match falha_leitura (localStorage e) chave with
    | Some x => (Lanca x, e)
    | None => (Retorna (itens (localStorage e) !! chave), e)
    end.

(** [localStorage.setItem (chave, texto)]. *)
Definition setItem (chave texto : string) : Acao unit :=
  fun e =>
    let a := localStorage e in
    match falha_escrita a (itens a) chave texto with
    | Some x => (Lanca x, e)
    | None =>
        (Retorna tt,
         com_localStorage
           (fun a => {| itens := <[chave := texto]> (itens a);
                        falha_leitura := falha_leitura a;
                        falha_escrita := falha_escrita a |}) e)
    end.

(** [localStorage.removeItem (chave)]. *)
Definition removeItem (chave : string) : Acao unit :=
  fun e =>
    match falha_leitura (localStorage e) chave with
    | Some x => (Lanca x, e)
    | None =>
        (Retorna tt,
         com_localStorage
           (fun a => {| itens := delete chave (itens a);
                        falha_leitura := falha_leitura a;
                        falha_escrita := falha_escrita a |}) e)
    end.

End Navegador.

(* ===================================================================== *)
(** * class Logger *)
(* ===================================================================== *)

(** Each method writes one line to the console.  The line's second
    argument, [dados || ""], is left out of the model. *)
Module Logger.

Definition info (mensagem : string) : Acao unit :=
  modificar (com_console (fun c => c ++ [(Info, "[INFO] " +:+ mensagem)])).

Definition warn (mensagem : string) : Acao unit :=
  modificar (com_console (fun c => c ++ [(Warn, "[WARN] " +:+ mensagem)])).

Definition error (mensagem : string) : Acao unit :=
  modificar (com_console (fun c => c ++ [(Error, "[ERROR] " +:+ mensagem)])).

End Logger.

(* ===================================================================== *)
(** * class GerenciadorArmazenamento *)
(* ===================================================================== *)

Module GerenciadorArmazenamento.

Definition salvar (chave : string) (dados : valor) : Acao unit :=
  tentar
    (let dadosSerializados := JSON.stringify dados in
     Navegador.setItem chave dadosSerializados ;;
     Logger.info ("Dados salvos para chave: " +:+ chave))
    (fun erro =>
       Logger.error ("Erro ao salvar dados para chave " +:+ chave +:+ ":")).

(** [JSON.parse] of the model gives [ForaDoModelo] for a text it does not
    cover; such a result takes the catch branch below as an error would,
    where the program may well read a value.  What is stated of [carregar]
    on a stored text is stated for texts on which the model's [JSON.parse]
    gives a value or a [SyntaxError]. *)
Definition carregar (chave : string) (valorPadrao : valor) : Acao valor :=
  tentar
    (dadosSerializados <- Navegador.getItem chave ;;
     match dadosSerializados with
     | None => retornar valorPadrao
     | Some texto =>
         match JSON.parse texto with
         | Lanca x => lancar x
         | Retorna dados =>
             Logger.info ("Dados carregados para chave: " +:+ chave) ;;
             retornar dados
         end
     end)
    (fun erro =>
       Logger.error ("Erro ao carregar dados para chave " +:+ chave +:+ ":") ;;
       retornar valorPadrao).

Definition remover (chave : string) : Acao unit :=
  tentar
    (Navegador.removeItem chave ;;
     Logger.info ("Dados removidos para chave: " +:+ chave))
    (fun erro =>
       Logger.error ("Erro ao remover dados para chave " +:+ chave +:+ ":")).

End GerenciadorArmazenamento.

(* ===================================================================== *)
(** * class GerenciadorTarefas *)
(* ===================================================================== *)

Module GerenciadorTarefas.

(** [this]: the global [gerenciadorTarefas]. *)
Definition este : Acao Tarefas :=
  e <- ler ;; retornar (gerenciadorTarefas e).

Definition atribuir (f : Tarefas -> Tarefas) : Acao unit :=
  modificar (com_gerenciadorTarefas f).

(** [JSON.stringify] of [this.tarefas] and the write under "tarefas". *)
Definition salvarTarefas : Acao unit :=
  g <- este ;;
  GerenciadorArmazenamento.salvar "tarefas" (tarefas_para_valor (tarefas g)).

Definition gerarId : Acao string :=
  e <- ler ;;
  retornar ("tarefa_" +:+ JSString.de_numero (Date_now (ambiente e)) +:+ "_"
            +:+ JSString.substr 2 9 (Math_random_36 (ambiente e))).

Definition cancelarEdicao : Acao unit :=
  modificar (com_documento (com_form_tarefa false)) ;;
  atribuir (com_tarefaEditando None) ;;
  Logger.info (JSString.literal "Edição cancelada").

(** [tarefa.projetoId === projetoId], the left side a string or [null]. *)
Definition projetoId_igual (t : Tarefa.t) (projetoId : string) : bool :=
  match Tarefa.projetoId t with
  | Some p => String.eqb p projetoId
  | None => false
  end.

(** The task list under the selected project and filter. *)
Definition obterTarefasFiltradas (g : Tarefas) : list Tarefa.t :=
  let tarefasFiltradas := tarefas g in
  let tarefasFiltradas :=
    if negb (String.eqb (projetoAtivo g) "todos")
    then Array.filter (fun tarefa => projetoId_igual tarefa (projetoAtivo g))
                      tarefasFiltradas
    else tarefasFiltradas in
  if String.eqb (filtroAtivo g) "pendentes" then
    Array.filter (fun t => negb (Tarefa.concluida t)) tarefasFiltradas
  else if String.eqb (filtroAtivo g) "concluidas" then
    Array.filter (fun t => Tarefa.concluida t) tarefasFiltradas
  else if String.eqb (filtroAtivo g) "alta" then
    Array.filter (fun t => String.eqb (Tarefa.prioridade t) "alta") tarefasFiltradas
  else if String.eqb (filtroAtivo g) "media" then
    Array.filter (fun t => String.eqb (Tarefa.prioridade t) "media") tarefasFiltradas
  else if String.eqb (filtroAtivo g) "baixa" then
    Array.filter (fun t => String.eqb (Tarefa.prioridade t) "baixa") tarefasFiltradas
  else tarefasFiltradas.

(** [prioridades[p]] for [prioridades = { alta: 3, media: 2, baixa: 1 }];
    [None] stands for a value that is not a number. *)
Definition prioridades (p : string) : option Z :=
  if String.eqb p "alta" then Some 3
  else if String.eqb p "media" then Some 2
  else if String.eqb p "baixa" then Some 1
  else None.

(** The comparator of the sort in [renderizarTarefas]. *)
Definition comparar (a b : Tarefa.t) : Numero :=
  if negb (Bool.eqb (Tarefa.concluida a) (Tarefa.concluida b)) then
    if Tarefa.concluida a then Num 1 else Num (-1)
  else
    match prioridades (Tarefa.prioridade b), prioridades (Tarefa.prioridade a) with
    | Some pb, Some pa => Num (pb - pa)
    | _, _ => NaN
    end.

Definition escrever_lista_tarefas (l : list Tarefa.t) : Acao unit :=
  modificar (com_documento (com_lista_tarefas l)).

(** The tasks in the order [renderizarTarefas] writes their items. *)
Definition ordem_de_exibicao (g : Tarefas) : list Tarefa.t :=
  let tarefasFiltradas := obterTarefasFiltradas g in
  match tarefasFiltradas with
  | [] => []
  | _ => Array.sort comparar tarefasFiltradas
  end.

Definition renderizarTarefas : Acao unit :=
  g <- este ;;
  let tarefasFiltradas := obterTarefasFiltradas g in
  match tarefasFiltradas with
  | [] => escrever_lista_tarefas []
  | _ => escrever_lista_tarefas (Array.sort comparar tarefasFiltradas)
  end.

(** The array read from storage has to be an array of task objects for the
    record-typed store to hold it. *)
Definition carregarTarefas : Acao unit :=
  dados <- GerenciadorArmazenamento.carregar "tarefas" (VArr []) ;;
  match tarefas_de_valor dados with
  | None => lancar ForaDoModelo
  | Some l =>
      atribuir (com_tarefas (fun _ => l)) ;;
      Logger.info (JSString.de_numero (N.of_nat (length l)) +:+ " tarefas carregadas") ;;
      renderizarTarefas
  end.

Definition salvarTarefa : Acao unit :=
  e <- ler ;;
  let titulo := JSString.trim (titulo_tarefa (documento e)) in
  let descricao := JSString.trim (descricao_tarefa (documento e)) in
  let dataVencimento := data_vencimento (documento e) in
  let prioridade := prioridade_tarefa (documento e) in
  let projetoId := projeto_tarefa (documento e) in
  if negb (JSString.verdadeiro titulo) then
    Navegador.alert (JSString.literal "O título da tarefa é obrigatório.")
  else
    let dadosTarefa :=
      Tarefa.Dados.Build titulo descricao dataVencimento prioridade
        (if JSString.verdadeiro projetoId then Some projetoId else None)
        false
        (Date_toISOString (ambiente e)) in
    g <- este ;;
    match tarefaEditando g with
    | Some editando =>
        match Array.findIndex
                (fun t => String.eqb (Tarefa.id t) (Tarefa.id editando))
                (tarefas g) with
        | Some indice =>
            atribuir (com_tarefas (fun l =>
              match l !! indice with
              | Some antiga => <[indice := Tarefa.espalhar antiga dadosTarefa]> l
              | None => l
              end)) ;;
            Logger.info "Tarefa atualizada:"
        | None => retornar tt
        end
    | None =>
        i <- gerarId ;;
        let novaTarefa := Tarefa.nova i dadosTarefa in
        atribuir (com_tarefas (fun l => Array.push l novaTarefa)) ;;
        Logger.info "Nova tarefa criada:"
    end ;;
    salvarTarefas ;;
    renderizarTarefas ;;
    cancelarEdicao.

Definition alternarConclusao (id : string) : Acao unit :=
  g <- este ;;
  match Array.findIndex (fun t => String.eqb (Tarefa.id t) id) (tarefas g) with
  | Some indice =>
      atribuir (com_tarefas
        (alter (fun t => Tarefa.com_concluida (negb (Tarefa.concluida t)) t) indice)) ;;
      salvarTarefas ;;
      renderizarTarefas ;;
      g' <- este ;;
      match tarefas g' !! indice with
      | Some tarefa =>
          Logger.info ("Tarefa "
                       +:+ (if Tarefa.concluida tarefa
                            then JSString.literal "concluída" else "reaberta")
                       +:+ ":")
      | None => retornar tt
      end
  | None => retornar tt
  end.

Definition removerTarefa (id : string) : Acao unit :=
  ok <- Navegador.confirm "Tem certeza que deseja excluir esta tarefa?" ;;
  if ok : bool then
    g <- este ;;
    match Array.findIndex (fun t => String.eqb (Tarefa.id t) id) (tarefas g) with
    | Some indice =>
        atribuir (com_tarefas (Array.splice1 indice)) ;;
        salvarTarefas ;;
        renderizarTarefas ;;
        Logger.info "Tarefa removida:"
    | None => retornar tt
    end
  else retornar tt.

(** Between the assignment and the rendering the method marks the item of
    the filter on the page, [document.querySelector (...).classList.add];
    the marks are not part of [Documento].  The model is of a call with a
    filter that has its item on the page: for any other the program stops
    there with a [TypeError], the assignment made and nothing rendered. *)
Definition aplicarFiltro (filtro : string) : Acao unit :=
  atribuir (com_filtroAtivo filtro) ;;
  renderizarTarefas ;;
  Logger.info ("Filtro aplicado: " +:+ filtro).

Definition definirProjetoAtivo (projetoId : string) : Acao unit :=
  atribuir (com_projetoAtivo projetoId) ;;
  renderizarTarefas ;;
  Logger.info ("Projeto ativo: " +:+ projetoId).

(** The options of the project select of the task form are written anew:
    "Sem projeto" with the empty value, then one per project.  The select
    then shows its first option, so its value is the empty string. *)
Definition atualizarOpcoesProjetoNoFormulario : Acao unit :=
  e <- ler ;;
  let projetos := projetos (gerenciadorProjetos e) in
  modificar (com_documento
    (com_projeto_tarefa ""
       (("", "Sem projeto")
          :: map (fun projeto => (Projeto.id projeto, Projeto.nome projeto))
               projetos))).

End GerenciadorTarefas.

(* ===================================================================== *)
(** * class GerenciadorProjetos *)
(* ===================================================================== *)

Module GerenciadorProjetos.

(** [this]: the global [gerenciadorProjetos]. *)
Definition este : Acao Projetos :=
  e <- ler ;; retornar (gerenciadorProjetos e).

Definition atribuir (f : Projetos -> Projetos) : Acao unit :=
  modificar (com_gerenciadorProjetos f).

Definition salvarProjetos : Acao unit :=
  g <- este ;;
  GerenciadorArmazenamento.salvar "projetos" (projetos_para_valor (projetos g)).

Definition gerarId : Acao string :=
  e <- ler ;;
  retornar ("projeto_" +:+ JSString.de_numero (Date_now (ambiente e)) +:+ "_"
            +:+ JSString.substr 2 9 (Math_random_36 (ambiente e))).

(** The comparator of [renderizarProjetos]:
    [(a, b) => a.nome.localeCompare (b.nome)]. *)
Definition comparar_nomes (a : Ambiente) (x y : Projeto.t) : Numero :=
  Num (localeCompare a (Projeto.nome x) (Projeto.nome y)).

(** The projects in the order [renderizarProjetos] writes their items. *)
Definition ordem_de_exibicao (e : Estado) : list Projeto.t :=
  Array.sort (comparar_nomes (ambiente e)) (projetos (gerenciadorProjetos e)).

(** The items of the project list are written anew, one per project, from a
    copy of the store sorted by name; the store keeps its order. *)
Definition renderizarProjetos : Acao unit :=
  e <- ler ;;
  g <- este ;;
  match projetos g with
  | [] => modificar (com_documento (com_lista_projetos []))
  | _ =>
      let projetosOrdenados := Array.sort (comparar_nomes (ambiente e)) (projetos g) in
      modificar (com_documento (com_lista_projetos projetosOrdenados))
  end.

Definition carregarProjetos : Acao unit :=
  dados <- GerenciadorArmazenamento.carregar "projetos" (VArr []) ;;
  match projetos_de_valor dados with
  | None => lancar ForaDoModelo
  | Some l =>
      atribuir (com_projetos (fun _ => l)) ;;
      Logger.info (JSString.de_numero (N.of_nat (length l)) +:+ " projetos carregados") ;;
      renderizarProjetos
  end.

Definition cancelarEdicao : Acao unit :=
  modificar (com_documento (com_form_projeto false)) ;;
  atribuir (com_projetoEditando None) ;;
  Logger.info (JSString.literal "Edição de projeto cancelada").

(** The test of the [find] in [adicionarProjeto]: the same name up to
    case, on a project other than the one being edited. *)
Definition mesmo_nome (nome : string) (editando : option Projeto.t)
  (p : Projeto.t) : bool :=
  String.eqb (JSString.toLowerCase (Projeto.nome p)) (JSString.toLowerCase nome)
  && match editando with
     | None => true
     | Some ed => negb (String.eqb (Projeto.id p) (Projeto.id ed))
     end.

Definition adicionarProjeto : Acao unit :=
  e <- ler ;;
  let nome := JSString.trim (nome_projeto (documento e)) in
  if negb (JSString.verdadeiro nome) then
    Navegador.alert (JSString.literal "O nome do projeto é obrigatório.")
  else
    g <- este ;;
    match Array.find (mesmo_nome nome (projetoEditando g)) (projetos g) with
    | Some projetoExistente =>
        Navegador.alert (JSString.literal "Já existe um projeto com este nome.")
    | None =>
        match projetoEditando g with
        | Some editando =>
            match Array.findIndex
                    (fun p => String.eqb (Projeto.id p) (Projeto.id editando))
                    (projetos g) with
            | Some indice =>
                atribuir (com_projetos (alter (Projeto.com_nome nome) indice)) ;;
                Logger.info "Projeto atualizado:"
            | None => retornar tt
            end
        | None =>
            i <- gerarId ;;
            let novoProjeto :=
              Projeto.Build i nome (Date_toISOString (ambiente e)) in
            atribuir (com_projetos (fun l => Array.push l novoProjeto)) ;;
            Logger.info "Novo projeto criado:"
        end ;;
        salvarProjetos ;;
        renderizarProjetos ;;
        cancelarEdicao ;;
        GerenciadorTarefas.atualizarOpcoesProjetoNoFormulario
    end.

(** The method first marks the item of the project on the page, as
    [aplicarFiltro] does for a filter.  The model is of a call with "todos"
    or with the id of a project that has its item on the page: for any other
    the program stops there with a [TypeError], nothing changed. *)
Definition selecionarProjeto (projetoId : string) : Acao unit :=
  g <- este ;;
  modificar (com_documento (com_titulo_secao
    (if String.eqb projetoId "todos" then "Todas as Tarefas"
     else match Array.find (fun p => String.eqb (Projeto.id p) projetoId)
                           (projetos g) with
          | Some projeto => Projeto.nome projeto
          | None => JSString.literal "Projeto não encontrado"
          end))) ;;
  GerenciadorTarefas.definirProjetoAtivo projetoId ;;
  Logger.info ("Projeto selecionado: " +:+ projetoId).

(** [tarefasAssociadas.forEach (tarefa => { tarefa.projetoId = null })]:
    the elements of [tarefasAssociadas] are the objects of the task store
    themselves, so the assignment changes the store. *)
Definition desassociar (id : string) (l : list Tarefa.t) : list Tarefa.t :=
  map (fun tarefa =>
         if GerenciadorTarefas.projetoId_igual tarefa id
         then Tarefa.com_projetoId None tarefa else tarefa) l.

Definition removerProjeto (id : string) : Acao unit :=
  g <- este ;;
  match Array.find (fun p => String.eqb (Projeto.id p) id) (projetos g) with
  | None => retornar tt
  | Some projeto =>
      gt <- GerenciadorTarefas.este ;;
      let tarefasAssociadas :=
        Array.filter (fun t => GerenciadorTarefas.projetoId_igual t id)
                     (tarefas gt) in
      confirmar <-
        (if (0 <? length tarefasAssociadas)%nat then
           Navegador.confirm
             ("Este projeto possui "
              +:+ JSString.de_numero (N.of_nat (length tarefasAssociadas))
              +:+ " tarefa(s) associada(s). "
              +:+ JSString.literal
                    "Deseja excluir o projeto mesmo assim? As tarefas ficarão sem projeto.")
         else retornar true) ;;
      if confirmar : bool then
        GerenciadorTarefas.atribuir (com_tarefas (desassociar id)) ;;
        GerenciadorTarefas.salvarTarefas ;;
        match Array.findIndex (fun p => String.eqb (Projeto.id p) id)
                              (projetos g) with
        | Some indice =>
            atribuir (com_projetos (Array.splice1 indice)) ;;
            salvarProjetos ;;
            renderizarProjetos ;;
            gt' <- GerenciadorTarefas.este ;;
            (if String.eqb (projetoAtivo gt') id
             then selecionarProjeto "todos" else retornar tt) ;;
            GerenciadorTarefas.atualizarOpcoesProjetoNoFormulario ;;
            GerenciadorTarefas.renderizarTarefas ;;
            Logger.info "Projeto removido:"
        | None => retornar tt
        end
      else retornar tt
  end.

End GerenciadorProjetos.

(* ===================================================================== *)
(** * The page: start-up and the user's input *)
(* ===================================================================== *)

Module Pagina.

(** The handler of [DOMContentLoaded]: the two managers are built, projects
    first, each constructor loading its list from storage and rendering
    it; then both forms are hidden. *)
Definition DOMContentLoaded : Acao unit :=
  Logger.info "Inicializando Sistema de Gerenciamento de Tarefas" ;;
  modificar (com_gerenciadorProjetos (fun _ =>
    {| projetos := []; projetoEditando := None |})) ;;
  GerenciadorProjetos.carregarProjetos ;;
  Logger.info "Eventos do gerenciador de projetos inicializados" ;;
  modificar (com_gerenciadorTarefas (fun _ =>
    {| tarefas := []; tarefaEditando := None;
       projetoAtivo := "todos"; filtroAtivo := "todas" |})) ;;
  GerenciadorTarefas.carregarTarefas ;;
  Logger.info "Eventos do gerenciador de tarefas inicializados" ;;
  modificar (com_documento (com_form_projeto false)) ;;
  modificar (com_documento (com_form_tarefa false)) ;;
  Logger.info "Sistema inicializado com sucesso".

(** The user types into the task form and picks its two selects. *)
Definition preencher_tarefa (titulo descricao dataVencimento prioridade projeto : string)
  : Acao unit :=
  modificar (com_documento (fun d =>
    {| titulo_tarefa := titulo; descricao_tarefa := descricao;
       data_vencimento := dataVencimento; prioridade_tarefa := prioridade;
       projeto_tarefa := projeto;
       opcoes_projeto_tarefa := opcoes_projeto_tarefa d;
       nome_projeto := nome_projeto d; form_tarefa := form_tarefa d;
       form_projeto := form_projeto d; lista_tarefas := lista_tarefas d;
       lista_projetos := lista_projetos d; titulo_secao := titulo_secao d |})).

(** The user types into the project form. *)
Definition preencher_projeto (nome : string) : Acao unit :=
  modificar (com_documento (fun d =>
    {| titulo_tarefa := titulo_tarefa d; descricao_tarefa := descricao_tarefa d;
       data_vencimento := data_vencimento d;
       prioridade_tarefa := prioridade_tarefa d;
       projeto_tarefa := projeto_tarefa d;
       opcoes_projeto_tarefa := opcoes_projeto_tarefa d;
       nome_projeto := nome; form_tarefa := form_tarefa d;
       form_projeto := form_projeto d; lista_tarefas := lista_tarefas d;
       lista_projetos := lista_projetos d; titulo_secao := titulo_secao d |})).

(** A browser whose storage is empty and never refuses a call, before the
    page's script has run. *)
Definition navegador_novo (amb : Ambiente) : Estado :=
  {| localStorage := {| itens := ∅;
                        falha_leitura := fun _ => None;
                        falha_escrita := fun _ _ _ => None |};
     console := [];
     alertas := [];
     confirmacoes := [];
     documento := {| titulo_tarefa := ""; descricao_tarefa := "";
                     data_vencimento := ""; prioridade_tarefa := "media";
                     projeto_tarefa := ""; opcoes_projeto_tarefa := [];
                     nome_projeto := ""; form_tarefa := false;
                     form_projeto := false; lista_tarefas := [];
                     lista_projetos := []; titulo_secao := "" |};
     ambiente := amb;
     gerenciadorTarefas := {| tarefas := []; tarefaEditando := None;
                              projetoAtivo := "todos"; filtroAtivo := "todas" |};
     gerenciadorProjetos := {| projetos := []; projetoEditando := None |} |}.

End Pagina.

(* ===================================================================== *)
(** * Vocabulary of the statements *)
(* ===================================================================== *)

(** What [salvar] leaves: the item and a line of level [Info], or, when
    the browser refuses the write, a line of level [Error] alone. *)
Definition apos_salvar (chave : string) (dados : valor) (e : Estado) : Estado :=
  let a := localStorage e in
  match falha_escrita a (itens a) chave (JSON.stringify dados) with
  | Some _ =>
      com_console
        (fun c => c ++ [(Error, "[ERROR] "
                                +:+ ("Erro ao salvar dados para chave " +:+ chave +:+ ":"))])
        e
  | None =>
      com_console
        (fun c => c ++ [(Info, "[INFO] " +:+ ("Dados salvos para chave: " +:+ chave))])
        (com_localStorage
           (fun a => {| itens := <[chave := JSON.stringify dados]> (itens a);
                        falha_leitura := falha_leitura a;
                        falha_escrita := falha_escrita a |}) e)
  end.

(** [tarefa.concluida = !tarefa.concluida]. *)
Definition alternar (t : Tarefa.t) : Tarefa.t :=
  Tarefa.com_concluida (negb (Tarefa.concluida t)) t.

(** A string of white space only; the empty string is one. *)
Fixpoint so_espacos (s : string) : bool :=
  match s with
  | EmptyString => true
  | String c r => JSString.espaco c && so_espacos r
  end.

(** A pending task of the project [p]. *)
Definition pendente_do_projeto (p : string) (t : Tarefa.t) : bool :=
  bool_decide (Tarefa.projetoId t = Some p) && negb (Tarefa.concluida t).

(** The scenario of the specification, from a browser without stored data:
    the page starts, the user creates the project "Home", then the task
    "Buy milk" of high priority under it, selects the project and the
    filter of pending tasks.  The result is the filtered list. *)
Definition cenario_compra : Acao (list Tarefa.t) :=
  Pagina.DOMContentLoaded ;;
  Pagina.preencher_projeto "Home" ;;
  GerenciadorProjetos.adicionarProjeto ;;
  gp <- GerenciadorProjetos.este ;;
  match projetos gp with
  | [home] =>
      Pagina.preencher_tarefa "Buy milk" "" "" "alta" (Projeto.id home) ;;
      GerenciadorTarefas.salvarTarefa ;;
      GerenciadorProjetos.selecionarProjeto (Projeto.id home) ;;
      GerenciadorTarefas.aplicarFiltro "pendentes" ;;
      gt <- GerenciadorTarefas.este ;;
      retornar (GerenciadorTarefas.obterTarefasFiltradas gt)
  | _ => retornar []
  end.

(** The object [salvarTarefa] builds from the task form, when [agora] is
    what the clock gives. *)
Definition dados_do_formulario (d : Documento) (agora : string) : Tarefa.Dados.t :=
  Tarefa.Dados.Build
    (JSString.trim (titulo_tarefa d))
    (JSString.trim (descricao_tarefa d))
    (data_vencimento d)
    (prioridade_tarefa d)
    (if JSString.verdadeiro (projeto_tarefa d) then Some (projeto_tarefa d) else None)
    false
    agora.

(** The names of the projects are pairwise distinct up to case. *)
Definition nomes_distintos (l : list Projeto.t) : Prop :=
  NoDup (map (fun p => JSString.toLowerCase (Projeto.nome p)) l).

(** The ids of the projects are pairwise distinct. *)
Definition ids_distintos (l : list Projeto.t) : Prop :=
  NoDup (map Projeto.id l).

(** The alert of [adicionarProjeto] for a name that is taken. *)
Definition alerta_nome_repetido : string :=
  JSString.literal "Já existe um projeto com este nome.".

(** The user's input in the project form, as [adicionarProjeto] reads it. *)
Definition nome_digitado (e : Estado) : string :=
  JSString.trim (nome_projeto (documento e)).

(** The tasks of the project [id]: [tarefasAssociadas] of [removerProjeto]. *)
Definition tarefas_do_projeto (id : string) (e : Estado) : list Tarefa.t :=
  Array.filter (fun t => GerenciadorTarefas.projetoId_igual t id)
               (tarefas (gerenciadorTarefas e)).

(** The question [removerProjeto] asks for a project with [n] tasks. *)
Definition pergunta_remover (n : nat) : string :=
  "Este projeto possui " +:+ JSString.de_numero (N.of_nat n)
  +:+ " tarefa(s) associada(s). "
  +:+ JSString.literal
        "Deseja excluir o projeto mesmo assim? As tarefas ficarão sem projeto.".

(** The rank of a task's priority: 3, 2 or 1, and 0 for a priority that has
    none. *)
Definition posto (t : Tarefa.t) : Z :=
  match GerenciadorTarefas.prioridades (Tarefa.prioridade t) with
  | Some r => r
  | None => 0
  end.

(** A task's priority is "alta", "media" or "baixa". *)
Definition prioridade_valida (t : Tarefa.t) : Prop :=
  is_Some (GerenciadorTarefas.prioridades (Tarefa.prioridade t)).

(** The priorities of the data model, from high to low. *)
Definition niveis_de_prioridade : list string := ["alta"; "media"; "baixa"].

(** A task whose priority is one of the three. *)
Definition prioridade_conhecida (t : Tarefa.t) : Prop :=
  Tarefa.prioridade t ∈ niveis_de_prioridade.

(** The rank of a priority in the words of the specification, written out
    apart from the table of [renderizarTarefas], with which the theorems
    compare it: 3 for "alta" (high), 2 for "media" (medium), 1 for "baixa"
    (low). *)
Definition posto_especificado (p : string) : Z :=
  if String.eqb p "alta" then 3
  else if String.eqb p "media" then 2
  else if String.eqb p "baixa" then 1
  else 0.

(** The tasks with completion [c] and priority [p]. *)
Definition da_classe (c : bool) (p : string) (t : Tarefa.t) : bool :=
  Bool.eqb (Tarefa.concluida t) c && String.eqb (Tarefa.prioridade t) p.

(** Pending tasks first, and in each group the higher rank first. *)
Definition chave (t : Tarefa.t) : Z :=
  (if Tarefa.concluida t then 4 else 0) - posto t.

(** A value as JavaScript builds it: the properties of an object have
    pairwise distinct names, and none of the names is an integer index. *)
Unset Elimination Schemes.
Inductive bem_formado : valor -> Prop :=
  | bf_null : bem_formado VNull
  | bf_bool b : bem_formado (VBool b)
  | bf_str s : bem_formado (VStr s)
  | bf_arr itens : Forall bem_formado itens -> bem_formado (VArr itens)
  | bf_obj campos :
      NoDup (map fst campos) ->
      Forall (fun kv => JSON.chave_indice (fst kv) = false /\ bem_formado (snd kv))
             campos ->
      bem_formado (VObj campos).
Set Elimination Schemes.

(** The number of nested calls the reading of a value's text takes. *)
Fixpoint peso (v : valor) : nat :=
  match v with
  | VArr itens =>
      S ((fix soma (l : list valor) : nat :=
            match l with [] => O | x :: r => S (peso x + soma r) end) itens)
  | VObj campos =>
      S ((fix soma (l : list (string * valor)) : nat :=
            match l with [] => O | kv :: r => S (peso (snd kv) + soma r) end) campos)
  | _ => 1%nat
  end.

Definition peso_itens (l : list valor) : nat :=
  fold_right (fun x n => S (peso x + n)) O l.

Definition peso_campos (l : list (string * valor)) : nat :=
  fold_right (fun kv n => S (peso (snd kv) + n)) O l.

(** The text of one member of an object. *)
Definition serializar_membro (kv : string * valor) : list ascii :=
  JSON.citar (fst kv) ++ ":"%char :: JSON.serializar (snd kv).

(** The console after [carregar] has caught an error. *)
Definition com_erro_ao_carregar (chave : string) (e : Estado) : Estado :=
  com_console
    (fun c => c ++ [(Error, "[ERROR] "
                            +:+ ("Erro ao carregar dados para chave " +:+ chave +:+ ":"))])
    e.

(** The console after [carregar] has read and parsed an item. *)
Definition com_dados_carregados (chave : string) (e : Estado) : Estado :=
  com_console
    (fun c => c ++ [(Info, "[INFO] " +:+ ("Dados carregados para chave: " +:+ chave))])
    e.

(** A value's text starts with one of six characters, none of them white
    space or a closing bracket. *)
Inductive inicio_valor : ascii -> Prop :=
  | inicio_n : inicio_valor "n"%char
  | inicio_t : inicio_valor "t"%char
  | inicio_f : inicio_valor "f"%char
  | inicio_aspas : inicio_valor JSON.aspas
  | inicio_colchete : inicio_valor "["%char
  | inicio_chave : inicio_valor "{"%char.

(** A member of a well-formed object. *)
Definition campo_bem_formado (kv : string * valor) : Prop :=
  JSON.chave_indice (fst kv) = false /\ bem_formado (snd kv).

(** ** Storage and the stores *)

(** The browser refuses no write to [localStorage]. *)
Definition escrita_livre (e : Estado) : Prop :=
  forall m chave texto, falha_escrita (localStorage e) m chave texto = None.

(** What [localStorage] holds under [chave] is what [carregar] reads as
    [v]: the text of [v], or no item at all when [v] is the empty array,
    the default of both stores. *)
Definition guardado (chave : string) (v : valor) (e : Estado) : Prop :=
  itens (localStorage e) !! chave = Some (JSON.stringify v)
  \/ (itens (localStorage e) !! chave = None /\ v = VArr []).

(** Both stores are in [localStorage] as they are in memory. *)
Definition persistido (e : Estado) : Prop :=
  guardado "tarefas" (tarefas_para_valor (tarefas (gerenciadorTarefas e))) e
  /\ guardado "projetos" (projetos_para_valor (projetos (gerenciadorProjetos e))) e.

(** The ids of the tasks are pairwise distinct. *)
Definition ids_tarefas_distintos (l : list Tarefa.t) : Prop :=
  NoDup (map Tarefa.id l).

(** The question [removerTarefa] asks. *)
Definition pergunta_remover_tarefa : string :=
  "Tem certeza que deseja excluir esta tarefa?".

(** Every task's [projetoId] is [null] or the id of a project of the store. *)
Definition referencias_validas (e : Estado) : Prop :=
  forall t p, t ∈ tarefas (gerenciadorTarefas e) -> Tarefa.projetoId t = Some p ->
              exists q, q ∈ projetos (gerenciadorProjetos e) /\ Projeto.id q = p.

(** No task has an empty title. *)
Definition titulos_preenchidos (l : list Tarefa.t) : Prop :=
  Forall (fun t => Tarefa.titulo t <> EmptyString) l.

(** What [gerarId] returns for the prefix of its class. *)
Definition id_gerado (prefixo : string) (a : Ambiente) : string :=
  prefixo +:+ JSString.de_numero (Date_now a) +:+ "_"
  +:+ JSString.substr 2 9 (Math_random_36 a).

(** The selected project is "todos" or a project of the store. *)
Definition projeto_ativo_valido (e : Estado) : Prop :=
  projetoAtivo (gerenciadorTarefas e) = "todos"
  \/ exists q, q ∈ projetos (gerenciadorProjetos e)
               /\ Projeto.id q = projetoAtivo (gerenciadorTarefas e).

(** The collation is a consistent ordering of the strings, as that of a
    locale is. *)
Definition colacao_consistente (a : Ambiente) : Prop :=
  (forall x y z, localeCompare a x y <= 0 -> localeCompare a y z <= 0 ->
                 localeCompare a x z <= 0)
  /\ (forall x y, 0 < localeCompare a x y -> localeCompare a y x <= 0).

(** The projects of [l] come by name in the order of the collation. *)
Definition por_nome (a : Ambiente) (l : list Projeto.t) : Prop :=
  forall i j p q,
    (i < j)%nat -> l !! i = Some p -> l !! j = Some q ->
    localeCompare a (Projeto.nome p) (Projeto.nome q) <= 0.

(** The filters that [obterTarefasFiltradas] tells apart (pending,
    completed, high, medium and low): each has its item in the filter list
    of the page, whose click sends it to [aplicarFiltro]. *)
Definition filtros_da_pagina : list string :=
  ["pendentes"; "concluidas"; "alta"; "media"; "baixa"].

(** A character of the ids [gerarId] builds: a digit, a letter or "_". *)
Definition caractere_de_id (c : ascii) : bool :=
  let n := nat_of_ascii c in
  (Nat.leb 48 n && Nat.leb n 57) || (Nat.leb 65 n && Nat.leb n 90)
  || (Nat.leb 97 n && Nat.leb n 122) || Nat.eqb n 95.

Fixpoint id_simples (s : string) : bool :=
  match s with
  | EmptyString => true
  | String c r => caractere_de_id c && id_simples r
  end.

(** The ids with an item in the project list of the page: "todos", and the
    id of a project listed there when it is made of the characters of
    generated ids, so that it stands unchanged in the markup of its item and
    in the selector that looks the item up. *)
Definition tem_item_projeto (d : Documento) (projetoId : string) : Prop :=
  projetoId = "todos"
  \/ (id_simples projetoId = true
      /\ exists p, p ∈ lista_projetos d /\ Projeto.id p = projetoId).

(** The options [atualizarOpcoesProjetoNoFormulario] writes for the
    projects [ps]. *)
Definition opcoes_de (ps : list Projeto.t) : list (string * string) :=
  ("", "Sem projeto") :: map (fun p => (Projeto.id p, Projeto.nome p)) ps.

(** The tasks of the selected project that the filter [filtro] shows. *)
Definition filtradas (filtro : string) (g : Tarefas) : list Tarefa.t :=
  GerenciadorTarefas.obterTarefasFiltradas (com_filtroAtivo filtro g).

(** No project has an empty name. *)
Definition nomes_preenchidos (l : list Projeto.t) : Prop :=
  Forall (fun p => Projeto.nome p <> EmptyString) l.

(** ** Sample data *)

Module Exemplo.

(** A collation for the sample runs: the names without case, by code
    unit. *)
Definition comparar_sem_caixa (a b : string) : Z :=
  match String.compare (JSString.toLowerCase a) (JSString.toLowerCase b) with
  | Lt => -1
  | Eq => 0
  | Gt => 1
  end.

Definition amb : Ambiente :=
  {| Date_now := 1762077600000%N;
     Date_toISOString := "2025-11-02T10:00:00.000Z";
     Math_random_36 := "0.4fzyo82mvyr";
     resposta := true;
     localeCompare := comparar_sem_caixa |}.

Definition leite : Tarefa.t :=
  {| Tarefa.id := "tarefa_1"; Tarefa.titulo := "Buy milk";
     Tarefa.descricao := ""; Tarefa.dataVencimento := "";
     Tarefa.prioridade := "alta"; Tarefa.projetoId := Some "projeto_1";
     Tarefa.concluida := false;
     Tarefa.dataCriacao := "2025-10-01T08:00:00.000Z" |}.

Definition relatorio : Tarefa.t :=
  {| Tarefa.id := "tarefa_2"; Tarefa.titulo := "Report";
     Tarefa.descricao := "quarterly"; Tarefa.dataVencimento := "2025-12-01";
     Tarefa.prioridade := "media"; Tarefa.projetoId := Some "projeto_2";
     Tarefa.concluida := true;
     Tarefa.dataCriacao := "2025-10-02T09:30:00.000Z" |}.

Definition casa : Projeto.t :=
  {| Projeto.id := "projeto_1"; Projeto.nome := "Home";
     Projeto.dataCriacao := "2025-09-30T12:00:00.000Z" |}.

Definition trabalho : Projeto.t :=
  {| Projeto.id := "projeto_2"; Projeto.nome := "Work";
     Projeto.dataCriacao := "2025-09-30T12:05:00.000Z" |}.

(** The page after start-up with the given lists in its two stores. *)
Definition estado (ts : list Tarefa.t) (ps : list Projeto.t) : Estado :=
  com_gerenciadorProjetos (com_projetos (fun _ => ps))
    (com_gerenciadorTarefas (com_tarefas (fun _ => ts))
       (Pagina.navegador_novo amb)).

(** The page with the task form open on [t]: the fields hold the values of [t]
    and the title has been changed to [titulo]. *)
Definition editando (t : Tarefa.t) (titulo : string) (e : Estado) : Estado :=
  estado_apos
    (Pagina.preencher_tarefa titulo (Tarefa.descricao t) (Tarefa.dataVencimento t)
       (Tarefa.prioridade t)
       (match Tarefa.projetoId t with Some p => p | None => "" end))
    (com_gerenciadorTarefas (com_tarefaEditando (Some t)) e).

End Exemplo.

(* ===================================================================== *)
(** * Running the actions *)
(* ===================================================================== *)

Section Execucao.

Lemma salvar_executa chave dados e :
  GerenciadorArmazenamento.salvar chave dados e = (Retorna tt, apos_salvar chave dados e).
Proof.
  unfold GerenciadorArmazenamento.salvar, apos_salvar, tentar, ligar,
    Navegador.setItem, Logger.info, Logger.error, modificar.
  destruct (falha_escrita _ _ _ _); reflexivity.
Qed.

Lemma apos_salvar_gerenciadorTarefas chave dados e :
  gerenciadorTarefas (apos_salvar chave dados e) = gerenciadorTarefas e.
Proof. unfold apos_salvar. now destruct (falha_escrita _ _ _ _). Qed.

Lemma apos_salvar_gerenciadorProjetos chave dados e :
  gerenciadorProjetos (apos_salvar chave dados e) = gerenciadorProjetos e.
Proof. unfold apos_salvar. now destruct (falha_escrita _ _ _ _). Qed.

Lemma apos_salvar_documento chave dados e :
  documento (apos_salvar chave dados e) = documento e.
Proof. unfold apos_salvar. now destruct (falha_escrita _ _ _ _). Qed.

Lemma apos_salvar_ambiente chave dados e :
  ambiente (apos_salvar chave dados e) = ambiente e.
Proof. unfold apos_salvar. now destruct (falha_escrita _ _ _ _). Qed.

Lemma apos_salvar_alertas chave dados e :
  alertas (apos_salvar chave dados e) = alertas e.
Proof. unfold apos_salvar. now destruct (falha_escrita _ _ _ _). Qed.

Lemma apos_salvar_confirmacoes chave dados e :
  confirmacoes (apos_salvar chave dados e) = confirmacoes e.
Proof. unfold apos_salvar. now destruct (falha_escrita _ _ _ _). Qed.

Lemma salvarTarefas_executa e :
  GerenciadorTarefas.salvarTarefas e
  = (Retorna tt,
     apos_salvar "tarefas" (tarefas_para_valor (tarefas (gerenciadorTarefas e))) e).
Proof.
  unfold GerenciadorTarefas.salvarTarefas, GerenciadorTarefas.este, ligar, ler, retornar.
  apply salvar_executa.
Qed.

Lemma salvarProjetos_executa e :
  GerenciadorProjetos.salvarProjetos e
  = (Retorna tt,
     apos_salvar "projetos" (projetos_para_valor (projetos (gerenciadorProjetos e))) e).
Proof.
  unfold GerenciadorProjetos.salvarProjetos, GerenciadorProjetos.este, ligar, ler, retornar.
  apply salvar_executa.
Qed.

Lemma renderizarTarefas_executa e :
  GerenciadorTarefas.renderizarTarefas e
  = (Retorna tt,
     com_documento
       (com_lista_tarefas (GerenciadorTarefas.ordem_de_exibicao (gerenciadorTarefas e))) e).
Proof.
  unfold GerenciadorTarefas.renderizarTarefas, GerenciadorTarefas.ordem_de_exibicao,
    GerenciadorTarefas.este, GerenciadorTarefas.escrever_lista_tarefas,
    ligar, ler, retornar, modificar.
  now destruct (GerenciadorTarefas.obterTarefasFiltradas _).
Qed.

Lemma renderizarProjetos_executa e :
  GerenciadorProjetos.renderizarProjetos e
  = (Retorna tt,
     com_documento
       (com_lista_projetos (GerenciadorProjetos.ordem_de_exibicao e)) e).
Proof.
  unfold GerenciadorProjetos.renderizarProjetos, GerenciadorProjetos.ordem_de_exibicao,
    GerenciadorProjetos.este, ligar, ler, retornar, modificar.
  now destruct (projetos _).
Qed.

End Execucao.

(** Rewriting a sequence of actions into the state it leaves. *)
Ltac executar :=
  repeat first
    [ rewrite salvarTarefas_executa
    | rewrite salvarProjetos_executa
    | rewrite renderizarTarefas_executa
    | rewrite renderizarProjetos_executa
    | rewrite salvar_executa
    | progress cbv beta iota delta
        [ligar retornar ler modificar lancar fst snd estado_apos resultado_de
         GerenciadorTarefas.este GerenciadorTarefas.atribuir
         GerenciadorTarefas.cancelarEdicao GerenciadorTarefas.gerarId
         GerenciadorTarefas.atualizarOpcoesProjetoNoFormulario
         GerenciadorTarefas.definirProjetoAtivo GerenciadorTarefas.aplicarFiltro
         GerenciadorProjetos.selecionarProjeto
         GerenciadorProjetos.este GerenciadorProjetos.atribuir
         GerenciadorProjetos.cancelarEdicao GerenciadorProjetos.gerarId
         Logger.info Logger.error Logger.warn
         Navegador.alert Navegador.confirm] ].

Ltac projetar :=
  repeat first
    [ rewrite apos_salvar_gerenciadorTarefas
    | rewrite apos_salvar_gerenciadorProjetos
    | rewrite apos_salvar_documento
    | rewrite apos_salvar_ambiente
    | rewrite apos_salvar_alertas
    | rewrite apos_salvar_confirmacoes
    | progress cbn [gerenciadorTarefas gerenciadorProjetos documento ambiente
                    alertas confirmacoes console localStorage
                    com_gerenciadorTarefas com_gerenciadorProjetos com_documento
                    com_console com_alertas com_confirmacoes com_localStorage
                    tarefas tarefaEditando projetoAtivo filtroAtivo
                    com_tarefas com_tarefaEditando com_projetoAtivo com_filtroAtivo
                    projetos projetoEditando com_projetos com_projetoEditando] ].

(** Projections of the page's elements after the methods' updates. *)
Ltac projetar_documento :=
  repeat first
    [ progress projetar
    | progress cbn [titulo_tarefa descricao_tarefa data_vencimento prioridade_tarefa
                    projeto_tarefa opcoes_projeto_tarefa nome_projeto form_tarefa
                    form_projeto lista_tarefas lista_projetos titulo_secao
                    com_form_tarefa com_form_projeto com_lista_tarefas
                    com_lista_projetos com_titulo_secao com_projeto_tarefa] ].

(* ===================================================================== *)
(** * Facts about arrays *)
(* ===================================================================== *)

Section FatosArray.
Context {A : Type}.
Implicit Types (p : A -> bool) (l : list A).

Lemma findIndex_Some p l i :
  Array.findIndex p l = Some i ->
  exists x, l !! i = Some x /\ p x = true
            /\ forall j y, (j < i)%nat -> l !! j = Some y -> p y = false.
Proof.
  revert i. induction l as [|a l IH]; intros i; cbn; [discriminate|].
  destruct (p a) eqn:Hp.
  - intros [= <-]. exists a. repeat split; auto. intros j y Hj. lia.
  - destruct (Array.findIndex p l) as [k|]; cbn; [|discriminate].
    intros [= <-]. destruct (IH k eq_refl) as (x & Hx & Hpx & Hlt).
    exists x. repeat split; auto.
    intros [|j] y Hj; cbn; [congruence|]. apply Hlt. lia.
Qed.

Lemma findIndex_None p l :
  Array.findIndex p l = None <-> forall x, x ∈ l -> p x = false.
Proof.
  induction l as [|a l IH]; cbn.
  - split; [intros _ x Hx; inversion Hx | auto].
  - destruct (p a) eqn:Hp.
    + split; [discriminate|]. intros H. specialize (H a (list_elem_of_here _ _)). congruence.
    + destruct (Array.findIndex p l) as [k|]; cbn.
      * split; [discriminate|]. intros H.
        assert (Some k = None) as Hk; [|discriminate].
        apply IH. intros x Hx. apply H. now right.
      * split; [|reflexivity]. intros _ x Hx.
        apply elem_of_cons in Hx as [->|Hx]; [assumption|].
        now apply IH.
Qed.

(** The first position that holds an element with [p] is what [findIndex]
    gives. *)
Lemma findIndex_primeiro p l i x :
  l !! i = Some x -> p x = true ->
  (forall j y, (j < i)%nat -> l !! j = Some y -> p y = false) ->
  Array.findIndex p l = Some i.
Proof.
  revert i. induction l as [|a l IH]; intros i; [rewrite lookup_nil; discriminate|].
  destruct i as [|i]; cbn.
  - intros [= ->] -> _. reflexivity.
  - intros Hx Hp Hlt. rewrite (Hlt O a); [|lia|reflexivity].
    rewrite (IH i); auto. intros j y Hj Hy. apply (Hlt (S j)); [lia|exact Hy].
Qed.

Lemma findIndex_alter p (f : A -> A) l i :
  (forall x, p (f x) = p x) ->
  Array.findIndex p (alter f i l) = Array.findIndex p l.
Proof.
  intros Hf. revert i. induction l as [|a l IH]; intros [|i]; cbn; auto.
  - now rewrite Hf.
  - now rewrite IH.
Qed.

Lemma find_findIndex p l :
  Array.find p l = None <-> Array.findIndex p l = None.
Proof.
  unfold Array.find. induction l as [|a l IH]; cbn; [tauto|].
  destruct (p a); [split; discriminate|].
  destruct (Array.findIndex p l); cbn; rewrite IH; split; auto; discriminate.
Qed.

Lemma lookup_splice1_lt l i j : (j < i)%nat -> Array.splice1 i l !! j = l !! j.
Proof.
  revert i j. induction l as [|a l IH]; intros [|i] [|j] H; cbn; auto; try lia.
  apply IH. lia.
Qed.

Lemma lookup_splice1_ge l i j : (i <= j)%nat -> Array.splice1 i l !! j = l !! S j.
Proof.
  revert i j. induction l as [|a l IH]; intros [|i] [|j] H; cbn; auto; try lia.
  apply IH. lia.
Qed.

End FatosArray.

(* ===================================================================== *)
(** * alternarConclusao *)
(* ===================================================================== *)

Section AlternarConclusao.

Lemma alternar_alternar t : alternar (alternar t) = t.
Proof. destruct t as [? ? ? ? ? ? c ?]. unfold alternar. cbn. now rewrite negb_involutive. Qed.

Lemma alternarConclusao_tarefas id e :
  tarefas (gerenciadorTarefas (estado_apos (GerenciadorTarefas.alternarConclusao id) e))
  = match Array.findIndex (fun t => String.eqb (Tarefa.id t) id)
                          (tarefas (gerenciadorTarefas e)) with
    | Some i => alter alternar i (tarefas (gerenciadorTarefas e))
    | None => tarefas (gerenciadorTarefas e)
    end.
Proof.
  unfold GerenciadorTarefas.alternarConclusao. executar.
  destruct (Array.findIndex _ _) as [i|]; [|reflexivity].
  executar. projetar.
  destruct (alter _ i _ !! i); executar; projetar; reflexivity.
Qed.

Lemma alternarConclusao_duas_vezes_tarefas id e :
  let uma := estado_apos (GerenciadorTarefas.alternarConclusao id) in
  tarefas (gerenciadorTarefas (uma (uma e))) = tarefas (gerenciadorTarefas e).
Proof.
  cbv zeta. rewrite !alternarConclusao_tarefas.
  destruct (Array.findIndex _ (tarefas (gerenciadorTarefas e))) as [i|] eqn:Hi.
  - rewrite findIndex_alter, Hi.
    + rewrite list_alter_alter_eq. apply list_alter_id. intros x. apply alternar_alternar.
    + now intros [].
  - now rewrite Hi.
Qed.

Lemma alternarConclusao_ausente id e :
  Array.findIndex (fun t => String.eqb (Tarefa.id t) id)
                  (tarefas (gerenciadorTarefas e)) = None ->
  GerenciadorTarefas.alternarConclusao id e = (Retorna tt, e).
Proof.
  intros H. unfold GerenciadorTarefas.alternarConclusao. executar. now rewrite H.
Qed.

(** C7: toggling the completion of a task twice gives the task list
    back, so the task's [concluida] has its first value and every field of
    every task is as it was.  One toggle negates [concluida] on the first
    task that has the id, keeps that task's other fields and keeps every
    other position of the list.  For an id that no task has, the method
    does nothing at all: the whole state is unchanged. *)
Theorem alternarConclusao_involutiva (e : Estado) (id : string) :
  let uma := estado_apos (GerenciadorTarefas.alternarConclusao id) in
  tarefas (gerenciadorTarefas (uma (uma e))) = tarefas (gerenciadorTarefas e)
  /\ (forall i t,
        tarefas (gerenciadorTarefas e) !! i = Some t ->
        Tarefa.id t = id ->
        (forall j t', (j < i)%nat ->
                      tarefas (gerenciadorTarefas e) !! j = Some t' ->
                      Tarefa.id t' <> id) ->
        tarefas (gerenciadorTarefas (uma e)) !! i
        = Some (Tarefa.com_concluida (negb (Tarefa.concluida t)) t)
        /\ forall j, j <> i ->
                     tarefas (gerenciadorTarefas (uma e)) !! j
                     = tarefas (gerenciadorTarefas e) !! j)
  /\ ((forall t, t ∈ tarefas (gerenciadorTarefas e) -> Tarefa.id t <> id) ->
      GerenciadorTarefas.alternarConclusao id e = (Retorna tt, e)).
Proof.
  intros uma. split; [apply alternarConclusao_duas_vezes_tarefas|]. split.
  - intros i t Hi Hid Hantes. subst uma. cbv beta.
    rewrite alternarConclusao_tarefas.
    rewrite (findIndex_primeiro _ _ i t Hi).
    + split.
      * rewrite list_lookup_alter_eq, Hi. reflexivity.
      * intros j Hj. apply list_lookup_alter_ne. congruence.
    + now apply String.eqb_eq.
    + intros j y Hj Hy. apply String.eqb_neq. eauto.
  - intros Hausente. apply alternarConclusao_ausente.
    apply findIndex_None. intros x Hx. apply String.eqb_neq. auto.
Qed.

Lemma alternarConclusao_involutiva_witness :
  let e := Exemplo.estado [Exemplo.leite; Exemplo.relatorio] [] in
  let uma := estado_apos (GerenciadorTarefas.alternarConclusao "tarefa_2") in
  tarefas (gerenciadorTarefas (uma (uma e))) = [Exemplo.leite; Exemplo.relatorio]
  /\ tarefas (gerenciadorTarefas (uma e)) !! 1%nat
     = Some (Tarefa.com_concluida false Exemplo.relatorio)
  /\ tarefas (gerenciadorTarefas (uma e)) !! 0%nat = Some Exemplo.leite
  /\ GerenciadorTarefas.alternarConclusao "tarefa_3" e = (Retorna tt, e).
Proof.
  intros e uma.
  destruct (alternarConclusao_involutiva e "tarefa_2") as (H2 & H1 & _).
  destruct (alternarConclusao_involutiva e "tarefa_3") as (_ & _ & H0).
  destruct (H1 1%nat Exemplo.relatorio) as (Ha & Hb).
  - reflexivity.
  - reflexivity.
  - intros [|j] t' Hj; [|lia]. intros [= <-]. discriminate.
  - split; [exact H2|]. split; [exact Ha|]. split; [exact (Hb 0%nat (O_S _))|].
    apply H0. intros t Ht.
    apply elem_of_cons in Ht as [->|Ht]; [discriminate|].
    apply elem_of_cons in Ht as [->|Ht]; [discriminate|].
    now apply elem_of_nil in Ht.
Defined.

End AlternarConclusao.


(* ===================================================================== *)
(** * salvarTarefa: the title is required *)
(* ===================================================================== *)

Section TituloObrigatorio.

Lemma trimStart_so_espacos s : so_espacos s = true -> JSString.trimStart s = EmptyString.
Proof.
  induction s as [|c r IH]; cbn; [reflexivity|].
  intros [Hc Hr]%andb_prop. rewrite Hc. auto.
Qed.

Lemma trim_so_espacos s : so_espacos s = true -> JSString.trim s = EmptyString.
Proof. intros H. unfold JSString.trim. now rewrite trimStart_so_espacos. Qed.

(** C6: submitting the task form with a title that is empty or white space
    only reports the validation error with [alert] and does nothing else:
    the state after the call is the state before it with the one message
    added to the alerts shown, so the task list, every task in it and the
    items of [localStorage] are as they were. *)
Theorem salvarTarefa_titulo_vazio (e : Estado) :
  so_espacos (titulo_tarefa (documento e)) = true ->
  GerenciadorTarefas.salvarTarefa e
  = (Retorna tt,
     com_alertas
       (fun a => a ++ [JSString.literal "O título da tarefa é obrigatório."]) e)
  /\ let e' := estado_apos GerenciadorTarefas.salvarTarefa e in
     tarefas (gerenciadorTarefas e') = tarefas (gerenciadorTarefas e)
     /\ localStorage e' = localStorage e
     /\ alertas e' <> alertas e.
Proof.
  intros H.
  assert (GerenciadorTarefas.salvarTarefa e
          = (Retorna tt,
             com_alertas
               (fun a => a ++ [JSString.literal "O título da tarefa é obrigatório."]) e))
    as Heq.
  { unfold GerenciadorTarefas.salvarTarefa. executar.
    rewrite (trim_so_espacos _ H). reflexivity. }
  split; [exact Heq|]. unfold estado_apos. rewrite Heq. cbn [snd]. projetar.
  repeat split. intros Habs.
  apply (f_equal length) in Habs. rewrite length_app in Habs.
  cbn [length] in Habs. lia.
Qed.

Lemma salvarTarefa_titulo_vazio_witness :
  let e := estado_apos (Pagina.preencher_tarefa "   " "note" "" "alta" "")
             (Exemplo.estado [Exemplo.leite] [Exemplo.casa]) in
  tarefas (gerenciadorTarefas (estado_apos GerenciadorTarefas.salvarTarefa e))
  = [Exemplo.leite]
  /\ localStorage (estado_apos GerenciadorTarefas.salvarTarefa e) = localStorage e.
Proof.
  intros e.
  destruct (salvarTarefa_titulo_vazio e) as (_ & Ht & Hs & _); [reflexivity|].
  split; [exact Ht | exact Hs].
Defined.

End TituloObrigatorio.


(* ===================================================================== *)
(** * obterTarefasFiltradas *)
(* ===================================================================== *)

Section Filtro.

Lemma projetoId_igual_decide t p :
  GerenciadorTarefas.projetoId_igual t p = bool_decide (Tarefa.projetoId t = Some p).
Proof.
  unfold GerenciadorTarefas.projetoId_igual.
  destruct (Tarefa.projetoId t) as [q|].
  - destruct (String.eqb_spec q p) as [->|Hne].
    + now rewrite bool_decide_eq_true_2.
    + rewrite bool_decide_eq_false_2; [reflexivity|]. congruence.
  - now rewrite bool_decide_eq_false_2.
Qed.

Lemma filter_filter {A} (p q : A -> bool) l :
  List.filter q (List.filter p l) = List.filter (fun x => p x && q x) l.
Proof.
  induction l as [|a l IH]; cbn; [reflexivity|].
  destruct (p a); cbn; [destruct (q a)|]; now rewrite IH.
Qed.

Lemma obterTarefasFiltradas_projeto_pendentes g :
  filtroAtivo g = "pendentes" -> projetoAtivo g <> "todos" ->
  GerenciadorTarefas.obterTarefasFiltradas g
  = List.filter (pendente_do_projeto (projetoAtivo g)) (tarefas g).
Proof.
  intros Hf Hp. unfold GerenciadorTarefas.obterTarefasFiltradas, Array.filter.
  rewrite Hf. cbn [String.eqb Ascii.eqb Bool.eqb]. cbv iota.
  apply String.eqb_neq in Hp. rewrite Hp. cbn [negb].
  rewrite filter_filter. apply List.filter_ext. intros t.
  unfold pendente_do_projeto. now rewrite projetoId_igual_decide.
Qed.

Lemma obterTarefasFiltradas_todos_pendentes g :
  filtroAtivo g = "pendentes" -> projetoAtivo g = "todos" ->
  GerenciadorTarefas.obterTarefasFiltradas g
  = List.filter (fun t => negb (Tarefa.concluida t)) (tarefas g).
Proof.
  intros Hf Hp. unfold GerenciadorTarefas.obterTarefasFiltradas, Array.filter.
  rewrite Hf, Hp. reflexivity.
Qed.

Lemma cenario_compra_resultado :
  resultado_de cenario_compra (Pagina.navegador_novo Exemplo.amb)
  = Retorna [ {| Tarefa.id := "tarefa_1762077600000_4fzyo82mv";
                 Tarefa.titulo := "Buy milk";
                 Tarefa.descricao := "";
                 Tarefa.dataVencimento := "";
                 Tarefa.prioridade := "alta";
                 Tarefa.projetoId := Some "projeto_1762077600000_4fzyo82mv";
                 Tarefa.concluida := false;
                 Tarefa.dataCriacao := "2025-11-02T10:00:00.000Z" |} ].
Proof. vm_compute. reflexivity. Qed.

(** C4: with the filter of pending tasks, the filtered list is the task list
    restricted, in its order, to the tasks that are not completed and, when
    the active project is a project id and not "todos", whose [projetoId] is
    that id; with "todos" no task is left out for its project.  In the
    scenario of the specification (project "Home", one pending task "Buy
    milk" of high priority under it, project and filter selected) the
    filtered list is that one task. *)
Theorem obterTarefasFiltradas_pendentes (g : Tarefas) :
  filtroAtivo g = "pendentes" ->
  (projetoAtivo g <> "todos" ->
   GerenciadorTarefas.obterTarefasFiltradas g
   = List.filter (pendente_do_projeto (projetoAtivo g)) (tarefas g)
   /\ forall t, t ∈ GerenciadorTarefas.obterTarefasFiltradas g
               <-> t ∈ tarefas g /\ Tarefa.projetoId t = Some (projetoAtivo g)
                   /\ Tarefa.concluida t = false)
  /\ (projetoAtivo g = "todos" ->
      GerenciadorTarefas.obterTarefasFiltradas g
      = List.filter (fun t => negb (Tarefa.concluida t)) (tarefas g)
      /\ forall t, t ∈ GerenciadorTarefas.obterTarefasFiltradas g
                  <-> t ∈ tarefas g /\ Tarefa.concluida t = false)
  /\ (exists t,
        resultado_de cenario_compra (Pagina.navegador_novo Exemplo.amb) = Retorna [t]
        /\ Tarefa.titulo t = "Buy milk" /\ Tarefa.prioridade t = "alta"
        /\ Tarefa.concluida t = false).
Proof.
  intros Hf. split; [|split].
  - intros Hp. rewrite (obterTarefasFiltradas_projeto_pendentes g Hf Hp).
    split; [reflexivity|]. intros t.
    rewrite list_elem_of_In, List.filter_In, <- list_elem_of_In.
    unfold pendente_do_projeto.
    rewrite andb_true_iff, bool_decide_eq_true, negb_true_iff. tauto.
  - intros Hp. rewrite (obterTarefasFiltradas_todos_pendentes g Hf Hp).
    split; [reflexivity|]. intros t.
    rewrite list_elem_of_In, List.filter_In, <- list_elem_of_In, negb_true_iff.
    tauto.
  - eexists. split; [apply cenario_compra_resultado|]. repeat split.
Qed.

Lemma obterTarefasFiltradas_pendentes_witness :
  let g x := {| tarefas := [Exemplo.relatorio; Exemplo.leite;
                            Tarefa.com_projetoId (Some "projeto_2") Exemplo.leite];
                tarefaEditando := None;
                projetoAtivo := x; filtroAtivo := "pendentes" |} in
  GerenciadorTarefas.obterTarefasFiltradas (g "projeto_1") = [Exemplo.leite]
  /\ GerenciadorTarefas.obterTarefasFiltradas (g "todos")
     = [Exemplo.leite; Tarefa.com_projetoId (Some "projeto_2") Exemplo.leite].
Proof.
  intros g. split.
  - destruct (obterTarefasFiltradas_pendentes (g "projeto_1") eq_refl) as (H & _ & _).
    destruct H as (H & _); [discriminate|]. exact H.
  - destruct (obterTarefasFiltradas_pendentes (g "todos") eq_refl) as (_ & H & _).
    destruct H as (H & _); [reflexivity|]. exact H.
Defined.

End Filtro.


(* ===================================================================== *)
(** * salvarTarefa: editing a task *)
(* ===================================================================== *)

Section Edicao.

(** The task list after a submission in editing mode that passes the
    validation and finds the task: the object at the task's position is
    replaced by the spread of the old object and of the form's data, which
    carry [concluida: false] and the present time as [dataCriacao]. *)
Lemma salvarTarefa_edicao_tarefas e editando indice :
  JSString.verdadeiro (JSString.trim (titulo_tarefa (documento e))) = true ->
  tarefaEditando (gerenciadorTarefas e) = Some editando ->
  Array.findIndex (fun t => String.eqb (Tarefa.id t) (Tarefa.id editando))
                  (tarefas (gerenciadorTarefas e)) = Some indice ->
  tarefas (gerenciadorTarefas (estado_apos GerenciadorTarefas.salvarTarefa e))
  = match tarefas (gerenciadorTarefas e) !! indice with
    | Some antiga =>
        <[indice := Tarefa.espalhar antiga
                      (dados_do_formulario (documento e)
                                           (Date_toISOString (ambiente e)))]>
          (tarefas (gerenciadorTarefas e))
    | None => tarefas (gerenciadorTarefas e)
    end.
Proof.
  intros Ht Hed Hi. unfold GerenciadorTarefas.salvarTarefa. executar.
  rewrite Ht. cbn [negb]. cbv iota. rewrite Hed, Hi. executar. projetar.
  reflexivity.
Qed.

(** C1, on the code: the form is open on the completed task "Report", the
    user changes the title and submits.  The task keeps its id and takes the
    new title, and it is pending again and its [dataCriacao] is the time of
    the edit: the edit does not keep [concluida] and [dataCriacao]. *)
Theorem salvarTarefa_edicao_redefine_concluida :
  let e := Exemplo.editando Exemplo.relatorio "Report v2"
             (Exemplo.estado [Exemplo.leite; Exemplo.relatorio]
                             [Exemplo.casa; Exemplo.trabalho]) in
  let e' := estado_apos GerenciadorTarefas.salvarTarefa e in
  tarefas (gerenciadorTarefas e) !! 1%nat = Some Exemplo.relatorio
  /\ Tarefa.concluida Exemplo.relatorio = true
  /\ tarefas (gerenciadorTarefas e')
     = [Exemplo.leite;
        {| Tarefa.id := "tarefa_2"; Tarefa.titulo := "Report v2";
           Tarefa.descricao := "quarterly"; Tarefa.dataVencimento := "2025-12-01";
           Tarefa.prioridade := "media"; Tarefa.projetoId := Some "projeto_2";
           Tarefa.concluida := false;
           Tarefa.dataCriacao := "2025-11-02T10:00:00.000Z" |}]
  /\ Tarefa.dataCriacao Exemplo.relatorio <> "2025-11-02T10:00:00.000Z".
Proof.
  intros e e'. split; [reflexivity|]. split; [reflexivity|]. split.
  - subst e'. rewrite (salvarTarefa_edicao_tarefas e Exemplo.relatorio 1%nat);
      reflexivity.
  - discriminate.
Qed.

End Edicao.


(* ===================================================================== *)
(** * adicionarProjeto *)
(* ===================================================================== *)

Section AdicionarProjeto.

Lemma adicionarProjeto_sem_nome e :
  JSString.verdadeiro (nome_digitado e) = false ->
  GerenciadorProjetos.adicionarProjeto e
  = (Retorna tt,
     com_alertas
       (fun a => a ++ [JSString.literal "O nome do projeto é obrigatório."]) e).
Proof.
  intros H. unfold GerenciadorProjetos.adicionarProjeto, nome_digitado in *.
  executar. now rewrite H.
Qed.

Lemma adicionarProjeto_repetido e existente :
  JSString.verdadeiro (nome_digitado e) = true ->
  Array.find (GerenciadorProjetos.mesmo_nome (nome_digitado e)
                (projetoEditando (gerenciadorProjetos e)))
             (projetos (gerenciadorProjetos e)) = Some existente ->
  GerenciadorProjetos.adicionarProjeto e
  = (Retorna tt, com_alertas (fun a => a ++ [alerta_nome_repetido]) e).
Proof.
  intros H Hf. unfold GerenciadorProjetos.adicionarProjeto, nome_digitado in *.
  executar. rewrite H. cbn [negb]. cbv beta iota. rewrite Hf.
  unfold alerta_nome_repetido. reflexivity.
Qed.

(** The project list after a submission that passes both checks. *)
Lemma adicionarProjeto_aceito e :
  JSString.verdadeiro (nome_digitado e) = true ->
  Array.find (GerenciadorProjetos.mesmo_nome (nome_digitado e)
                (projetoEditando (gerenciadorProjetos e)))
             (projetos (gerenciadorProjetos e)) = None ->
  let e' := estado_apos GerenciadorProjetos.adicionarProjeto e in
  projetos (gerenciadorProjetos e')
  = match projetoEditando (gerenciadorProjetos e) with
    | Some editando =>
        match Array.findIndex
                (fun p => String.eqb (Projeto.id p) (Projeto.id editando))
                (projetos (gerenciadorProjetos e)) with
        | Some indice =>
            alter (Projeto.com_nome (nome_digitado e)) indice
                  (projetos (gerenciadorProjetos e))
        | None => projetos (gerenciadorProjetos e)
        end
    | None =>
        projetos (gerenciadorProjetos e)
        ++ [Projeto.Build
              ("projeto_" +:+ JSString.de_numero (Date_now (ambiente e)) +:+ "_"
               +:+ JSString.substr 2 9 (Math_random_36 (ambiente e)))
              (nome_digitado e)
              (Date_toISOString (ambiente e))]
    end
  /\ alertas e' = alertas e
  /\ tarefas (gerenciadorTarefas e') = tarefas (gerenciadorTarefas e).
Proof.
  intros H Hf. unfold GerenciadorProjetos.adicionarProjeto, nome_digitado in *.
  executar. rewrite H. cbn [negb]. cbv beta iota. rewrite Hf.
  destruct (projetoEditando (gerenciadorProjetos e)) as [ed|].
  - destruct (Array.findIndex _ _) as [i|]; executar; projetar; auto.
  - executar. projetar. auto.
Qed.

Lemma map_fmap {A B} (f : A -> B) (l : list A) : map f l = f <$> l.
Proof. induction l as [|a l IH]; cbn; [reflexivity|]. now rewrite IH. Qed.

Lemma find_None_forall {A} (p : A -> bool) l :
  Array.find p l = None <-> forall x, x ∈ l -> p x = false.
Proof. rewrite find_findIndex. apply findIndex_None. Qed.

(** No project has the typed name, when a project is being created. *)
Lemma mesmo_nome_criando nome l :
  Array.find (GerenciadorProjetos.mesmo_nome nome None) l = None <->
  forall p, p ∈ l ->
    JSString.toLowerCase (Projeto.nome p) <> JSString.toLowerCase nome.
Proof.
  rewrite find_None_forall. unfold GerenciadorProjetos.mesmo_nome.
  split; intros H p Hp; specialize (H p Hp).
  - rewrite andb_true_r in H. now apply String.eqb_neq.
  - rewrite andb_true_r. now apply String.eqb_neq.
Qed.

(** Only projects with the id under edit have the typed name. *)
Lemma mesmo_nome_editando nome ed l :
  Array.find (GerenciadorProjetos.mesmo_nome nome (Some ed)) l = None <->
  forall p, p ∈ l ->
    JSString.toLowerCase (Projeto.nome p) = JSString.toLowerCase nome ->
    Projeto.id p = Projeto.id ed.
Proof.
  rewrite find_None_forall. unfold GerenciadorProjetos.mesmo_nome.
  split; intros H p Hp.
  - intros Hn. specialize (H p Hp). apply String.eqb_eq in Hn. rewrite Hn in H.
    cbn in H. apply negb_false_iff in H. now apply String.eqb_eq.
  - destruct (String.eqb_spec (JSString.toLowerCase (Projeto.nome p))
                              (JSString.toLowerCase nome)) as [Hn|Hn]; [|reflexivity].
    cbn. apply negb_false_iff, String.eqb_eq. auto.
Qed.

Lemma NoDup_map_alter {A B} `{EqDecision B} (f : A -> B) (g : A -> A) l i p :
  l !! i = Some p ->
  (forall j q, j <> i -> l !! j = Some q -> f q <> f (g p)) ->
  NoDup (map f l) -> NoDup (map f (alter g i l)).
Proof.
  intros Hi Hfora. rewrite !map_fmap, !NoDup_alt. intros Hnd j k x.
  rewrite !list_lookup_fmap.
  destruct (decide (j = i)) as [->|Hj], (decide (k = i)) as [->|Hk]; [auto|..].
  - rewrite list_lookup_alter_eq, Hi, list_lookup_alter_ne by auto. cbn.
    intros [= <-]. destruct (l !! k) as [q|] eqn:Hq; cbn; [|discriminate].
    intros [= Heq]. now destruct (Hfora k q Hk Hq).
  - rewrite list_lookup_alter_eq, Hi, list_lookup_alter_ne by auto. cbn.
    destruct (l !! j) as [q|] eqn:Hq; cbn; [|discriminate].
    intros [= <-] [= Heq]. now destruct (Hfora j q Hj Hq).
  - rewrite !list_lookup_alter_ne by auto. rewrite <- !list_lookup_fmap. apply Hnd.
Qed.

Lemma NoDup_map_push {A B} (f : A -> B) l x :
  (forall y, y ∈ l -> f y <> f x) ->
  NoDup (map f l) -> NoDup (map f (Array.push l x)).
Proof.
  intros Hx Hnd. unfold Array.push. rewrite map_app. apply NoDup_app.
  split; [assumption|]. split; [|apply NoDup_singleton].
  intros b Hb Hb'. apply list_elem_of_singleton in Hb' as ->.
  rewrite map_fmap in Hb. apply list_elem_of_fmap in Hb as (y & Hy & Hin).
  now destruct (Hx y Hin).
Qed.

Lemma ids_distintos_indice l i j p q :
  ids_distintos l -> l !! i = Some p -> l !! j = Some q ->
  Projeto.id p = Projeto.id q -> i = j.
Proof.
  unfold ids_distintos. rewrite map_fmap, NoDup_alt. intros H Hi Hj Heq.
  apply (H i j (Projeto.id p)); rewrite list_lookup_fmap.
  - now rewrite Hi.
  - rewrite Hj. cbn. now rewrite Heq.
Qed.

(** The names stay pairwise distinct, whatever the submission: always for a
    new project, and for a rename when the ids are pairwise distinct. *)
Lemma adicionarProjeto_preserva_nomes e :
  nomes_distintos (projetos (gerenciadorProjetos e)) ->
  projetoEditando (gerenciadorProjetos e) = None
  \/ ids_distintos (projetos (gerenciadorProjetos e)) ->
  nomes_distintos
    (projetos (gerenciadorProjetos (estado_apos GerenciadorProjetos.adicionarProjeto e))).
Proof.
  intros Hn Hid.
  destruct (JSString.verdadeiro (nome_digitado e)) eqn:Hv;
    [|unfold estado_apos; now rewrite adicionarProjeto_sem_nome].
  destruct (Array.find (GerenciadorProjetos.mesmo_nome (nome_digitado e)
                          (projetoEditando (gerenciadorProjetos e)))
                       (projetos (gerenciadorProjetos e))) as [x|] eqn:Hf;
    [unfold estado_apos; now rewrite (adicionarProjeto_repetido e x)|].
  destruct (adicionarProjeto_aceito e Hv Hf) as (-> & _).
  destruct (projetoEditando (gerenciadorProjetos e)) as [ed|].
  - destruct Hid as [[=]|Hid].
    destruct (Array.findIndex _ _) as [i|] eqn:Hi; [|assumption].
    apply findIndex_Some in Hi as (p & Hp & Hidp & _).
    apply String.eqb_eq in Hidp.
    apply (NoDup_map_alter _ _ _ i p Hp); [|assumption].
    intros j q Hj Hq Heq. cbn in Heq. apply Hj.
    apply (ids_distintos_indice _ j i q p Hid Hq Hp). rewrite Hidp.
    apply (proj1 (mesmo_nome_editando _ _ _) Hf q); [|assumption].
    now apply list_elem_of_lookup_2 in Hq.
  - apply NoDup_map_push; [|assumption]. cbn.
    apply (proj1 (mesmo_nome_criando _ _) Hf).
Qed.

Lemma alter_lookup_insert {A} (f : A -> A) (l : list A) i x :
  l !! i = Some x -> alter f i l = <[i := f x]> l.
Proof.
  intros Hi. apply list_eq. intros j. destruct (decide (j = i)) as [->|Hj].
  - rewrite list_lookup_alter_eq, Hi, list_lookup_insert_eq; [reflexivity|].
    now apply lookup_lt_Some in Hi.
  - now rewrite list_lookup_alter_ne, list_lookup_insert_ne by auto.
Qed.

Lemma nomes_distintos_indice l i j p q :
  nomes_distintos l -> l !! i = Some p -> l !! j = Some q ->
  JSString.toLowerCase (Projeto.nome p) = JSString.toLowerCase (Projeto.nome q) ->
  i = j.
Proof.
  unfold nomes_distintos. rewrite map_fmap, NoDup_alt. intros H Hi Hj Heq.
  apply (H i j (JSString.toLowerCase (Projeto.nome p))); rewrite list_lookup_fmap.
  - now rewrite Hi.
  - rewrite Hj. cbn. now rewrite Heq.
Qed.

(** The ids stay pairwise distinct as long as a generated id is new. *)
Lemma adicionarProjeto_preserva_ids e :
  ids_distintos (projetos (gerenciadorProjetos e)) ->
  (forall p, p ∈ projetos (gerenciadorProjetos e) ->
     Projeto.id p <> "projeto_" +:+ JSString.de_numero (Date_now (ambiente e)) +:+ "_"
                     +:+ JSString.substr 2 9 (Math_random_36 (ambiente e))) ->
  ids_distintos
    (projetos (gerenciadorProjetos (estado_apos GerenciadorProjetos.adicionarProjeto e))).
Proof.
  intros Hid Hnovo.
  destruct (JSString.verdadeiro (nome_digitado e)) eqn:Hv;
    [|unfold estado_apos; now rewrite adicionarProjeto_sem_nome].
  destruct (Array.find (GerenciadorProjetos.mesmo_nome (nome_digitado e)
                          (projetoEditando (gerenciadorProjetos e)))
                       (projetos (gerenciadorProjetos e))) as [x|] eqn:Hf;
    [unfold estado_apos; now rewrite (adicionarProjeto_repetido e x)|].
  destruct (adicionarProjeto_aceito e Hv Hf) as (-> & _).
  destruct (projetoEditando (gerenciadorProjetos e)) as [ed|].
  - destruct (Array.findIndex _ _) as [i|] eqn:Hi; [|assumption].
    apply findIndex_Some in Hi as (p & Hp & _).
    apply (NoDup_map_alter _ _ _ i p Hp); [|assumption].
    intros j q Hj Hq Heq. cbn in Heq. apply Hj.
    apply (ids_distintos_indice _ j i q p Hid Hq Hp Heq).
  - apply NoDup_map_push; assumption.
Qed.

(** C5: in a store whose project names are pairwise distinct up to case, a
    submission of the project form leaves them so: always when it creates a
    project, and for a rename when the ids of the projects are pairwise
    distinct, as [gerarId] is meant to give them (the check of a rename
    tells the project under edit by its id).  Creating a project whose
    trimmed name is, up to case, the name of an existing project is
    rejected: [alert] shows a message and nothing else in the state changes,
    so the project list is as it was.  The check of a rename leaves out the
    project under edit: submitting for a project its own name, in any case,
    is accepted without an alert and the project takes the name as typed. *)
Theorem adicionarProjeto_nomes_unicos (e : Estado) :
  nomes_distintos (projetos (gerenciadorProjetos e)) ->
  let e' := estado_apos GerenciadorProjetos.adicionarProjeto e in
  (projetoEditando (gerenciadorProjetos e) = None ->
   nomes_distintos (projetos (gerenciadorProjetos e')))
  /\ (ids_distintos (projetos (gerenciadorProjetos e)) ->
      nomes_distintos (projetos (gerenciadorProjetos e')))
  /\ (forall p,
        projetoEditando (gerenciadorProjetos e) = None ->
        p ∈ projetos (gerenciadorProjetos e) ->
        JSString.toLowerCase (nome_digitado e) = JSString.toLowerCase (Projeto.nome p) ->
        exists mensagem,
          GerenciadorProjetos.adicionarProjeto e
          = (Retorna tt, com_alertas (fun a => a ++ [mensagem]) e))
  /\ (forall editando i p,
        ids_distintos (projetos (gerenciadorProjetos e)) ->
        projetoEditando (gerenciadorProjetos e) = Some editando ->
        projetos (gerenciadorProjetos e) !! i = Some p ->
        Projeto.id p = Projeto.id editando ->
        JSString.verdadeiro (nome_digitado e) = true ->
        JSString.toLowerCase (nome_digitado e) = JSString.toLowerCase (Projeto.nome p) ->
        alertas e' = alertas e
        /\ projetos (gerenciadorProjetos e')
           = <[i := Projeto.com_nome (nome_digitado e) p]>
               (projetos (gerenciadorProjetos e))).
Proof.
  intros Hn e'.
  split; [intros; apply adicionarProjeto_preserva_nomes; auto|].
  split; [intros; apply adicionarProjeto_preserva_nomes; auto|]. split.
  - intros p Hed Hp Hnome.
    destruct (JSString.verdadeiro (nome_digitado e)) eqn:Hv;
      [|eexists; now apply adicionarProjeto_sem_nome].
    destruct (Array.find (GerenciadorProjetos.mesmo_nome (nome_digitado e)
                            (projetoEditando (gerenciadorProjetos e)))
                         (projetos (gerenciadorProjetos e))) as [x|] eqn:Hf;
      [eexists; now apply (adicionarProjeto_repetido e x)|].
    rewrite Hed in Hf. now destruct (proj1 (mesmo_nome_criando _ _) Hf p Hp).
  - intros ed i p Hid Hed Hp Hidp Hv Hnome.
    assert (Array.find (GerenciadorProjetos.mesmo_nome (nome_digitado e)
                          (projetoEditando (gerenciadorProjetos e)))
                       (projetos (gerenciadorProjetos e)) = None) as Hf.
    { rewrite Hed. apply mesmo_nome_editando. intros q Hq Hqn.
      apply list_elem_of_lookup_1 in Hq as (j & Hq).
      assert (j = i) as ->
          by (apply (nomes_distintos_indice _ j i q p Hn Hq Hp); congruence).
      congruence. }
    destruct (adicionarProjeto_aceito e Hv Hf) as (Hl & Ha & _).
    split; [exact Ha|]. subst e'. rewrite Hl, Hed.
    destruct (Array.findIndex _ _) as [k|] eqn:Hk.
    + apply findIndex_Some in Hk as (q & Hq & Hidq & _).
      apply String.eqb_eq in Hidq.
      assert (k = i) as ->
          by (apply (ids_distintos_indice _ k i q p Hid Hq Hp); congruence).
      now apply alter_lookup_insert.
    + apply findIndex_None with (x := p) in Hk;
        [|now apply list_elem_of_lookup_2 in Hp].
      apply String.eqb_neq in Hk. contradiction.
Qed.

Lemma adicionarProjeto_nomes_unicos_witness :
  let e modo nome :=
    estado_apos (Pagina.preencher_projeto nome)
      (com_gerenciadorProjetos (com_projetoEditando modo)
         (Exemplo.estado [] [Exemplo.casa; Exemplo.trabalho])) in
  nomes_distintos
    (projetos (gerenciadorProjetos
       (estado_apos GerenciadorProjetos.adicionarProjeto (e None "Garden"))))
  /\ nomes_distintos
       (projetos (gerenciadorProjetos
          (estado_apos GerenciadorProjetos.adicionarProjeto
             (e (Some Exemplo.casa) "House"))))
  /\ (exists mensagem,
        GerenciadorProjetos.adicionarProjeto (e None " work ")
        = (Retorna tt, com_alertas (fun a => a ++ [mensagem]) (e None " work ")))
  /\ projetos (gerenciadorProjetos
        (estado_apos GerenciadorProjetos.adicionarProjeto
           (e (Some Exemplo.trabalho) "WORK")))
     = [Exemplo.casa; Projeto.com_nome "WORK" Exemplo.trabalho].
Proof.
  intros e.
  assert (nomes_distintos [Exemplo.casa; Exemplo.trabalho]) as Hn
      by (unfold nomes_distintos; apply (bool_decide_unpack _); vm_compute; exact I).
  assert (ids_distintos [Exemplo.casa; Exemplo.trabalho]) as Hid
      by (unfold ids_distintos; apply (bool_decide_unpack _); vm_compute; exact I).
  split; [|split; [|split]].
  - exact (proj1 (adicionarProjeto_nomes_unicos (e None "Garden") Hn) eq_refl).
  - destruct (adicionarProjeto_nomes_unicos (e (Some Exemplo.casa) "House") Hn)
      as (_ & H & _).
    exact (H Hid).
  - destruct (adicionarProjeto_nomes_unicos (e None " work ") Hn) as (_ & _ & H & _).
    apply (H Exemplo.trabalho); [reflexivity| |reflexivity].
    apply list_elem_of_further, list_elem_of_here.
  - destruct (adicionarProjeto_nomes_unicos (e (Some Exemplo.trabalho) "WORK") Hn)
      as (_ & _ & _ & H).
    exact (proj2 (H Exemplo.trabalho 1%nat Exemplo.trabalho Hid
                    eq_refl eq_refl eq_refl eq_refl eq_refl)).
Defined.

(** C10: a rename that passes the checks changes the name of the project
    under edit and nothing else of the project list.  With [p] the project
    the method finds for the id under edit, at position [i]: after the call
    position [i] holds [p] with the typed name, its [id] and [dataCriacao]
    as before; every other position holds the project it held; the list has
    the same length, so the stored order is kept. *)
Theorem adicionarProjeto_renomeia_so_o_nome (e : Estado) editando i p :
  projetoEditando (gerenciadorProjetos e) = Some editando ->
  Array.findIndex (fun q => String.eqb (Projeto.id q) (Projeto.id editando))
                  (projetos (gerenciadorProjetos e)) = Some i ->
  projetos (gerenciadorProjetos e) !! i = Some p ->
  JSString.verdadeiro (nome_digitado e) = true ->
  Array.find (GerenciadorProjetos.mesmo_nome (nome_digitado e) (Some editando))
             (projetos (gerenciadorProjetos e)) = None ->
  let l' := projetos (gerenciadorProjetos
              (estado_apos GerenciadorProjetos.adicionarProjeto e)) in
  l' !! i = Some (Projeto.Build (Projeto.id p) (nome_digitado e) (Projeto.dataCriacao p))
  /\ (forall j, j <> i -> l' !! j = projetos (gerenciadorProjetos e) !! j)
  /\ length l' = length (projetos (gerenciadorProjetos e)).
Proof.
  intros Hed Hi Hp Hv Hf l'. rewrite <- Hed in Hf.
  destruct (adicionarProjeto_aceito e Hv Hf) as (Hl & _).
  subst l'. rewrite Hl, Hed, Hi. split; [|split].
  - now rewrite list_lookup_alter_eq, Hp.
  - intros j Hj. apply list_lookup_alter_ne. congruence.
  - apply length_alter.
Qed.

Lemma adicionarProjeto_renomeia_so_o_nome_witness :
  let e := estado_apos (Pagina.preencher_projeto " Office ")
             (com_gerenciadorProjetos (com_projetoEditando (Some Exemplo.trabalho))
                (Exemplo.estado [] [Exemplo.casa; Exemplo.trabalho])) in
  let l' := projetos (gerenciadorProjetos
              (estado_apos GerenciadorProjetos.adicionarProjeto e)) in
  l' !! 1%nat = Some (Projeto.Build "projeto_2" "Office" "2025-09-30T12:05:00.000Z")
  /\ l' !! 0%nat = Some Exemplo.casa
  /\ length l' = 2%nat.
Proof.
  intros e l'.
  destruct (adicionarProjeto_renomeia_so_o_nome e Exemplo.trabalho 1%nat Exemplo.trabalho
              eq_refl eq_refl eq_refl eq_refl eq_refl) as (H1 & H2 & H3).
  split; [exact H1|]. split; [exact (H2 0%nat (O_S _)) | exact H3].
Defined.

End AdicionarProjeto.


(* ===================================================================== *)
(** * removerProjeto *)
(* ===================================================================== *)

Section RemoverProjeto.

(** The stores and the dialogs after the removal of a project that is in
    the store, at position [i], when the user agrees or is not asked. *)
Lemma removerProjeto_confirmado e id i :
  Array.findIndex (fun p => String.eqb (Projeto.id p) id)
                  (projetos (gerenciadorProjetos e)) = Some i ->
  (tarefas_do_projeto id e = [] \/ resposta (ambiente e) = true) ->
  let e' := estado_apos (GerenciadorProjetos.removerProjeto id) e in
  tarefas (gerenciadorTarefas e')
  = GerenciadorProjetos.desassociar id (tarefas (gerenciadorTarefas e))
  /\ projetos (gerenciadorProjetos e')
     = Array.splice1 i (projetos (gerenciadorProjetos e))
  /\ confirmacoes e'
     = match tarefas_do_projeto id e with
       | [] => confirmacoes e
       | l => confirmacoes e ++ [pergunta_remover (length l)]
       end.
Proof.
  intros Hi Hok. unfold GerenciadorProjetos.removerProjeto, tarefas_do_projeto in *.
  executar.
  destruct (Array.find _ _) as [projeto|] eqn:Hf;
    [|apply find_findIndex in Hf; congruence].
  executar. rewrite Hi.
  destruct (Array.filter _ _) as [|t l] eqn:Hl.
  - cbn [length Nat.ltb Nat.leb]. executar. projetar.
    destruct (String.eqb _ id); executar; projetar; auto.
  - destruct Hok as [Hok|Hok]; [discriminate|].
    cbn [length Nat.ltb Nat.leb]. executar. rewrite Hok. executar. projetar.
    unfold pergunta_remover. cbn [length].
    destruct (String.eqb _ id); executar; projetar; auto.
Qed.

Lemma findIndex_ids_distintos l i p :
  ids_distintos l -> l !! i = Some p ->
  Array.findIndex (fun q => String.eqb (Projeto.id q) (Projeto.id p)) l = Some i.
Proof.
  intros Hid Hp. apply (findIndex_primeiro _ _ i p Hp).
  - apply String.eqb_refl.
  - intros j y Hj Hy. apply String.eqb_neq. intros Heq.
    assert (j = i) by apply (ids_distintos_indice _ j i y p Hid Hy Hp Heq). lia.
Qed.

Lemma elem_of_splice1 {A} (l : list A) i x :
  x ∈ Array.splice1 i l -> exists j, j <> i /\ l !! j = Some x.
Proof.
  intros (j & Hj)%list_elem_of_lookup_1.
  destruct (decide (j < i)%nat) as [Hlt|Hge].
  - exists j. split; [lia|]. now rewrite <- (lookup_splice1_lt l i j Hlt).
  - exists (S j). split; [lia|]. rewrite <- (lookup_splice1_ge l i j); [assumption|lia].
Qed.

(** What [desassociar] does to a task, field by field. *)
Lemma desassociar_campos id l k t :
  l !! k = Some t ->
  GerenciadorProjetos.desassociar id l !! k
  = Some (if bool_decide (Tarefa.projetoId t = Some id)
          then {| Tarefa.id := Tarefa.id t;
                  Tarefa.titulo := Tarefa.titulo t;
                  Tarefa.descricao := Tarefa.descricao t;
                  Tarefa.dataVencimento := Tarefa.dataVencimento t;
                  Tarefa.prioridade := Tarefa.prioridade t;
                  Tarefa.projetoId := None;
                  Tarefa.concluida := Tarefa.concluida t;
                  Tarefa.dataCriacao := Tarefa.dataCriacao t |}
          else t).
Proof.
  intros H. unfold GerenciadorProjetos.desassociar.
  rewrite map_fmap, list_lookup_fmap, H. cbn.
  now rewrite projetoId_igual_decide.
Qed.

(** C3: for a project [p] of the store (ids pairwise distinct) with N tasks
    whose [projetoId] is its id, [removerProjeto], when N is 0 or the user
    confirms, leaves every task in its place: each of the N is the old task
    with [projetoId] null and its other fields as before, every other task
    is as it was, and so no task refers to [p] any more.  The project list
    is the old one without [p], and no project with the id of [p] is left
    in it.  When N is 0 no dialog is shown. *)
Theorem removerProjeto_desassocia (e : Estado) (i : nat) (p : Projeto.t) :
  projetos (gerenciadorProjetos e) !! i = Some p ->
  ids_distintos (projetos (gerenciadorProjetos e)) ->
  tarefas_do_projeto (Projeto.id p) e = [] \/ resposta (ambiente e) = true ->
  let e' := estado_apos (GerenciadorProjetos.removerProjeto (Projeto.id p)) e in
  (forall k t,
     tarefas (gerenciadorTarefas e) !! k = Some t ->
     tarefas (gerenciadorTarefas e') !! k
     = Some (if bool_decide (Tarefa.projetoId t = Some (Projeto.id p))
             then {| Tarefa.id := Tarefa.id t;
                     Tarefa.titulo := Tarefa.titulo t;
                     Tarefa.descricao := Tarefa.descricao t;
                     Tarefa.dataVencimento := Tarefa.dataVencimento t;
                     Tarefa.prioridade := Tarefa.prioridade t;
                     Tarefa.projetoId := None;
                     Tarefa.concluida := Tarefa.concluida t;
                     Tarefa.dataCriacao := Tarefa.dataCriacao t |}
             else t))
  /\ length (tarefas (gerenciadorTarefas e')) = length (tarefas (gerenciadorTarefas e))
  /\ (forall t, t ∈ tarefas (gerenciadorTarefas e') ->
                Tarefa.projetoId t <> Some (Projeto.id p))
  /\ projetos (gerenciadorProjetos e')
     = Array.splice1 i (projetos (gerenciadorProjetos e))
  /\ (forall q, q ∈ projetos (gerenciadorProjetos e') -> Projeto.id q <> Projeto.id p)
  /\ (tarefas_do_projeto (Projeto.id p) e = [] -> confirmacoes e' = confirmacoes e).
Proof.
  intros Hp Hid Hok e'.
  destruct (removerProjeto_confirmado e (Projeto.id p) i
              (findIndex_ids_distintos _ i p Hid Hp) Hok) as (Ht & Hl & Hc).
  fold e' in Ht, Hl, Hc. rewrite Ht, Hl, Hc.
  assert (length (GerenciadorProjetos.desassociar (Projeto.id p)
                    (tarefas (gerenciadorTarefas e)))
          = length (tarefas (gerenciadorTarefas e))) as Hn
      by (unfold GerenciadorProjetos.desassociar; apply length_map).
  repeat split.
  - intros k t Hk. now apply desassociar_campos.
  - exact Hn.
  - intros t' (k & Hk)%list_elem_of_lookup_1.
    destruct (tarefas (gerenciadorTarefas e) !! k) as [t|] eqn:Hold.
    + rewrite (desassociar_campos _ _ _ _ Hold) in Hk. injection Hk as <-.
      destruct (bool_decide_reflect (Tarefa.projetoId t = Some (Projeto.id p)));
        [discriminate|assumption].
    + apply lookup_ge_None in Hold. apply lookup_lt_Some in Hk. lia.
  - intros q (j & Hj & Hq)%elem_of_splice1 Heq. apply Hj.
    apply (ids_distintos_indice _ j i q p Hid Hq Hp Heq).
  - now intros ->.
Qed.

Lemma removerProjeto_desassocia_witness :
  let e := Exemplo.estado [Exemplo.leite; Exemplo.relatorio]
                          [Exemplo.casa; Exemplo.trabalho] in
  let e' := estado_apos (GerenciadorProjetos.removerProjeto "projeto_2") e in
  tarefas (gerenciadorTarefas e') !! 1%nat
  = Some {| Tarefa.id := "tarefa_2"; Tarefa.titulo := "Report";
            Tarefa.descricao := "quarterly"; Tarefa.dataVencimento := "2025-12-01";
            Tarefa.prioridade := "media"; Tarefa.projetoId := None;
            Tarefa.concluida := true;
            Tarefa.dataCriacao := "2025-10-02T09:30:00.000Z" |}
  /\ tarefas (gerenciadorTarefas e') !! 0%nat = Some Exemplo.leite
  /\ (forall t, t ∈ tarefas (gerenciadorTarefas e') ->
                Tarefa.projetoId t <> Some "projeto_2")
  /\ projetos (gerenciadorProjetos e') = [Exemplo.casa].
Proof.
  intros e e'.
  assert (ids_distintos [Exemplo.casa; Exemplo.trabalho]) as Hid
      by (unfold ids_distintos; apply (bool_decide_unpack _); vm_compute; exact I).
  destruct (removerProjeto_desassocia e 1%nat Exemplo.trabalho eq_refl Hid
              (or_intror eq_refl)) as (Ht & _ & Hn & Hl & _).
  split; [exact (Ht 1%nat Exemplo.relatorio eq_refl)|].
  split; [exact (Ht 0%nat Exemplo.leite eq_refl)|].
  split; [exact Hn | exact Hl].
Defined.

(** Removing a project keeps the ids and the names pairwise distinct. *)
Lemma NoDup_map_splice1 {A B} (f : A -> B) l i :
  NoDup (map f l) -> NoDup (map f (Array.splice1 i l)).
Proof.
  revert i. induction l as [|a l IH]; intros [|i]; cbn; auto.
  - now intros [_ H]%NoDup_cons.
  - intros [Ha H]%NoDup_cons. apply NoDup_cons. split; [|now apply IH].
    intros Hin. apply Ha. rewrite map_fmap in *.
    apply list_elem_of_fmap in Hin as (y & -> & (j & _ & Hy)%elem_of_splice1).
    apply list_elem_of_fmap. exists y. split; [reflexivity|].
    now apply list_elem_of_lookup_2 in Hy.
Qed.

Lemma removerProjeto_preserva_distintos e id :
  let l' := projetos (gerenciadorProjetos
              (estado_apos (GerenciadorProjetos.removerProjeto id) e)) in
  (ids_distintos (projetos (gerenciadorProjetos e)) -> ids_distintos l')
  /\ (nomes_distintos (projetos (gerenciadorProjetos e)) -> nomes_distintos l').
Proof.
  intros l'.
  assert (l' = projetos (gerenciadorProjetos e)
          \/ exists i, l' = Array.splice1 i (projetos (gerenciadorProjetos e)))
    as [->| [i ->]]; [|tauto|split; apply NoDup_map_splice1].
  subst l'.
  destruct (Array.findIndex (fun p => String.eqb (Projeto.id p) id)
                            (projetos (gerenciadorProjetos e))) as [i|] eqn:Hi.
  - destruct (tarefas_do_projeto id e) as [|t l] eqn:Ht.
    + right. exists i.
      now destruct (removerProjeto_confirmado e id i Hi (or_introl Ht)) as (_ & -> & _).
    + destruct (resposta (ambiente e)) eqn:Hr.
      * right. exists i.
        now destruct (removerProjeto_confirmado e id i Hi (or_intror Hr)) as (_ & -> & _).
      * left. unfold GerenciadorProjetos.removerProjeto, tarefas_do_projeto in *.
        executar.
        destruct (Array.find _ _); [|reflexivity].
        executar. rewrite Ht. cbn [length Nat.ltb Nat.leb]. executar.
        rewrite Hr. reflexivity.
  - left. unfold GerenciadorProjetos.removerProjeto. executar.
    apply find_findIndex in Hi. now rewrite Hi.
Qed.

End RemoverProjeto.


(* ===================================================================== *)
(** * Array.prototype.sort *)
(* ===================================================================== *)

Section Ordenacao.

Context {A : Type} (comparefn : A -> A -> Numero).

Lemma inserir_Permutation x l : Permutation (Array.inserir comparefn x l) (x :: l).
Proof.
  induction l as [|y r IH]; cbn; [reflexivity|].
  destruct (0 <? Array.SortCompare comparefn x y); [|reflexivity].
  rewrite IH. apply perm_swap.
Qed.

Lemma sort_Permutation l : Permutation (Array.sort comparefn l) l.
Proof.
  induction l as [|x r IH]; cbn; [reflexivity|].
  rewrite inserir_Permutation. now constructor.
Qed.

(** Stability: a class of elements that the comparator never orders
    strictly keeps its order. *)
Lemma inserir_filter (f : A -> bool) x l :
  (forall y, y ∈ l -> f x = true -> f y = true ->
             Array.SortCompare comparefn x y <= 0) ->
  List.filter f (Array.inserir comparefn x l) = List.filter f (x :: l).
Proof.
  induction l as [|y r IH]; intros Hc; [reflexivity|].
  cbn [Array.inserir].
  destruct (Z.ltb_spec 0 (Array.SortCompare comparefn x y)) as [Hlt|Hge];
    [|reflexivity].
  assert (List.filter f (Array.inserir comparefn x r) = List.filter f (x :: r)) as IH'.
  { apply IH. intros z Hz. apply Hc. now right. }
  cbn [List.filter] in *. rewrite IH'.
  destruct (f x) eqn:Hx; [|reflexivity].
  destruct (f y) eqn:Hy; [|reflexivity].
  specialize (Hc y (list_elem_of_here _ _) eq_refl Hy). lia.
Qed.

Lemma sort_filter_em (f : A -> bool) l :
  (forall x y, x ∈ l -> y ∈ l -> f x = true -> f y = true ->
               Array.SortCompare comparefn x y <= 0) ->
  List.filter f (Array.sort comparefn l) = List.filter f l.
Proof.
  induction l as [|x r IH]; intros Hc; [reflexivity|].
  cbn [Array.sort]. rewrite inserir_filter.
  - cbn [List.filter]. rewrite IH; [reflexivity|].
    intros a b Ha Hb. apply Hc; now right.
  - intros y Hy. rewrite sort_Permutation in Hy. apply Hc; [left|now right].
Qed.

Lemma sort_filter (f : A -> bool) l :
  (forall x y, f x = true -> f y = true -> Array.SortCompare comparefn x y <= 0) ->
  List.filter f (Array.sort comparefn l) = List.filter f l.
Proof. intros Hc. apply sort_filter_em. auto. Qed.

(** Order: for a transitive relation [R] that agrees with the comparator on
    the elements with [P], the sort of a list of such elements is sorted. *)
Context (P : A -> Prop) (R : A -> A -> Prop).
Hypothesis R_trans : forall x y z, R x y -> R y z -> R x z.
Hypothesis R_antes : forall x y, P x -> P y -> Array.SortCompare comparefn x y <= 0 -> R x y.
Hypothesis R_depois : forall x y, P x -> P y -> 0 < Array.SortCompare comparefn x y -> R y x.

Lemma inserir_StronglySorted x l :
  P x -> Forall P l -> StronglySorted R l ->
  StronglySorted R (Array.inserir comparefn x l).
Proof.
  intros Hx Hl Hs. induction Hs as [|y r Hs IH Hy]; cbn.
  - repeat constructor.
  - apply Forall_cons in Hl as [Py Pr].
    destruct (Z.ltb_spec 0 (Array.SortCompare comparefn x y)) as [Hlt|Hge].
    + constructor; [now apply IH|].
      rewrite inserir_Permutation. constructor; [now apply R_depois | assumption].
    + assert (R x y) as Hxy by now apply R_antes.
      constructor; [now constructor|].
      constructor; [assumption|].
      apply (Forall_impl _ _ _ Hy). intros z. now apply R_trans.
Qed.

Lemma sort_StronglySorted l :
  Forall P l -> StronglySorted R (Array.sort comparefn l).
Proof.
  induction l as [|x r IH]; intros Hl; cbn; [constructor|].
  apply Forall_cons in Hl as [Px Pr].
  apply inserir_StronglySorted; auto.
  rewrite sort_Permutation. assumption.
Qed.

End Ordenacao.

Section OrdenacaoUnica.

Context {A : Type} (k : A -> Z).

Lemma filter_chave_vazio l :
  (forall z, List.filter (fun x => k x =? z) l = []) -> l = [].
Proof.
  destruct l as [|y l]; [reflexivity|]. intros H. specialize (H (k y)).
  cbn in H. rewrite Z.eqb_refl in H. discriminate.
Qed.

(** Two lists sorted by a key that hold, for each key, the same elements in
    the same order are the same list. *)
Lemma ordenacao_estavel_unica l1 l2 :
  StronglySorted (fun a b => k a <= k b) l1 ->
  StronglySorted (fun a b => k a <= k b) l2 ->
  (forall z, List.filter (fun x => k x =? z) l1 = List.filter (fun x => k x =? z) l2) ->
  l1 = l2.
Proof.
  intros H1. revert l2. induction H1 as [|x l1 H1 IH Hx]; intros l2 H2 Hf.
  - symmetry. apply filter_chave_vazio. intros z. now rewrite <- Hf.
  - destruct H2 as [|y l2 H2 Hy].
    + specialize (Hf (k x)). cbn in Hf. rewrite Z.eqb_refl in Hf. discriminate.
    + assert (k y = k x) as Hk.
      { apply Z.le_antisymm.
        - pose proof (Hf (k x)) as Hfx. cbn in Hfx. rewrite Z.eqb_refl in Hfx.
          destruct (Z.eqb_spec (k y) (k x)) as [->|Hne]; [lia|].
          assert (In x (List.filter (fun x0 => k x0 =? k x) l2)) as Hin
              by (rewrite <- Hfx; now left).
          apply List.filter_In in Hin as [Hin _].
          rewrite Forall_forall in Hy. apply Hy. now apply list_elem_of_In.
        - pose proof (Hf (k y)) as Hfy. cbn in Hfy. rewrite Z.eqb_refl in Hfy.
          destruct (Z.eqb_spec (k x) (k y)) as [->|Hne]; [lia|].
          assert (In y (List.filter (fun x0 => k x0 =? k y) l1)) as Hin
              by (rewrite Hfy; now left).
          apply List.filter_In in Hin as [Hin _].
          rewrite Forall_forall in Hx. apply Hx. now apply list_elem_of_In. }
      assert (y = x) as ->.
      { pose proof (Hf (k x)) as Hfx. cbn in Hfx. rewrite Hk, Z.eqb_refl in Hfx.
        now injection Hfx. }
      f_equal. apply IH; [assumption|]. intros z. specialize (Hf z). cbn in Hf.
      destruct (k x =? z); [now injection Hf | assumption].
Qed.

End OrdenacaoUnica.

Lemma StronglySorted_lookup {A} (R : A -> A -> Prop) l i j a b :
  StronglySorted R l -> (i < j)%nat -> l !! i = Some a -> l !! j = Some b -> R a b.
Proof.
  intros Hs. revert i j. induction Hs as [|x r Hs IH Hx]; intros i j Hij.
  - now rewrite lookup_nil.
  - destruct j as [|j]; [lia|]. destruct i as [|i]; cbn.
    + intros [= ->] Hb. rewrite Forall_forall in Hx. apply Hx.
      now apply list_elem_of_lookup_2 in Hb.
    + apply IH. lia.
Qed.

(* ===================================================================== *)
(** * renderizarTarefas: the order of the items *)
(* ===================================================================== *)

Section OrdemDeExibicao.

Lemma ordem_de_exibicao_sort g :
  GerenciadorTarefas.ordem_de_exibicao g
  = Array.sort GerenciadorTarefas.comparar (GerenciadorTarefas.obterTarefasFiltradas g).
Proof.
  unfold GerenciadorTarefas.ordem_de_exibicao.
  now destruct (GerenciadorTarefas.obterTarefasFiltradas g).
Qed.

Lemma comparar_da_classe c p x y :
  da_classe c p x = true -> da_classe c p y = true ->
  Array.SortCompare GerenciadorTarefas.comparar x y <= 0.
Proof.
  unfold da_classe. intros [Hcx Hpx]%andb_prop [Hcy Hpy]%andb_prop.
  apply Bool.eqb_prop in Hcx, Hcy. apply String.eqb_eq in Hpx, Hpy.
  unfold Array.SortCompare, GerenciadorTarefas.comparar.
  rewrite Hcx, Hcy, Hpx, Hpy, Bool.eqb_reflx. cbn [negb].
  destruct (GerenciadorTarefas.prioridades p); lia.
Qed.

(** A comparison between a pending and a completed task does not look at
    the priorities. *)
Lemma comparar_pendentes_antes x y :
  Array.SortCompare GerenciadorTarefas.comparar x y <= 0 ->
  Tarefa.concluida x = true -> Tarefa.concluida y = true.
Proof.
  unfold Array.SortCompare, GerenciadorTarefas.comparar.
  destruct (Tarefa.concluida x), (Tarefa.concluida y); cbn; auto; lia.
Qed.

Lemma comparar_concluidas_depois x y :
  0 < Array.SortCompare GerenciadorTarefas.comparar x y ->
  Tarefa.concluida y = true -> Tarefa.concluida x = true.
Proof.
  unfold Array.SortCompare, GerenciadorTarefas.comparar.
  destruct (Tarefa.concluida x), (Tarefa.concluida y); cbn; auto; lia.
Qed.

Lemma posto_valido t : prioridade_valida t -> 1 <= posto t <= 3.
Proof.
  unfold prioridade_valida, posto, GerenciadorTarefas.prioridades.
  repeat (destruct (String.eqb _ _); [lia|]). now intros [? [=]].
Qed.

(** On tasks whose priorities have ranks the comparator is the order of
    [chave]. *)
Lemma comparar_chave x y :
  prioridade_valida x -> prioridade_valida y ->
  (Array.SortCompare GerenciadorTarefas.comparar x y <= 0 <-> chave x <= chave y).
Proof.
  intros Hx Hy. pose proof (posto_valido x Hx). pose proof (posto_valido y Hy).
  destruct Hx as [rx Hx], Hy as [ry Hy].
  unfold Array.SortCompare, GerenciadorTarefas.comparar, chave, posto in *.
  rewrite Hx, Hy in *.
  destruct (Tarefa.concluida x), (Tarefa.concluida y); cbn; lia.
Qed.

Lemma chave_ordem a b :
  prioridade_valida a -> prioridade_valida b -> chave a <= chave b ->
  (Tarefa.concluida a = true -> Tarefa.concluida b = true)
  /\ (Tarefa.concluida a = Tarefa.concluida b -> posto b <= posto a).
Proof.
  intros Ha Hb. pose proof (posto_valido a Ha). pose proof (posto_valido b Hb).
  unfold chave. destruct (Tarefa.concluida a), (Tarefa.concluida b);
    intros; split; intros; try discriminate; auto; lia.
Qed.

Lemma sort_comparar_ordenada l :
  Forall prioridade_valida l ->
  StronglySorted (fun a b => chave a <= chave b)
                 (Array.sort GerenciadorTarefas.comparar l).
Proof.
  intros Hv. apply (sort_StronglySorted _ prioridade_valida); [| | |assumption].
  - intros x y z. lia.
  - intros x y Hx Hy. now apply comparar_chave.
  - intros x y Hx Hy Hlt.
    destruct (Z.le_gt_cases (chave y) (chave x)) as [Hle|Hgt]; [assumption|].
    assert (chave x <= chave y) as Hxy by lia.
    apply (comparar_chave x y Hx Hy) in Hxy. lia.
Qed.

(** On tasks whose priorities have ranks the comparator is a consistent
    ordering, and the stable sort under it is one list only: whatever stable
    sort an engine runs, the result is the one of [Array.sort]. *)
Lemma sort_comparar_unica l l' :
  Forall prioridade_valida l ->
  StronglySorted (fun a b => chave a <= chave b) l' ->
  (forall z, List.filter (fun t => chave t =? z) l'
             = List.filter (fun t => chave t =? z) l) ->
  l' = Array.sort GerenciadorTarefas.comparar l.
Proof.
  intros Hv Hs Hf. apply (ordenacao_estavel_unica chave); [assumption| |].
  - now apply sort_comparar_ordenada.
  - intros z. rewrite Hf. symmetry. apply sort_filter_em.
    intros x y Hx Hy Hxz Hyz. rewrite Forall_forall in Hv.
    apply comparar_chave; auto.
    apply Z.eqb_eq in Hxz, Hyz. lia.
Qed.

Lemma prioridade_conhecida_valida t : prioridade_conhecida t -> prioridade_valida t.
Proof.
  unfold prioridade_conhecida, niveis_de_prioridade, prioridade_valida.
  intros H. repeat (apply elem_of_cons in H as [->|H]; [now eexists|]).
  now apply elem_of_nil in H.
Qed.

(** The table of the code gives the ranks of the specification. *)
Lemma posto_especificado_posto t :
  posto_especificado (Tarefa.prioridade t) = posto t.
Proof.
  unfold posto_especificado, posto, GerenciadorTarefas.prioridades.
  repeat destruct (String.eqb (Tarefa.prioridade t) _); reflexivity.
Qed.

(** Whatever the sort does, the page lists the filtered tasks, each one
    once; likewise for the projects. *)
Lemma ordem_de_exibicao_Permutation g :
  Permutation (GerenciadorTarefas.ordem_de_exibicao g)
              (GerenciadorTarefas.obterTarefasFiltradas g).
Proof. rewrite ordem_de_exibicao_sort. apply sort_Permutation. Qed.

Lemma ordem_de_exibicao_projetos_Permutation e :
  Permutation (GerenciadorProjetos.ordem_de_exibicao e)
              (projetos (gerenciadorProjetos e)).
Proof. apply sort_Permutation. Qed.

(** Under a consistent collation the projects are listed by name. *)
Lemma sort_por_nome a l :
  colacao_consistente a ->
  por_nome a (Array.sort (GerenciadorProjetos.comparar_nomes a) l).
Proof.
  intros [Ht Ha] i j p q Hij Hp Hq.
  apply (StronglySorted_lookup
           (fun x y => localeCompare a (Projeto.nome x) (Projeto.nome y) <= 0)
           (Array.sort (GerenciadorProjetos.comparar_nomes a) l) i j p q); auto.
  apply (sort_StronglySorted _ (fun _ => True)).
  - intros x y z. apply Ht.
  - intros x y _ _ H. exact H.
  - intros x y _ _ H. apply Ha. exact H.
  - apply Forall_forall. auto.
Qed.

(** The collation of the sample runs is consistent. *)
Lemma comparar_sem_caixa_consistente : colacao_consistente Exemplo.amb.
Proof.
  split; cbn [localeCompare Exemplo.amb]; unfold Exemplo.comparar_sem_caixa.
  - intros x y z.
    destruct (String.compare (JSString.toLowerCase x) (JSString.toLowerCase y)) eqn:Hxy;
      [|
       |lia].
    + apply String.compare_eq_iff in Hxy. now rewrite Hxy.
    + destruct (String.compare (JSString.toLowerCase y) (JSString.toLowerCase z)) eqn:Hyz;
        [|
         |lia].
      * apply String.compare_eq_iff in Hyz. rewrite <- Hyz, Hxy. lia.
      * assert (String.compare (JSString.toLowerCase x) (JSString.toLowerCase z) = Lt) as ->;
          [|lia].
        pose proof (@StrictOrder_Transitive _ _ String_as_OT.lt_strorder) as Htr.
        exact (Htr _ _ _ Hxy Hyz).
  - intros x y. rewrite (String.compare_antisym (JSString.toLowerCase y)).
    destruct (String.compare (JSString.toLowerCase x) (JSString.toLowerCase y));
      cbn; lia.
Qed.

(** The order of the page on tasks of the three priorities, in the words
    of the data model. *)
Lemma sort_comparar_postos l i j a b :
  Forall prioridade_conhecida l ->
  (i < j)%nat ->
  Array.sort GerenciadorTarefas.comparar l !! i = Some a ->
  Array.sort GerenciadorTarefas.comparar l !! j = Some b ->
  (Tarefa.concluida a = true -> Tarefa.concluida b = true)
  /\ (Tarefa.concluida a = Tarefa.concluida b ->
      posto_especificado (Tarefa.prioridade b)
      <= posto_especificado (Tarefa.prioridade a)).
Proof.
  intros Hc Hij Ha Hb.
  assert (Forall prioridade_valida l) as Hv.
  { eapply Forall_impl; [exact Hc|]. intros t. apply prioridade_conhecida_valida. }
  split.
  - apply (StronglySorted_lookup
             (fun a b => Tarefa.concluida a = true -> Tarefa.concluida b = true)
             (Array.sort GerenciadorTarefas.comparar l) i j a b); auto.
    apply (sort_StronglySorted _ (fun _ => True)).
    + auto.
    + intros x y _ _. apply comparar_pendentes_antes.
    + intros x y _ _. apply comparar_concluidas_depois.
    + apply Forall_forall. auto.
  - rewrite !posto_especificado_posto.
    assert (prioridade_valida a /\ prioridade_valida b) as [Hva Hvb].
    { rewrite Forall_forall in Hv.
      split; apply Hv; rewrite <- (sort_Permutation GerenciadorTarefas.comparar);
        eapply list_elem_of_lookup_2; eassumption. }
    apply (chave_ordem a b Hva Hvb).
    apply (StronglySorted_lookup (fun a b => chave a <= chave b)
             (Array.sort GerenciadorTarefas.comparar l) i j a b); auto.
    now apply sort_comparar_ordenada.
Qed.

(** C2: the items [renderizarTarefas] writes are the filtered tasks,
    reordered.  When the priority of every filtered task is one of "alta",
    "media" and "baixa" (ranks 3, 2, 1 in [posto_especificado]): no
    completed task comes before a pending one; of two tasks with the same
    completion the one listed later has no higher rank; and the sort is
    stable, the tasks with one completion and one priority coming in the
    order they have in the filtered list. *)
Theorem renderizarTarefas_ordem (e : Estado) :
  let filtradas := GerenciadorTarefas.obterTarefasFiltradas (gerenciadorTarefas e) in
  let exibidas :=
    lista_tarefas (documento (estado_apos GerenciadorTarefas.renderizarTarefas e)) in
  Permutation exibidas filtradas
  /\ ((forall t, t ∈ filtradas -> prioridade_conhecida t) ->
      (forall i j a b,
         (i < j)%nat -> exibidas !! i = Some a -> exibidas !! j = Some b ->
         (Tarefa.concluida a = true -> Tarefa.concluida b = true)
         /\ (Tarefa.concluida a = Tarefa.concluida b ->
             posto_especificado (Tarefa.prioridade b)
             <= posto_especificado (Tarefa.prioridade a)))
      /\ (forall c p,
            List.filter (da_classe c p) exibidas
            = List.filter (da_classe c p) filtradas)).
Proof.
  intros filtradas exibidas.
  assert (exibidas = Array.sort GerenciadorTarefas.comparar filtradas) as ->.
  { subst exibidas. unfold estado_apos. rewrite renderizarTarefas_executa.
    cbn [snd]. projetar. apply ordem_de_exibicao_sort. }
  split; [apply sort_Permutation|]. intros Hv. split.
  - intros i j a b. apply sort_comparar_postos. now apply Forall_forall.
  - intros c p. apply sort_filter. apply comparar_da_classe.
Qed.

Lemma renderizarTarefas_ordem_witness :
  let jardim := Tarefa.Build "tarefa_3" "Water the garden" "" "" "baixa" None false
                             "2025-10-03T10:00:00.000Z" in
  let revisao := Tarefa.Build "tarefa_4" "Review" "" "" "media" None false
                              "2025-10-04T10:00:00.000Z" in
  let pao := Tarefa.Build "tarefa_5" "Buy bread" "" "" "alta" None false
                          "2025-10-05T10:00:00.000Z" in
  let arquivo := Tarefa.Build "tarefa_6" "File the papers" "" "" "alta" None true
                              "2025-10-06T10:00:00.000Z" in
  let e := Exemplo.estado
             [Exemplo.relatorio; jardim; revisao; Exemplo.leite; arquivo; pao] [] in
  let exibidas :=
    lista_tarefas (documento (estado_apos GerenciadorTarefas.renderizarTarefas e)) in
  exibidas = [Exemplo.leite; pao; revisao; jardim; arquivo; Exemplo.relatorio]
  /\ (forall a b, exibidas !! 1%nat = Some a -> exibidas !! 3%nat = Some b ->
        (Tarefa.concluida a = true -> Tarefa.concluida b = true)
        /\ (Tarefa.concluida a = Tarefa.concluida b ->
            posto_especificado (Tarefa.prioridade b)
            <= posto_especificado (Tarefa.prioridade a)))
  /\ List.filter (da_classe false "alta") exibidas = [Exemplo.leite; pao].
Proof.
  intros jardim revisao pao arquivo e exibidas.
  destruct (renderizarTarefas_ordem e) as (_ & Hc).
  destruct Hc as (Hr & Hs).
  { intros t Ht. vm_compute in Ht. unfold prioridade_conhecida, niveis_de_prioridade.
    repeat (apply elem_of_cons in Ht as [->|Ht]; [cbn; set_solver|]).
    now apply elem_of_nil in Ht. }
  split; [reflexivity|]. split.
  - intros a b. apply (Hr 1%nat 3%nat a b). lia.
  - exact (Hs false "alta").
Defined.

End OrdemDeExibicao.

(* ===================================================================== *)
(** * JSON: reading what was written *)
(* ===================================================================== *)

Section JSONIdaEVolta.

Local Open Scope char_scope.

Lemma peso_VArr l : peso (VArr l) = S (peso_itens l).
Proof. reflexivity. Qed.

Lemma peso_VObj l : peso (VObj l) = S (peso_campos l).
Proof. reflexivity. Qed.

(** One code unit, written and read. *)
Lemma ler_cadeia_unidade c r :
  JSON.ler_cadeia (JSON.citar_unidade c ++ r) = JSON.prefixar c (JSON.ler_cadeia r).
Proof. destruct c as [[] [] [] [] [] [] [] []]; reflexivity. Qed.

Lemma ler_cadeia_corpo s r :
  JSON.ler_cadeia (JSON.citar_corpo s ++ JSON.aspas :: r) = Retorna (s, r).
Proof.
  induction s as [|c s IH]; [reflexivity|].
  cbn [JSON.citar_corpo]. rewrite <- app_assoc, ler_cadeia_unidade, IH. reflexivity.
Qed.

Lemma serializar_inicio v r :
  exists c s, JSON.serializar v ++ r = c :: s /\ inicio_valor c.
Proof.
  destruct v as [|[]| | |]; cbn; eexists _, _; (split; [reflexivity|]); constructor.
Qed.

Lemma separar_inicio x l r :
  exists c s, JSON.separar (map JSON.serializar (x :: l)) ++ r = c :: s /\ inicio_valor c.
Proof.
  cbn [map JSON.separar]. destruct (map JSON.serializar l).
  - apply serializar_inicio.
  - rewrite <- app_assoc. apply serializar_inicio.
Qed.

Lemma saltar_brancos_inicio c s :
  inicio_valor c -> JSON.saltar_brancos (c :: s) = c :: s.
Proof. now intros []. Qed.

Lemma ler_valor_colchete n c s :
  inicio_valor c ->
  JSON.ler_valor (S n) ("[" :: c :: s)
  = match JSON.ler_elementos n (c :: s) with
    | Retorna (vs, r) => Retorna (VArr vs, r)
    | Lanca e => Lanca e
    end.
Proof. now intros []. Qed.

Lemma separar_cons {A} (f : A -> list ascii) x l r :
  JSON.separar (map f (x :: l)) ++ r
  = f x ++ match l with
           | [] => r
           | y :: l' => "," :: JSON.separar (map f (y :: l')) ++ r
           end.
Proof.
  destruct l as [|y l']; [reflexivity|].
  cbn [map JSON.separar]. now rewrite <- app_assoc.
Qed.

Lemma definir_novo k v campos :
  k ∉ map fst campos -> JSON.definir k v campos = campos ++ [(k, v)].
Proof.
  induction campos as [|[k' v'] r IH]; cbn; [reflexivity|].
  intros [Hk Hr]%not_elem_of_cons.
  destruct (String.eqb_spec k' k) as [->|_]; [contradiction|].
  now rewrite IH.
Qed.

Lemma construir_NoDup m : NoDup (map fst m) -> JSON.construir m = m.
Proof.
  unfold JSON.construir.
  enough (forall acc, NoDup (map fst (acc ++ m)) ->
            fold_left (fun campos kv => JSON.definir (fst kv) (snd kv) campos) m acc
            = acc ++ m) as H by (intros; now apply (H [])).
  induction m as [|[k v] m IH]; intros acc Hnd; cbn.
  - now rewrite app_nil_r.
  - rewrite map_app in Hnd. cbn in Hnd.
    rewrite definir_novo.
    + rewrite IH; [now rewrite <- app_assoc|].
      rewrite <- app_assoc, map_app. exact Hnd.
    + apply NoDup_app in Hnd as (_ & Hd & _). intros Hk.
      apply (Hd k Hk). apply list_elem_of_here.
Qed.

Lemma citar_app k r :
  JSON.citar k ++ r = JSON.aspas :: JSON.citar_corpo k ++ JSON.aspas :: r.
Proof. unfold JSON.citar. cbn [app]. now rewrite <- app_assoc. Qed.

Lemma ler_valor_cadeia n t r :
  JSON.ler_valor (S n) (JSON.citar t ++ r) = Retorna (VStr t, r).
Proof.
  rewrite citar_app. change JSON.aspas with "034" at 1. cbn [JSON.ler_valor].
  now rewrite ler_cadeia_corpo.
Qed.

Lemma ler_valor_chave n s :
  JSON.ler_valor (S n) ("{" :: JSON.aspas :: s)
  = match JSON.ler_membros n (JSON.aspas :: s) with
    | Retorna (ms, r) => Retorna (VObj (JSON.construir ms), r)
    | Lanca e => Lanca e
    end.
Proof. reflexivity. Qed.

(** One member read: the name, the colon and the value's text [c :: s]. *)
Lemma ler_membros_passo n k c s :
  inicio_valor c ->
  JSON.ler_membros (S n) (JSON.citar k ++ ":" :: c :: s)
  = match JSON.ler_valor n (c :: s) with
    | Retorna (v, r3) =>
        if JSON.chave_indice k then Lanca ForaDoModelo else
        match JSON.saltar_brancos r3 with
        | "," :: r4 =>
            match JSON.ler_membros n (JSON.saltar_brancos r4) with
            | Retorna (ms, r5) => Retorna ((k, v) :: ms, r5)
            | Lanca e => Lanca e
            end
        | "}" :: r4 => Retorna ([(k, v)], r4)
        | _ => Lanca SyntaxError
        end
    | Lanca e => Lanca e
    end.
Proof.
  intros Hc. rewrite citar_app. change JSON.aspas with "034" at 1.
  cbn [JSON.ler_membros]. rewrite ler_cadeia_corpo.
  change (JSON.saltar_brancos (":" :: ?x)) with (":" :: x). cbv iota beta.
  now rewrite (saltar_brancos_inicio c s Hc).
Qed.

Lemma membros_inicio kv m r :
  exists s, JSON.separar (map serializar_membro (kv :: m)) ++ r = JSON.aspas :: s.
Proof.
  rewrite separar_cons. unfold serializar_membro at 1. rewrite <- app_assoc, citar_app.
  now eexists.
Qed.

Lemma ler_serializar n :
  (forall v r, (peso v <= n)%nat -> bem_formado v ->
     JSON.ler_valor n (JSON.serializar v ++ r) = Retorna (v, r))
  /\ (forall x l r, (peso_itens (x :: l) <= n)%nat -> Forall bem_formado (x :: l) ->
        JSON.ler_elementos n (JSON.separar (map JSON.serializar (x :: l)) ++ "]" :: r)
        = Retorna (x :: l, r))
  /\ (forall kv m r, (peso_campos (kv :: m) <= n)%nat ->
        Forall campo_bem_formado (kv :: m) ->
        JSON.ler_membros n (JSON.separar (map serializar_membro (kv :: m)) ++ "}" :: r)
        = Retorna (kv :: m, r)).
Proof.
  induction n as [|n (IHv & IHe & IHm)].
  { split; [|split].
    - intros v r H. destruct v; cbn in H; lia.
    - intros x l r H. cbn in H. lia.
    - intros kv m r H. cbn in H. lia. }
  split; [|split].
  - intros v r Hp Hbf. destruct v as [|[]|t|l|m].
    + reflexivity.
    + reflexivity.
    + reflexivity.
    + apply ler_valor_cadeia.
    + destruct l as [|x l]; [reflexivity|].
      rewrite peso_VArr in Hp. inversion Hbf as [| | |? Hl|]; subst.
      cbn [JSON.serializar]. cbn [app]. rewrite <- app_assoc. cbn [app].
      destruct (separar_inicio x l ("]" :: r)) as (c & s' & Hs & Hc).
      rewrite Hs, (ler_valor_colchete n c s' Hc), <- Hs.
      rewrite IHe; [reflexivity| lia | assumption].
    + destruct m as [|kv m]; [reflexivity|].
      rewrite peso_VObj in Hp. inversion Hbf as [| | | |? Hnd Hm]; subst.
      cbn [JSON.serializar]. cbn [app]. rewrite <- app_assoc. cbn [app].
      change (JSON.separar
                (map (fun kv0 => JSON.citar (fst kv0) ++ ":" :: JSON.serializar (snd kv0))
                     (kv :: m)))
        with (JSON.separar (map serializar_membro (kv :: m))).
      destruct (membros_inicio kv m ("}" :: r)) as (s' & Hs).
      rewrite Hs, ler_valor_chave, <- Hs.
      rewrite IHm; [|lia|assumption]. now rewrite construir_NoDup.
  - intros x l r Hp Hbf. apply Forall_cons in Hbf as [Hx Hl].
    cbn [peso_itens fold_right] in Hp.
    rewrite separar_cons. cbn [JSON.ler_elementos].
    rewrite IHv by (assumption || lia).
    destruct l as [|y l']; [reflexivity|].
    change (JSON.saltar_brancos ("," :: ?s)) with ("," :: s). cbv iota beta.
    destruct (separar_inicio y l' ("]" :: r)) as (c & s' & Hs & Hc).
    rewrite Hs, (saltar_brancos_inicio c s' Hc), <- Hs.
    rewrite IHe; [reflexivity| |assumption].
    change (peso_itens (y :: l')) with (fold_right (fun x n => S (peso x + n)) O (y :: l')).
    lia.
  - intros [k v] m r Hp Hbf. apply Forall_cons in Hbf as [[Hk Hv] Hm].
    cbn [fst snd] in Hk, Hv. cbn [peso_campos fold_right snd] in Hp.
    rewrite separar_cons. unfold serializar_membro at 1. cbn [fst snd].
    rewrite <- app_assoc. cbn [app].
    destruct (serializar_inicio v
                match m with
                | [] => "}" :: r
                | y :: l' => "," :: JSON.separar (map serializar_membro (y :: l')) ++ "}" :: r
                end) as (c & s' & Hs & Hc).
    rewrite Hs, (ler_membros_passo n k c s' Hc), <- Hs.
    rewrite IHv by (assumption || lia). rewrite Hk.
    destruct m as [|kv' m']; [reflexivity|].
    change (JSON.saltar_brancos ("," :: ?s)) with ("," :: s). cbv iota beta.
    destruct (membros_inicio kv' m' ("}" :: r)) as (s'' & Hs').
    rewrite Hs'. change (JSON.saltar_brancos (JSON.aspas :: s'')) with (JSON.aspas :: s'').
    rewrite <- Hs'. rewrite IHm; [reflexivity| |assumption].
    change (peso_campos (kv' :: m'))
      with (fold_right (fun kv n => S (peso (snd kv) + n)) O (kv' :: m')).
    lia.
Qed.

Lemma length_separar_cons {A} (f : A -> list ascii) x l :
  length (JSON.separar (map f (x :: l)))
  = (length (f x)
     + match l with [] => 0 | y :: l' => S (length (JSON.separar (map f (y :: l')))) end)%nat.
Proof.
  destruct l as [|y l']; cbn [map JSON.separar]; [lia|].
  rewrite length_app. reflexivity.
Qed.

Lemma peso_comprimento n :
  forall v, (peso v <= n)%nat -> (peso v <= length (JSON.serializar v))%nat.
Proof.
  induction n as [|n IH]; intros v Hp; [destruct v; cbn in Hp; lia|].
  destruct v as [|[]|t|l|m]; try (cbn; lia).
  - rewrite peso_VArr in *. cbn [JSON.serializar length]. rewrite length_app. cbn [length].
    enough (peso_itens l <= length (JSON.separar (map JSON.serializar l)) + 1)%nat by lia.
    assert (peso_itens l <= n)%nat as Hl by lia. clear Hp.
    induction l as [|x l IHl]; [cbn; lia|].
    rewrite length_separar_cons.
    change (peso_itens (x :: l)) with (S (peso x + peso_itens l)) in *.
    assert (peso x <= length (JSON.serializar x))%nat by (apply IH; lia).
    destruct l as [|y l']; [change (peso_itens []) with O; lia|].
    assert (peso_itens (y :: l') <= n)%nat as Hy by lia.
    specialize (IHl Hy). lia.
  - rewrite peso_VObj in *. cbn [JSON.serializar length]. rewrite length_app. cbn [length].
    change (map (fun kv => JSON.citar (fst kv) ++ ":" :: JSON.serializar (snd kv)) m)
      with (map serializar_membro m).
    enough (peso_campos m <= length (JSON.separar (map serializar_membro m)) + 1)%nat by lia.
    assert (peso_campos m <= n)%nat as Hl by lia. clear Hp.
    induction m as [|x l IHl]; [cbn; lia|].
    rewrite length_separar_cons.
    change (peso_campos (x :: l)) with (S (peso (snd x) + peso_campos l)) in *.
    assert (peso (snd x) <= length (serializar_membro x))%nat.
    { unfold serializar_membro. rewrite length_app. cbn [length].
      assert (peso (snd x) <= length (JSON.serializar (snd x)))%nat by (apply IH; lia).
      lia. }
    destruct l as [|y l']; [change (peso_campos []) with O; lia|].
    assert (peso_campos (y :: l') <= n)%nat as Hy by lia.
    specialize (IHl Hy). lia.
Qed.

(** [JSON.parse (JSON.stringify (v))] is [v]. *)
Lemma parse_stringify v : bem_formado v -> JSON.parse (JSON.stringify v) = Retorna v.
Proof.
  intros Hbf. unfold JSON.parse, JSON.stringify.
  rewrite list_ascii_of_string_of_list_ascii.
  destruct (serializar_inicio v []) as (c & s & Hs & Hc). rewrite app_nil_r in Hs.
  rewrite Hs, (saltar_brancos_inicio c s Hc), <- Hs.
  rewrite <- (app_nil_r (JSON.serializar v)) at 2.
  rewrite (proj1 (ler_serializar _)); [reflexivity| |assumption].
  pose proof (peso_comprimento (peso v) v (le_n _)). lia.
Qed.

Lemma tarefa_de_para_valor t : Tarefa.de_valor (Tarefa.para_valor t) = Some t.
Proof. destruct t as [? ? ? ? ? [p|] ? ?]; reflexivity. Qed.

Lemma projeto_de_para_valor p : Projeto.de_valor (Projeto.para_valor p) = Some p.
Proof. now destruct p. Qed.

Lemma lista_de_para_valores {A} (de : valor -> option A) (para : A -> valor) l :
  (forall x, de (para x) = Some x) ->
  lista_de_valores de (map para l) = Some l.
Proof.
  intros H. induction l as [|x l IH]; cbn; [reflexivity|]. now rewrite H, IH.
Qed.

Lemma tarefas_de_para_valor l : tarefas_de_valor (tarefas_para_valor l) = Some l.
Proof. apply lista_de_para_valores, tarefa_de_para_valor. Qed.

Lemma projetos_de_para_valor l : projetos_de_valor (projetos_para_valor l) = Some l.
Proof. apply lista_de_para_valores, projeto_de_para_valor. Qed.

Lemma tarefa_bem_formada t : bem_formado (Tarefa.para_valor t).
Proof.
  constructor.
  - cbn [map fst]. apply (bool_decide_unpack _). vm_compute. exact I.
  - repeat (constructor; [split; [reflexivity|cbn [snd]; try constructor]|]);
      [destruct (Tarefa.projetoId t); constructor | constructor].
Qed.

Lemma tarefas_bem_formadas l : bem_formado (tarefas_para_valor l).
Proof.
  constructor. induction l as [|t l IH]; cbn [map]; constructor; auto.
  apply tarefa_bem_formada.
Qed.

End JSONIdaEVolta.

(* ===================================================================== *)
(** * JSON: the bound on the nested calls *)
(* ===================================================================== *)

Section JSONCombustivel.

Local Open Scope char_scope.

Lemma saltar_brancos_comprimento s : (length (JSON.saltar_brancos s) <= length s)%nat.
Proof.
  induction s as [|c s IH]; cbn [JSON.saltar_brancos]; [lia|].
  destruct (JSON.branco c); cbn [length]; lia.
Qed.

Lemma prefixar_Retorna {A} c (x : Resultado (string * A)) t r :
  JSON.prefixar c x = Retorna (t, r) -> exists t', x = Retorna (t', r).
Proof. destruct x as [[t' r']|]; cbn; [|discriminate]. intros [= _ ->]. now eexists. Qed.

Lemma ler_cadeia_consome k :
  forall s t r, (length s <= k)%nat ->
    JSON.ler_cadeia s = Retorna (t, r) -> (length r < length s)%nat.
Proof.
  induction k as [|k IH]; intros s t r Hk.
  - destruct s; [discriminate|cbn in Hk; lia].
  - destruct s as [|c s]; [discriminate|]. cbn [JSON.ler_cadeia length] in *.
    destruct (JSString.codigo c =? 34)%N; [intros [= _ ->]; lia|].
    destruct (JSString.codigo c =? 92)%N.
    + destruct s as [|e s1]; [discriminate|].
      destruct (JSON.escape_simples e).
      * intros (t' & H)%prefixar_Retorna. apply IH in H; cbn [length] in *; lia.
      * destruct (JSString.codigo e =? 117)%N; [|discriminate].
        destruct s1 as [|h1 [|h2 [|h3 [|h4 s2]]]]; try discriminate.
        destruct (JSON.valor_hex4 h1 h2 h3 h4); [|discriminate].
        destruct (_ <? 256)%N; [|discriminate].
        intros (t' & H)%prefixar_Retorna. apply IH in H; cbn [length] in *; lia.
    + destruct (JSString.codigo c <? 32)%N; [discriminate|].
      intros (t' & H)%prefixar_Retorna. apply IH in H; cbn [length] in *; lia.
Qed.

Ltac caso c := destruct c as [[] [] [] [] [] [] [] []].

(* a literal: the characters after the first are matched one by one *)
Ltac literal H :=
  first
    [ discriminate H
    | injection H as <- <-; cbn [length]; lia
    | match type of H with
      | context [match ?l with [] => _ | _ :: _ => _ end] =>
          is_var l; destruct l as [|?c ?l];
          [ discriminate H | caso c; try discriminate H; literal H ]
      end ].

Lemma comprimento_saltar s c r :
  JSON.saltar_brancos s = c :: r -> (S (length r) <= length s)%nat.
Proof.
  intros H. pose proof (saltar_brancos_comprimento s) as Hl. rewrite H in Hl. exact Hl.
Qed.


(* the result of a reader, taken apart *)
Ltac resultado H v r E :=
  match type of H with
  | context [match ?x with Retorna _ => _ | Lanca _ => _ end] =>
      destruct x as [[v r]|] eqn:E; [|discriminate H]
  end.

Lemma ler_consome n :
  (forall s v r, JSON.ler_valor n s = Retorna (v, r) -> (length r < length s)%nat)
  /\ (forall s vs r, JSON.ler_elementos n s = Retorna (vs, r) -> (length r < length s)%nat)
  /\ (forall s ms r, JSON.ler_membros n s = Retorna (ms, r) -> (length r < length s)%nat).
Proof.
  induction n as [|n (IHv & IHe & IHm)]; [repeat split; discriminate|].
  split; [|split].
  - intros s v r H. destruct s as [|c s1]; [discriminate|].
    caso c; try discriminate H; cbn [JSON.ler_valor length] in H |- *.
    all: try (literal H; fail).
    + (* an object *)
      destruct (JSON.saltar_brancos s1) as [|c2 s2] eqn:E.
      * resultado H ms r2 E2. apply IHm in E2. cbn in E2. lia.
      * apply comprimento_saltar in E.
        caso c2; cbv iota in H;
          first [ injection H as <- <-; lia
                | resultado H ms r2 E2; injection H as <- <-; apply IHm in E2;
                  cbn [length] in E2; lia ].
    + (* an array *)
      destruct (JSON.saltar_brancos s1) as [|c2 s2] eqn:E.
      * resultado H vs r2 E2. apply IHe in E2. cbn in E2. lia.
      * apply comprimento_saltar in E.
        caso c2; cbv iota in H;
          first [ injection H as <- <-; lia
                | resultado H vs r2 E2; injection H as <- <-; apply IHe in E2;
                  cbn [length] in E2; lia ].
    + (* a string *)
      resultado H t r1 E. injection H as <- <-.
      apply (ler_cadeia_consome _ _ _ _ (le_n _)) in E. lia.
  - intros s vs r H. cbn [JSON.ler_elementos] in H.
    resultado H v r1 E. apply IHv in E.
    destruct (JSON.saltar_brancos r1) as [|c2 s2] eqn:E2; [discriminate H|].
    apply comprimento_saltar in E2.
    caso c2; try discriminate H; cbv iota in H.
    + injection H as <- <-. lia.
    + resultado H vs' r3 E3. injection H as <- <-. apply IHe in E3.
      pose proof (saltar_brancos_comprimento s2). lia.
  - intros s ms r H. destruct s as [|c s1]; [discriminate|].
    caso c; try discriminate H; cbn [JSON.ler_membros length] in H |- *.
    resultado H k r1 E. apply (ler_cadeia_consome _ _ _ _ (le_n _)) in E.
    destruct (JSON.saltar_brancos r1) as [|c2 s2] eqn:E2; [discriminate H|].
    apply comprimento_saltar in E2.
    caso c2; try discriminate H; cbv iota in H.
    resultado H v r3 E3. apply IHv in E3.
    pose proof (saltar_brancos_comprimento s2).
    destruct (JSON.chave_indice k); [discriminate H|].
    destruct (JSON.saltar_brancos r3) as [|c4 s4] eqn:E4; [discriminate H|].
    apply comprimento_saltar in E4.
    caso c4; try discriminate H; cbv iota in H.
    + injection H as <- <-. lia.
    + resultado H ms' r5 E5. injection H as <- <-. apply IHm in E5.
      pose proof (saltar_brancos_comprimento s4). lia.
Qed.

Lemma ler_elementos_S n s :
  JSON.ler_elementos (S n) s
  = match JSON.ler_valor n s with
    | Retorna (v, r) =>
        match JSON.saltar_brancos r with
        | "," :: r1 =>
            match JSON.ler_elementos n (JSON.saltar_brancos r1) with
            | Retorna (vs, r2) => Retorna (v :: vs, r2)
            | Lanca e => Lanca e
            end
        | "]" :: r1 => Retorna ([v], r1)
        | _ => Lanca SyntaxError
        end
    | Lanca e => Lanca e
    end.
Proof. reflexivity. Qed.

Lemma ler_membros_S n s :
  JSON.ler_membros (S n) (JSON.aspas :: s)
  = match JSON.ler_cadeia s with
    | Retorna (k, r1) =>
        match JSON.saltar_brancos r1 with
        | ":" :: r2 =>
            match JSON.ler_valor n (JSON.saltar_brancos r2) with
            | Retorna (v, r3) =>
                if JSON.chave_indice k then Lanca ForaDoModelo else
                match JSON.saltar_brancos r3 with
                | "," :: r4 =>
                    match JSON.ler_membros n (JSON.saltar_brancos r4) with
                    | Retorna (ms, r5) => Retorna ((k, v) :: ms, r5)
                    | Lanca e => Lanca e
                    end
                | "}" :: r4 => Retorna ([(k, v)], r4)
                | _ => Lanca SyntaxError
                end
            | Lanca e => Lanca e
            end
        | _ => Lanca SyntaxError
        end
    | Lanca e => Lanca e
    end.
Proof. reflexivity. Qed.

(** Past twice the length of the text, the bound on the nested calls
    plays no part. *)
Lemma ler_combustivel n :
  (forall s, (2 * length s + 1 <= n)%nat -> JSON.ler_valor (S n) s = JSON.ler_valor n s)
  /\ (forall s, (2 * length s + 2 <= n)%nat ->
        JSON.ler_elementos (S n) s = JSON.ler_elementos n s)
  /\ (forall s, (2 * length s + 2 <= n)%nat ->
        JSON.ler_membros (S n) s = JSON.ler_membros n s).
Proof.
  induction n as [|n (IHv & IHe & IHm)]; [repeat split; intros; lia|].
  split; [|split].
  - intros s Hn. destruct s as [|c s1]; [reflexivity|]. cbn [length] in Hn.
    caso c; try reflexivity; cbn [JSON.ler_valor].
    + destruct (JSON.saltar_brancos s1) as [|c2 s2] eqn:E.
      * rewrite IHm; [reflexivity | cbn [length]; lia].
      * apply comprimento_saltar in E.
        caso c2; cbv iota; try reflexivity; (rewrite IHm; [reflexivity | cbn [length]; lia]).
    + destruct (JSON.saltar_brancos s1) as [|c2 s2] eqn:E.
      * rewrite IHe; [reflexivity | cbn [length]; lia].
      * apply comprimento_saltar in E.
        caso c2; cbv iota; try reflexivity; (rewrite IHe; [reflexivity | cbn [length]; lia]).
  - intros s Hn. rewrite (ler_elementos_S (S n) s), (ler_elementos_S n s).
    rewrite IHv by lia.
    destruct (JSON.ler_valor n s) as [[v r]|] eqn:E; [|reflexivity].
    apply (proj1 (ler_consome n)) in E.
    destruct (JSON.saltar_brancos r) as [|c2 s2] eqn:E2; [reflexivity|].
    apply comprimento_saltar in E2. pose proof (saltar_brancos_comprimento s2).
    caso c2; try reflexivity; cbv iota. rewrite IHe; [reflexivity | lia].
  - intros s Hn. destruct s as [|c s1]; [reflexivity|]. cbn [length] in Hn.
    caso c; try reflexivity.
    change (Ascii false true false false false true false false) with JSON.aspas.
    rewrite (ler_membros_S (S n) s1), (ler_membros_S n s1).
    destruct (JSON.ler_cadeia s1) as [[k r1]|] eqn:E; [|reflexivity].
    apply (ler_cadeia_consome _ _ _ _ (le_n _)) in E.
    destruct (JSON.saltar_brancos r1) as [|c2 s2] eqn:E2; [reflexivity|].
    apply comprimento_saltar in E2. pose proof (saltar_brancos_comprimento s2).
    caso c2; try reflexivity; cbv iota. rewrite IHv by lia.
    destruct (JSON.ler_valor n _) as [[v r3]|] eqn:E3; [|reflexivity].
    apply (proj1 (ler_consome n)) in E3.
    destruct (JSON.chave_indice k); [reflexivity|].
    destruct (JSON.saltar_brancos r3) as [|c4 s4] eqn:E4; [reflexivity|].
    apply comprimento_saltar in E4. pose proof (saltar_brancos_comprimento s4).
    caso c4; try reflexivity; cbv iota. rewrite IHm; [reflexivity | lia].
Qed.

(** [parse] gives the readers more than they use: any larger bound reads
    the same value from the text. *)
Lemma parse_combustivel texto m :
  let s := list_ascii_of_string texto in
  (2 * length s + 2 <= m)%nat ->
  JSON.ler_valor m (JSON.saltar_brancos s)
  = JSON.ler_valor (2 * length s + 2) (JSON.saltar_brancos s).
Proof.
  intros s Hm. induction Hm as [|m Hm IH]; [reflexivity|].
  rewrite <- IH. apply (proj1 (ler_combustivel m)).
  pose proof (saltar_brancos_comprimento s). lia.
Qed.

End JSONCombustivel.

(* ===================================================================== *)
(** * GerenciadorArmazenamento: carregar and salvar *)
(* ===================================================================== *)

Section Armazenamento.

Lemma carregar_executa chave padrao e :
  GerenciadorArmazenamento.carregar chave padrao e
  = match falha_leitura (localStorage e) chave with
    | Some _ => (Retorna padrao, com_erro_ao_carregar chave e)
    | None =>
        match itens (localStorage e) !! chave with
        | None => (Retorna padrao, e)
        | Some texto =>
            match JSON.parse texto with
            | Retorna dados => (Retorna dados, com_dados_carregados chave e)
            | Lanca _ => (Retorna padrao, com_erro_ao_carregar chave e)
            end
        end
    end.
Proof.
  unfold GerenciadorArmazenamento.carregar, tentar, ligar, Navegador.getItem,
    Logger.info, Logger.error, modificar, retornar, lancar.
  destruct (falha_leitura _ _); [reflexivity|].
  destruct (_ !! _) as [texto|]; [|reflexivity].
  destruct (JSON.parse texto); reflexivity.
Qed.

(** C9: [carregar] always returns a value, never an error.  It returns the
    default, with the state unchanged, when the key has no item; it returns
    the default, after one line of level [Error] on the console, when the
    read throws and when [JSON.parse] throws its [SyntaxError] on the item's
    text. *)
Theorem carregar_valor_padrao (e : Estado) (chave : string) (valorPadrao : valor) :
  (exists v, resultado_de (GerenciadorArmazenamento.carregar chave valorPadrao) e
             = Retorna v)
  /\ (falha_leitura (localStorage e) chave = None ->
      itens (localStorage e) !! chave = None ->
      GerenciadorArmazenamento.carregar chave valorPadrao e = (Retorna valorPadrao, e))
  /\ (forall erro,
        falha_leitura (localStorage e) chave = Some erro ->
        GerenciadorArmazenamento.carregar chave valorPadrao e
        = (Retorna valorPadrao, com_erro_ao_carregar chave e))
  /\ (forall texto,
        falha_leitura (localStorage e) chave = None ->
        itens (localStorage e) !! chave = Some texto ->
        JSON.parse texto = Lanca SyntaxError ->
        GerenciadorArmazenamento.carregar chave valorPadrao e
        = (Retorna valorPadrao, com_erro_ao_carregar chave e)).
Proof.
  rewrite carregar_executa. unfold resultado_de. rewrite carregar_executa.
  split; [|split; [|split]].
  - destruct (falha_leitura _ _); [now eexists|].
    destruct (_ !! _) as [texto|]; [|now eexists].
    destruct (JSON.parse texto); now eexists.
  - now intros -> ->.
  - now intros erro ->.
  - now intros texto -> -> ->.
Qed.

Lemma carregar_valor_padrao_witness :
  let estragado :=
    com_localStorage
      (fun a => {| itens := <["tarefas" := "{oops"]> (itens a);
                   falha_leitura := falha_leitura a;
                   falha_escrita := falha_escrita a |})
      (Pagina.navegador_novo Exemplo.amb) in
  let bloqueado :=
    com_localStorage
      (fun a => {| itens := itens a;
                   falha_leitura := fun _ => Some SecurityError;
                   falha_escrita := falha_escrita a |})
      (Pagina.navegador_novo Exemplo.amb) in
  resultado_de (GerenciadorArmazenamento.carregar "tarefas" (VArr [])) estragado
  = Retorna (VArr [])
  /\ resultado_de (GerenciadorArmazenamento.carregar "tarefas" (VArr [])) bloqueado
     = Retorna (VArr [])
  /\ GerenciadorArmazenamento.carregar "projetos" VNull (Pagina.navegador_novo Exemplo.amb)
     = (Retorna VNull, Pagina.navegador_novo Exemplo.amb).
Proof.
  intros estragado bloqueado. split; [|split].
  - destruct (carregar_valor_padrao estragado "tarefas" (VArr [])) as (_ & _ & _ & H).
    unfold resultado_de.
    now rewrite (H "{oops" eq_refl eq_refl eq_refl).
  - destruct (carregar_valor_padrao bloqueado "tarefas" (VArr [])) as (_ & _ & H & _).
    unfold resultado_de. now rewrite (H SecurityError eq_refl).
  - destruct (carregar_valor_padrao (Pagina.navegador_novo Exemplo.amb) "projetos" VNull)
      as (_ & H & _).
    exact (H eq_refl eq_refl).
Defined.

Lemma apos_salvar_falha_leitura chave dados e :
  falha_leitura (localStorage (apos_salvar chave dados e)) = falha_leitura (localStorage e).
Proof. unfold apos_salvar. now destruct (falha_escrita _ _ _ _). Qed.

Lemma apos_salvar_itens chave dados e :
  falha_escrita (localStorage e) (itens (localStorage e)) chave (JSON.stringify dados)
  = None ->
  itens (localStorage (apos_salvar chave dados e))
  = <[chave := JSON.stringify dados]> (itens (localStorage e)).
Proof. intros H. unfold apos_salvar. now rewrite H. Qed.

Lemma carregar_apos_salvar e chave dados padrao :
  bem_formado dados ->
  falha_escrita (localStorage e) (itens (localStorage e)) chave (JSON.stringify dados)
  = None ->
  falha_leitura (localStorage e) chave = None ->
  GerenciadorArmazenamento.carregar chave padrao (apos_salvar chave dados e)
  = (Retorna dados, com_dados_carregados chave (apos_salvar chave dados e)).
Proof.
  intros Hbf Hw Hr.
  rewrite carregar_executa, apos_salvar_falha_leitura, Hr, (apos_salvar_itens _ _ _ Hw).
  rewrite lookup_insert_eq, parse_stringify by assumption. reflexivity.
Qed.

(** C8: a task list saved under a key and loaded from that key comes back
    as it was: when the browser refuses neither the write nor the read,
    [carregar] after [salvar] returns the array that was saved, whatever the
    default, and the array read as task records is the list, with the same
    tasks, the same fields and the same order. *)
Theorem salvar_carregar_tarefas (e : Estado) (chave : string) (v : list Tarefa.t)
  (valorPadrao : valor) :
  falha_escrita (localStorage e) (itens (localStorage e)) chave
                (JSON.stringify (tarefas_para_valor v)) = None ->
  falha_leitura (localStorage e) chave = None ->
  let e1 := estado_apos (GerenciadorArmazenamento.salvar chave (tarefas_para_valor v)) e in
  resultado_de (GerenciadorArmazenamento.carregar chave valorPadrao) e1
  = Retorna (tarefas_para_valor v)
  /\ tarefas_de_valor (tarefas_para_valor v) = Some v.
Proof.
  intros Hw Hr e1. split; [|apply tarefas_de_para_valor].
  subst e1. unfold estado_apos, resultado_de. rewrite salvar_executa. cbn [snd].
  rewrite carregar_apos_salvar; auto using tarefas_bem_formadas.
Qed.

Lemma salvar_carregar_tarefas_witness :
  let e := Pagina.navegador_novo Exemplo.amb in
  let v := [Exemplo.leite; Exemplo.relatorio] in
  resultado_de (GerenciadorArmazenamento.carregar "tarefas" VNull)
    (estado_apos (GerenciadorArmazenamento.salvar "tarefas" (tarefas_para_valor v)) e)
  = Retorna (tarefas_para_valor v).
Proof.
  intros e v. exact (proj1 (salvar_carregar_tarefas e "tarefas" v VNull eq_refl eq_refl)).
Defined.

(** The same through the store: the list that [salvarTarefas] wrote is the
    list that [carregarTarefas] reads into a new manager after a reload. *)
Corollary recarregar_tarefas (e : Estado) :
  falha_escrita (localStorage e) (itens (localStorage e)) "tarefas"
    (JSON.stringify (tarefas_para_valor (tarefas (gerenciadorTarefas e)))) = None ->
  falha_leitura (localStorage e) "tarefas" = None ->
  let recarregada :=
    com_gerenciadorTarefas
      (fun _ => {| tarefas := []; tarefaEditando := None;
                   projetoAtivo := "todos"; filtroAtivo := "todas" |})
      (estado_apos GerenciadorTarefas.salvarTarefas e) in
  resultado_de GerenciadorTarefas.carregarTarefas recarregada = Retorna tt
  /\ tarefas (gerenciadorTarefas
               (estado_apos GerenciadorTarefas.carregarTarefas recarregada))
     = tarefas (gerenciadorTarefas e).
Proof.
  intros Hw Hr recarregada. subst recarregada.
  unfold estado_apos, resultado_de. rewrite salvarTarefas_executa. cbn [snd].
  unfold GerenciadorTarefas.carregarTarefas.
  set (v := tarefas (gerenciadorTarefas e)) in *.
  set (e1 := apos_salvar "tarefas" (tarefas_para_valor v) e).
  assert (GerenciadorArmazenamento.carregar "tarefas" (VArr [])
            (com_gerenciadorTarefas
               (fun _ => {| tarefas := []; tarefaEditando := None;
                            projetoAtivo := "todos"; filtroAtivo := "todas" |}) e1)
          = (Retorna (tarefas_para_valor v),
             com_dados_carregados "tarefas"
               (com_gerenciadorTarefas
                  (fun _ => {| tarefas := []; tarefaEditando := None;
                               projetoAtivo := "todos"; filtroAtivo := "todas" |}) e1)))
    as Hc.
  { rewrite carregar_executa. cbn [localStorage com_gerenciadorTarefas]. subst e1.
    rewrite apos_salvar_falha_leitura, Hr, (apos_salvar_itens _ _ _ Hw).
    rewrite lookup_insert_eq, parse_stringify by apply tarefas_bem_formadas.
    reflexivity. }
  unfold ligar. rewrite !Hc, !tarefas_de_para_valor.
  executar. projetar. split; reflexivity.
Qed.

End Armazenamento.

(* ===================================================================== *)
(** * GerenciadorArmazenamento: failures and other keys *)
(* ===================================================================== *)

Section ArmazenamentoFalhas.

(** X1: [salvar] never throws.  When the browser refuses the write (storage
    disabled or over quota), the error is caught: [localStorage] is as it
    was and the console gets one line of level [Error].  When the write goes
    through, the key holds the text of the data and the console gets one
    line of level [Info].  Either way no alert is shown and neither the two
    stores nor the page change. *)
Theorem salvar_nunca_lanca (e : Estado) (chave : string) (dados : valor) :
  let e' := estado_apos (GerenciadorArmazenamento.salvar chave dados) e in
  resultado_de (GerenciadorArmazenamento.salvar chave dados) e = Retorna tt
  /\ (forall erro,
        falha_escrita (localStorage e) (itens (localStorage e)) chave
                      (JSON.stringify dados) = Some erro ->
        localStorage e' = localStorage e
        /\ console e'
           = console e ++ [(Error, "[ERROR] Erro ao salvar dados para chave "
                                   +:+ chave +:+ ":")])
  /\ (falha_escrita (localStorage e) (itens (localStorage e)) chave
                    (JSON.stringify dados) = None ->
      itens (localStorage e') = <[chave := JSON.stringify dados]> (itens (localStorage e))
      /\ console e' = console e ++ [(Info, "[INFO] Dados salvos para chave: " +:+ chave)])
  /\ alertas e' = alertas e
  /\ gerenciadorTarefas e' = gerenciadorTarefas e
  /\ gerenciadorProjetos e' = gerenciadorProjetos e
  /\ documento e' = documento e.
Proof.
  intros e'. subst e'. unfold estado_apos, resultado_de.
  rewrite salvar_executa. cbn [fst snd].
  split; [reflexivity|]. unfold apos_salvar.
  destruct (falha_escrita _ _ _ _) as [x|]; repeat split; try discriminate;
    intros; reflexivity.
Qed.

Lemma remover_executa chave e :
  GerenciadorArmazenamento.remover chave e
  = (Retorna tt,
     match falha_leitura (localStorage e) chave with
     | Some _ =>
         com_console
           (fun c => c ++ [(Error, "[ERROR] "
                                   +:+ ("Erro ao remover dados para chave " +:+ chave +:+ ":"))])
           e
     | None =>
         com_console
           (fun c => c ++ [(Info, "[INFO] " +:+ ("Dados removidos para chave: " +:+ chave))])
           (com_localStorage
              (fun a => {| itens := delete chave (itens a);
                           falha_leitura := falha_leitura a;
                           falha_escrita := falha_escrita a |}) e)
     end).
Proof.
  unfold GerenciadorArmazenamento.remover, tentar, ligar, Navegador.removeItem,
    Logger.info, Logger.error, modificar.
  destruct (falha_leitura _ _); reflexivity.
Qed.

(** X2: [remover] never throws.  When the browser allows the removal, the
    key has no item afterwards, every other key keeps its item, and
    [carregar] of the key returns the default without changing the state.
    When the browser refuses, [localStorage] is as it was and the console
    gets one line of level [Error]. *)
Theorem remover_carregar (e : Estado) (chave : string) (valorPadrao : valor) :
  let e' := estado_apos (GerenciadorArmazenamento.remover chave) e in
  resultado_de (GerenciadorArmazenamento.remover chave) e = Retorna tt
  /\ (falha_leitura (localStorage e) chave = None ->
      itens (localStorage e') = delete chave (itens (localStorage e))
      /\ (forall outra, outra <> chave ->
            itens (localStorage e') !! outra = itens (localStorage e) !! outra)
      /\ GerenciadorArmazenamento.carregar chave valorPadrao e'
         = (Retorna valorPadrao, e'))
  /\ (forall erro,
        falha_leitura (localStorage e) chave = Some erro ->
        localStorage e' = localStorage e
        /\ console e'
           = console e ++ [(Error, "[ERROR] Erro ao remover dados para chave "
                                   +:+ chave +:+ ":")]).
Proof.
  intros e'. subst e'. unfold estado_apos, resultado_de.
  rewrite remover_executa. cbn [fst snd]. split; [reflexivity|]. split.
  - intros Hr. rewrite Hr. projetar. split; [reflexivity|]. split.
    + intros outra Hne. now apply lookup_delete_ne.
    + rewrite carregar_executa. projetar. cbn [falha_leitura itens].
      now rewrite Hr, lookup_delete_eq.
  - intros erro Hr. rewrite Hr. projetar. split; reflexivity.
Qed.

(** X3: saving under one key leaves every other key alone: the item of
    another key is as it was, whether the write went through or not, and
    [carregar] of the other key returns what it returned before.  So the
    stored tasks and the stored projects do not disturb each other. *)
Theorem salvar_outra_chave (e : Estado) (chave outra : string)
  (dados valorPadrao : valor) :
  outra <> chave ->
  let e' := estado_apos (GerenciadorArmazenamento.salvar chave dados) e in
  itens (localStorage e') !! outra = itens (localStorage e) !! outra
  /\ resultado_de (GerenciadorArmazenamento.carregar outra valorPadrao) e'
     = resultado_de (GerenciadorArmazenamento.carregar outra valorPadrao) e.
Proof.
  intros Hne e'. subst e'. unfold estado_apos, resultado_de.
  rewrite salvar_executa. cbn [snd].
  assert (itens (localStorage (apos_salvar chave dados e)) !! outra
          = itens (localStorage e) !! outra) as Hi.
  { unfold apos_salvar. destruct (falha_escrita _ _ _ _); projetar; [reflexivity|].
    cbn [itens]. now apply lookup_insert_ne. }
  split; [exact Hi|].
  rewrite !carregar_executa, apos_salvar_falha_leitura, Hi. clear Hi.
  destruct (falha_leitura _ _); [reflexivity|].
  destruct (itens (localStorage e) !! outra) as [texto|]; [|reflexivity].
  destruct (JSON.parse texto); reflexivity.
Qed.

Lemma salvar_outra_chave_witness :
  let e := Pagina.navegador_novo Exemplo.amb in
  let e1 := estado_apos (GerenciadorArmazenamento.salvar "projetos"
                           (projetos_para_valor [Exemplo.casa])) e in
  let e2 := estado_apos (GerenciadorArmazenamento.salvar "tarefas"
                           (tarefas_para_valor [Exemplo.leite])) e1 in
  resultado_de (GerenciadorArmazenamento.carregar "projetos" (VArr [])) e2
  = resultado_de (GerenciadorArmazenamento.carregar "projetos" (VArr [])) e1.
Proof.
  intros e e1 e2.
  refine (proj2 (salvar_outra_chave e1 "tarefas" "projetos" _ (VArr []) _)).
  discriminate.
Defined.

End ArmazenamentoFalhas.


(* ===================================================================== *)
(** * Start-up: DOMContentLoaded *)
(* ===================================================================== *)

Section Inicio.

Lemma projeto_bem_formado p : bem_formado (Projeto.para_valor p).
Proof.
  constructor.
  - cbn [map fst]. apply (bool_decide_unpack _). vm_compute. exact I.
  - repeat (constructor; [split; [reflexivity|cbn [snd]; constructor]|]).
    constructor.
Qed.

Lemma projetos_bem_formados l : bem_formado (projetos_para_valor l).
Proof.
  constructor. induction l as [|p l IH]; constructor; auto using projeto_bem_formado.
Qed.

Lemma carregar_guardado chave v e :
  bem_formado v ->
  falha_leitura (localStorage e) chave = None ->
  guardado chave v e ->
  exists e',
    GerenciadorArmazenamento.carregar chave (VArr []) e = (Retorna v, e')
    /\ gerenciadorTarefas e' = gerenciadorTarefas e
    /\ gerenciadorProjetos e' = gerenciadorProjetos e
    /\ localStorage e' = localStorage e
    /\ alertas e' = alertas e
    /\ documento e' = documento e
    /\ ambiente e' = ambiente e.
Proof.
  intros Hbf Hr [Hg|[Hg ->]]; rewrite carregar_executa, Hr, Hg.
  - rewrite parse_stringify by assumption. eexists. split; [reflexivity|].
    repeat split.
  - eexists. split; [reflexivity|]. repeat split.
Qed.

Lemma carregarTarefas_guardado e ts :
  falha_leitura (localStorage e) "tarefas" = None ->
  guardado "tarefas" (tarefas_para_valor ts) e ->
  exists e',
    GerenciadorTarefas.carregarTarefas e = (Retorna tt, e')
    /\ gerenciadorTarefas e' = com_tarefas (fun _ => ts) (gerenciadorTarefas e)
    /\ gerenciadorProjetos e' = gerenciadorProjetos e
    /\ localStorage e' = localStorage e
    /\ alertas e' = alertas e
    /\ documento e'
       = com_lista_tarefas
           (GerenciadorTarefas.ordem_de_exibicao
              (com_tarefas (fun _ => ts) (gerenciadorTarefas e)))
           (documento e).
Proof.
  intros Hr Hg.
  destruct (carregar_guardado _ _ e (tarefas_bem_formadas ts) Hr Hg)
    as (e1 & Hc & Ht & Hp & Hl & Ha & Hd & _).
  unfold GerenciadorTarefas.carregarTarefas, ligar at 1. rewrite Hc.
  rewrite tarefas_de_para_valor. executar. eexists. split; [reflexivity|].
  projetar. rewrite Ht, Hp, Hl, Ha, Hd. repeat split.
Qed.

Lemma carregarProjetos_guardado e ps :
  falha_leitura (localStorage e) "projetos" = None ->
  guardado "projetos" (projetos_para_valor ps) e ->
  exists e',
    GerenciadorProjetos.carregarProjetos e = (Retorna tt, e')
    /\ gerenciadorProjetos e' = com_projetos (fun _ => ps) (gerenciadorProjetos e)
    /\ gerenciadorTarefas e' = gerenciadorTarefas e
    /\ localStorage e' = localStorage e
    /\ alertas e' = alertas e
    /\ documento e'
       = com_lista_projetos (Array.sort (GerenciadorProjetos.comparar_nomes (ambiente e)) ps)
           (documento e).
Proof.
  intros Hr Hg.
  destruct (carregar_guardado _ _ e (projetos_bem_formados ps) Hr Hg)
    as (e1 & Hc & Ht & Hp & Hl & Ha & Hd & Hm).
  unfold GerenciadorProjetos.carregarProjetos, ligar at 1. rewrite Hc.
  rewrite projetos_de_para_valor. executar. eexists. split; [reflexivity|].
  unfold GerenciadorProjetos.ordem_de_exibicao.
  projetar. rewrite Ht, Hp, Hl, Ha, Hd, Hm. repeat split.
Qed.

Lemma ordem_de_exibicao_todas g :
  projetoAtivo g = "todos" -> filtroAtivo g = "todas" ->
  GerenciadorTarefas.ordem_de_exibicao g
  = Array.sort GerenciadorTarefas.comparar (tarefas g).
Proof.
  intros Hp Hf.
  unfold GerenciadorTarefas.ordem_de_exibicao, GerenciadorTarefas.obterTarefasFiltradas.
  rewrite Hp, Hf. cbn [String.eqb Ascii.eqb Bool.eqb negb]. cbv iota.
  now destruct (tarefas g).
Qed.

(** The run of the start-up over storage that can be read: the state the
    second constructor leaves, under the last three updates of the
    handler. *)
Lemma DOMContentLoaded_executa (e : Estado) (ts : list Tarefa.t) (ps : list Projeto.t) :
  falha_leitura (localStorage e) "projetos" = None ->
  falha_leitura (localStorage e) "tarefas" = None ->
  guardado "projetos" (projetos_para_valor ps) e ->
  guardado "tarefas" (tarefas_para_valor ts) e ->
  exists e4,
    Pagina.DOMContentLoaded e
    = (Retorna tt,
       com_console
         (fun c => c ++ [(Info, "[INFO] " +:+ "Sistema inicializado com sucesso")])
         (com_documento (com_form_tarefa false)
            (com_documento (com_form_projeto false)
               (com_console
                  (fun c => c ++ [(Info, "[INFO] " +:+
                             "Eventos do gerenciador de tarefas inicializados")])
                  e4))))
    /\ gerenciadorTarefas e4
       = {| tarefas := ts; tarefaEditando := None;
            projetoAtivo := "todos"; filtroAtivo := "todas" |}
    /\ gerenciadorProjetos e4 = {| projetos := ps; projetoEditando := None |}
    /\ localStorage e4 = localStorage e
    /\ alertas e4 = alertas e
    /\ lista_tarefas (documento e4) = Array.sort GerenciadorTarefas.comparar ts
    /\ lista_projetos (documento e4)
       = Array.sort (GerenciadorProjetos.comparar_nomes (ambiente e)) ps.
Proof.
  intros Hrp Hrt Hgp Hgt.
  unfold Pagina.DOMContentLoaded.
  unfold ligar at 1. unfold Logger.info at 1, modificar at 1.
  unfold ligar at 1. unfold modificar at 1.
  set (e1 := com_gerenciadorProjetos _ _).
  destruct (carregarProjetos_guardado e1 ps Hrp Hgp)
    as (e2 & Hc2 & Hp2 & Ht2 & Hl2 & Ha2 & Hd2).
  unfold ligar at 1. rewrite Hc2.
  unfold ligar at 1. unfold Logger.info at 1, modificar at 1.
  unfold ligar at 1. unfold modificar at 1.
  set (e3 := com_gerenciadorTarefas _ _).
  assert (localStorage e3 = localStorage e) as Hl3 by (subst e3; projetar; exact Hl2).
  destruct (carregarTarefas_guardado e3 ts) as (e4 & Hc4 & Ht4 & Hp4 & Hl4 & Ha4 & Hd4).
  { now rewrite Hl3. }
  { unfold guardado in *. now rewrite Hl3. }
  unfold ligar at 1. rewrite Hc4. executar. exists e4. split; [reflexivity|].
  rewrite Ht4, Hp4, Hl4, Ha4, Hd4. subst e3. projetar.
  rewrite Hp2, Hl2, Ha2, Hd2. subst e1. projetar_documento.
  repeat split. now rewrite ordem_de_exibicao_todas.
Qed.

(** X4: start-up restores what storage holds.  When the two keys can be
    read and hold the text of a project list and of a task list (or no item,
    for an empty list), [DOMContentLoaded] returns with exactly these lists
    in the two stores, no task or project under edit, the selection back at
    "todos" and "todas", every task and every project listed once on the
    page, the tasks in display order when their priorities are among
    "alta", "media" and "baixa", the projects by name when the collation is
    consistent, both forms hidden, and [localStorage] and the alerts
    untouched. *)
Theorem DOMContentLoaded_restaura (e : Estado) (ts : list Tarefa.t)
  (ps : list Projeto.t) :
  falha_leitura (localStorage e) "projetos" = None ->
  falha_leitura (localStorage e) "tarefas" = None ->
  guardado "projetos" (projetos_para_valor ps) e ->
  guardado "tarefas" (tarefas_para_valor ts) e ->
  let e' := estado_apos Pagina.DOMContentLoaded e in
  resultado_de Pagina.DOMContentLoaded e = Retorna tt
  /\ gerenciadorTarefas e'
     = {| tarefas := ts; tarefaEditando := None;
          projetoAtivo := "todos"; filtroAtivo := "todas" |}
  /\ gerenciadorProjetos e' = {| projetos := ps; projetoEditando := None |}
  /\ Permutation (lista_tarefas (documento e')) ts
  /\ (Forall prioridade_conhecida ts ->
      lista_tarefas (documento e') = Array.sort GerenciadorTarefas.comparar ts)
  /\ Permutation (lista_projetos (documento e')) ps
  /\ (colacao_consistente (ambiente e) ->
      por_nome (ambiente e) (lista_projetos (documento e')))
  /\ form_tarefa (documento e') = false
  /\ form_projeto (documento e') = false
  /\ localStorage e' = localStorage e
  /\ alertas e' = alertas e.
Proof.
  intros Hrp Hrt Hgp Hgt e'.
  destruct (DOMContentLoaded_executa e ts ps Hrp Hrt Hgp Hgt)
    as (e4 & He & Ht & Hp & Hl & Ha & Hlt & Hlp).
  subst e'. unfold estado_apos, resultado_de. rewrite He. cbn [fst snd].
  projetar_documento. rewrite Ht, Hp, Hl, Ha, Hlt, Hlp.
  repeat split; auto using sort_Permutation, sort_por_nome.
Qed.

Lemma DOMContentLoaded_restaura_witness :
  let e :=
    estado_apos
      (GerenciadorArmazenamento.salvar "tarefas"
         (tarefas_para_valor [Exemplo.relatorio; Exemplo.leite]) ;;
       GerenciadorArmazenamento.salvar "projetos"
         (projetos_para_valor [Exemplo.trabalho; Exemplo.casa]))
      (Pagina.navegador_novo Exemplo.amb) in
  let e' := estado_apos Pagina.DOMContentLoaded e in
  tarefas (gerenciadorTarefas e') = [Exemplo.relatorio; Exemplo.leite]
  /\ projetos (gerenciadorProjetos e') = [Exemplo.trabalho; Exemplo.casa]
  /\ lista_tarefas (documento e') = [Exemplo.leite; Exemplo.relatorio]
  /\ Permutation (lista_projetos (documento e')) [Exemplo.trabalho; Exemplo.casa]
  /\ por_nome Exemplo.amb (lista_projetos (documento e'))
  /\ lista_projetos (documento e') = [Exemplo.casa; Exemplo.trabalho].
Proof.
  intros e e'.
  destruct (DOMContentLoaded_restaura e [Exemplo.relatorio; Exemplo.leite]
              [Exemplo.trabalho; Exemplo.casa])
    as (_ & Ht & Hp & _ & Hl & Hlp & Hn & _).
  - reflexivity.
  - reflexivity.
  - left. reflexivity.
  - left. reflexivity.
  - fold e' in Ht, Hp, Hl, Hlp.
    assert (Forall prioridade_conhecida [Exemplo.relatorio; Exemplo.leite]) as Hc
        by (repeat constructor; unfold prioridade_conhecida, niveis_de_prioridade;
            cbn; set_solver).
    split; [now rewrite Ht|]. split; [now rewrite Hp|].
    split; [exact (Hl Hc)|]. split; [exact Hlp|].
    split; [exact (Hn comparar_sem_caixa_consistente) | reflexivity].
Defined.

End Inicio.


(* ===================================================================== *)
(** * Start-up with unreadable storage *)
(* ===================================================================== *)

Section InicioIlegivel.

Lemma obterTarefasFiltradas_nil g :
  tarefas g = [] -> GerenciadorTarefas.obterTarefasFiltradas g = [].
Proof.
  intros H. unfold GerenciadorTarefas.obterTarefasFiltradas. rewrite H.
  destruct (negb _); cbn [Array.filter List.filter];
    repeat (destruct (String.eqb (filtroAtivo g) _)); reflexivity.
Qed.

(** X5: start-up survives storage it cannot read.  When the read of
    "tarefas" is refused, or its text is not JSON, [carregarTarefas] returns
    normally with an empty task store and an empty task list on the page;
    the console gets the error line of [carregar] and the line "0 tarefas
    carregadas", no alert is shown, and [localStorage] is left as it was:
    the unreadable text is still there. *)
Theorem carregarTarefas_ilegivel (e : Estado) :
  (exists erro, falha_leitura (localStorage e) "tarefas" = Some erro)
  \/ (falha_leitura (localStorage e) "tarefas" = None
      /\ exists texto, itens (localStorage e) !! "tarefas" = Some texto
                       /\ JSON.parse texto = Lanca SyntaxError) ->
  let e' := estado_apos GerenciadorTarefas.carregarTarefas e in
  resultado_de GerenciadorTarefas.carregarTarefas e = Retorna tt
  /\ tarefas (gerenciadorTarefas e') = []
  /\ lista_tarefas (documento e') = []
  /\ localStorage e' = localStorage e
  /\ alertas e' = alertas e
  /\ console e'
     = console e ++ [(Error, "[ERROR] Erro ao carregar dados para chave tarefas:");
                     (Info, "[INFO] 0 tarefas carregadas")].
Proof.
  intros H e'.
  assert (GerenciadorArmazenamento.carregar "tarefas" (VArr []) e
          = (Retorna (VArr []), com_erro_ao_carregar "tarefas" e)) as Hc.
  { rewrite carregar_executa.
    destruct H as [[erro ->]|(-> & texto & -> & ->)]; reflexivity. }
  eassert (GerenciadorTarefas.carregarTarefas e = (Retorna tt, _)) as He.
  { unfold GerenciadorTarefas.carregarTarefas. unfold ligar at 1. rewrite Hc.
    change (tarefas_de_valor (VArr [])) with (Some (@nil Tarefa.t)). cbv iota.
    executar. reflexivity. }
  subst e'. unfold estado_apos, resultado_de. rewrite He. cbn [fst snd].
  unfold com_erro_ao_carregar. projetar_documento.
  unfold GerenciadorTarefas.ordem_de_exibicao.
  rewrite obterTarefasFiltradas_nil by reflexivity.
  repeat split. now rewrite <- app_assoc.
Qed.

Lemma carregarTarefas_ilegivel_witness :
  let e :=
    com_localStorage
      (fun a => {| itens := <["tarefas" := "[{"]> (itens a);
                   falha_leitura := falha_leitura a;
                   falha_escrita := falha_escrita a |})
      (Exemplo.estado [Exemplo.leite] []) in
  let e' := estado_apos GerenciadorTarefas.carregarTarefas e in
  tarefas (gerenciadorTarefas e') = []
  /\ itens (localStorage e') !! "tarefas" = Some "[{".
Proof.
  intros e e'.
  destruct (carregarTarefas_ilegivel e) as (_ & Ht & _ & Hl & _).
  - right. split; [reflexivity|]. exists "[{". split; reflexivity.
  - fold e' in Ht, Hl. rewrite Ht, Hl. split; reflexivity.
Defined.

End InicioIlegivel.


(* ===================================================================== *)
(** * The task methods write what they change *)
(* ===================================================================== *)

Section Persistencia.

Lemma guardado_ext chave v e1 e2 :
  localStorage e1 = localStorage e2 -> guardado chave v e1 -> guardado chave v e2.
Proof. unfold guardado. now intros ->. Qed.

Lemma persistido_ext e1 e2 :
  localStorage e1 = localStorage e2 ->
  gerenciadorTarefas e1 = gerenciadorTarefas e2 ->
  gerenciadorProjetos e1 = gerenciadorProjetos e2 ->
  persistido e1 -> persistido e2.
Proof. unfold persistido, guardado. now intros -> -> ->. Qed.

Lemma persistido_listas e1 e2 :
  localStorage e2 = localStorage e1 ->
  tarefas (gerenciadorTarefas e2) = tarefas (gerenciadorTarefas e1) ->
  projetos (gerenciadorProjetos e2) = projetos (gerenciadorProjetos e1) ->
  persistido e1 -> persistido e2.
Proof. unfold persistido, guardado. now intros -> -> ->. Qed.

Lemma guardado_apos_salvar chave v e :
  falha_escrita (localStorage e) (itens (localStorage e)) chave (JSON.stringify v)
  = None ->
  guardado chave v (apos_salvar chave v e).
Proof.
  intros H. left. rewrite (apos_salvar_itens _ _ _ H). apply lookup_insert_eq.
Qed.

Lemma guardado_apos_salvar_outra chave outra v w e :
  outra <> chave -> guardado outra w e -> guardado outra w (apos_salvar chave v e).
Proof.
  intros Hne Hg.
  assert (itens (localStorage (apos_salvar chave v e)) !! outra
          = itens (localStorage e) !! outra) as Hi.
  { unfold apos_salvar. destruct (falha_escrita _ _ _ _); projetar; [reflexivity|].
    cbn [itens]. now apply lookup_insert_ne. }
  unfold guardado. now rewrite Hi.
Qed.

Lemma escrita_livre_apos_salvar chave v e :
  escrita_livre e -> escrita_livre (apos_salvar chave v e).
Proof.
  unfold escrita_livre. intros H.
  assert (falha_escrita (localStorage (apos_salvar chave v e))
          = falha_escrita (localStorage e)) as Hf
      by (unfold apos_salvar; now destruct (falha_escrita _ _ _ _)).
  intros m k t. rewrite Hf. apply H.
Qed.

(** The store of tasks was changed and saved. *)
Lemma persistido_tarefas_salvas e e0 e' :
  escrita_livre e -> persistido e ->
  localStorage e0 = localStorage e ->
  localStorage e'
  = localStorage (apos_salvar "tarefas"
                    (tarefas_para_valor (tarefas (gerenciadorTarefas e'))) e0) ->
  projetos (gerenciadorProjetos e') = projetos (gerenciadorProjetos e) ->
  persistido e'.
Proof.
  intros Hw [_ Hp] H0 Hl Hps. split.
  - apply (guardado_ext _ _ _ _ (eq_sym Hl)). apply guardado_apos_salvar.
    rewrite H0. apply Hw.
  - rewrite Hps. apply (guardado_ext _ _ _ _ (eq_sym Hl)).
    apply guardado_apos_salvar_outra; [discriminate|].
    now apply (guardado_ext _ _ _ _ (eq_sym H0)).
Qed.

(** The store of projects was changed and saved. *)
Lemma persistido_projetos_salvos e0 e' :
  escrita_livre e0 ->
  guardado "tarefas" (tarefas_para_valor (tarefas (gerenciadorTarefas e'))) e0 ->
  localStorage e'
  = localStorage (apos_salvar "projetos"
                    (projetos_para_valor (projetos (gerenciadorProjetos e'))) e0) ->
  persistido e'.
Proof.
  intros Hw Ht Hl. split.
  - apply (guardado_ext _ _ _ _ (eq_sym Hl)).
    now apply guardado_apos_salvar_outra.
  - apply (guardado_ext _ _ _ _ (eq_sym Hl)). apply guardado_apos_salvar. apply Hw.
Qed.

Ltac tarefas_salvas e :=
  eapply (persistido_tarefas_salvas e); [eassumption|eassumption| | |];
  [|projetar; reflexivity|projetar; reflexivity]; projetar; reflexivity.

(** X6: the task methods keep storage in step with the store.  When the
    browser refuses no write and both stores are in [localStorage] as they
    are in memory, they still are after [salvarTarefa], after
    [alternarConclusao] and after [removerTarefa], whatever the form holds,
    whatever the id and whatever the user answers. *)
Theorem tarefas_persistidas (e : Estado) (id : string) :
  escrita_livre e -> persistido e ->
  persistido (estado_apos GerenciadorTarefas.salvarTarefa e)
  /\ persistido (estado_apos (GerenciadorTarefas.alternarConclusao id) e)
  /\ persistido (estado_apos (GerenciadorTarefas.removerTarefa id) e).
Proof.
  intros Hw Hp. split; [|split].
  - unfold GerenciadorTarefas.salvarTarefa. executar.
    destruct (negb _).
    + executar. revert Hp. now apply persistido_ext.
    + executar.
      destruct (tarefaEditando (gerenciadorTarefas e)) as [ed|].
      * destruct (Array.findIndex _ _) as [i|]; executar; tarefas_salvas e.
      * executar. tarefas_salvas e.
  - unfold GerenciadorTarefas.alternarConclusao. executar.
    destruct (Array.findIndex _ _) as [i|]; [|exact Hp].
    executar. projetar.
    destruct (alter _ i _ !! i); executar; tarefas_salvas e.
  - unfold GerenciadorTarefas.removerTarefa. executar.
    destruct (resposta (ambiente e)).
    + executar. projetar.
      destruct (Array.findIndex _ _) as [i|]; executar.
      * tarefas_salvas e.
      * revert Hp. now apply persistido_ext.
    + executar. revert Hp. now apply persistido_ext.
Qed.

Lemma tarefas_persistidas_witness :
  let e := estado_apos (Pagina.preencher_tarefa "Buy milk" "" "" "alta" "")
             (Pagina.navegador_novo Exemplo.amb) in
  persistido (estado_apos GerenciadorTarefas.salvarTarefa e).
Proof.
  intros e. refine (proj1 (tarefas_persistidas e "" _ _)).
  - intros m k t. reflexivity.
  - split; right; split; reflexivity.
Defined.

End Persistencia.


(* ===================================================================== *)
(** * The project methods write what they change *)
(* ===================================================================== *)

Section PersistenciaProjetos.

(** X7: the project methods keep storage in step with the stores.  When
    the browser refuses no write and both stores are in [localStorage] as
    they are in memory, they still are after [adicionarProjeto] and after
    [removerProjeto], which writes the tasks it unlinked as well as the
    projects. *)
Theorem projetos_persistidos (e : Estado) (id : string) :
  escrita_livre e -> persistido e ->
  persistido (estado_apos GerenciadorProjetos.adicionarProjeto e)
  /\ persistido (estado_apos (GerenciadorProjetos.removerProjeto id) e).
Proof.
  intros Hw Hp. split.
  - unfold GerenciadorProjetos.adicionarProjeto. executar.
    destruct (negb _).
    { executar. revert Hp. now apply persistido_ext. }
    executar. destruct (Array.find _ _) as [x|].
    { executar. revert Hp. now apply persistido_ext. }
    destruct Hp as [Ht Hp].
    destruct (projetoEditando (gerenciadorProjetos e)) as [ed|].
    + destruct (Array.findIndex _ _) as [i|]; executar;
        (eapply persistido_projetos_salvos; [| |projetar; reflexivity];
         [unfold escrita_livre; projetar; apply Hw
         |projetar; apply (guardado_ext _ _ e); [reflexivity|exact Ht]]).
    + executar.
      eapply persistido_projetos_salvos; [| |projetar; reflexivity];
        [unfold escrita_livre; projetar; apply Hw
        |projetar; apply (guardado_ext _ _ e); [reflexivity|exact Ht]].
  - unfold GerenciadorProjetos.removerProjeto. executar.
    destruct (Array.find _ _) as [p|] eqn:Hf; [|exact Hp].
    executar.
    assert (Array.findIndex (fun p => String.eqb (Projeto.id p) id)
                            (projetos (gerenciadorProjetos e)) <> None) as Hi.
    { intros Hi. apply find_findIndex in Hi. unfold Array.find in *. congruence. }
    destruct (Array.findIndex _ _) as [i|]; [clear Hi|congruence].
    set (e1 := fun e0 =>
                 apos_salvar "projetos"
                   (projetos_para_valor
                      (Array.splice1 i (projetos (gerenciadorProjetos e))))
                   (com_gerenciadorProjetos (com_projetos (Array.splice1 i))
                      (apos_salvar "tarefas"
                         (tarefas_para_valor
                            (GerenciadorProjetos.desassociar id
                               (tarefas (gerenciadorTarefas e))))
                         (com_gerenciadorTarefas
                            (com_tarefas (GerenciadorProjetos.desassociar id)) e0)))).
    assert (forall e0,
              localStorage e0 = localStorage e ->
              gerenciadorTarefas e0 = gerenciadorTarefas e ->
              gerenciadorProjetos e0 = gerenciadorProjetos e ->
              persistido (e1 e0)) as Hfim.
    { intros e0 Hl0 Ht0 Hp0. subst e1. cbv beta.
      eapply persistido_projetos_salvos;
        [| |projetar; rewrite Hp0; reflexivity].
      - unfold escrita_livre. projetar. apply escrita_livre_apos_salvar.
        unfold escrita_livre. projetar. rewrite Hl0. apply Hw.
      - projetar. rewrite Ht0.
        apply (guardado_ext _ _
                 (apos_salvar "tarefas"
                    (tarefas_para_valor
                       (GerenciadorProjetos.desassociar id
                          (tarefas (gerenciadorTarefas e))))
                    (com_gerenciadorTarefas
                       (com_tarefas (GerenciadorProjetos.desassociar id)) e0)));
          [reflexivity|apply guardado_apos_salvar; projetar; rewrite Hl0; apply Hw]. }
    destruct (0 <? length _)%nat.
    + executar. destruct (resposta (ambiente e)).
      * executar. projetar.
        destruct (String.eqb _ id); executar;
          (eapply persistido_listas; [| | |eapply Hfim]);
          [subst e1; cbv beta; projetar; reflexivity ..
          |reflexivity|reflexivity|reflexivity].
      * executar. revert Hp. now apply persistido_ext.
    + executar. projetar.
      destruct (String.eqb _ id); executar;
        (eapply persistido_listas; [| | |eapply Hfim]);
        [subst e1; cbv beta; projetar; reflexivity ..
        |reflexivity|reflexivity|reflexivity].
Qed.

Lemma projetos_persistidos_witness :
  let e := estado_apos (Pagina.preencher_projeto "Home")
             (Pagina.navegador_novo Exemplo.amb) in
  persistido (estado_apos GerenciadorProjetos.adicionarProjeto e).
Proof.
  intros e. refine (proj1 (projetos_persistidos e "" _ _)).
  - intros m k t. reflexivity.
  - split; right; split; reflexivity.
Defined.

End PersistenciaProjetos.


(* ===================================================================== *)
(** * salvarTarefa: a new task *)
(* ===================================================================== *)

Section CriarTarefa.

(** X8: submitting the task form with a title, when no task is under
    edit, appends one task to the store and changes no other: its id is the
    generated id, its title and description are the trimmed inputs, its
    [projetoId] is [null] when the select is on "Sem projeto", it is pending
    and its [dataCriacao] is the time of the call.  The form is hidden, the
    page lists every task of the selection once, in display order when
    their priorities are among "alta", "media" and "baixa", the selection
    and the projects are unchanged and no alert is shown. *)
Theorem salvarTarefa_cria (e : Estado) :
  JSString.verdadeiro (JSString.trim (titulo_tarefa (documento e))) = true ->
  tarefaEditando (gerenciadorTarefas e) = None ->
  let e' := estado_apos GerenciadorTarefas.salvarTarefa e in
  let novaTarefa :=
    {| Tarefa.id := "tarefa_" +:+ JSString.de_numero (Date_now (ambiente e)) +:+ "_"
                    +:+ JSString.substr 2 9 (Math_random_36 (ambiente e));
       Tarefa.titulo := JSString.trim (titulo_tarefa (documento e));
       Tarefa.descricao := JSString.trim (descricao_tarefa (documento e));
       Tarefa.dataVencimento := data_vencimento (documento e);
       Tarefa.prioridade := prioridade_tarefa (documento e);
       Tarefa.projetoId :=
         match projeto_tarefa (documento e) with
         | EmptyString => None
         | p => Some p
         end;
       Tarefa.concluida := false;
       Tarefa.dataCriacao := Date_toISOString (ambiente e) |} in
  resultado_de GerenciadorTarefas.salvarTarefa e = Retorna tt
  /\ tarefas (gerenciadorTarefas e') = tarefas (gerenciadorTarefas e) ++ [novaTarefa]
  /\ tarefaEditando (gerenciadorTarefas e') = None
  /\ projetoAtivo (gerenciadorTarefas e') = projetoAtivo (gerenciadorTarefas e)
  /\ filtroAtivo (gerenciadorTarefas e') = filtroAtivo (gerenciadorTarefas e)
  /\ gerenciadorProjetos e' = gerenciadorProjetos e
  /\ form_tarefa (documento e') = false
  /\ Permutation (lista_tarefas (documento e'))
                 (GerenciadorTarefas.obterTarefasFiltradas (gerenciadorTarefas e'))
  /\ (Forall prioridade_conhecida
             (GerenciadorTarefas.obterTarefasFiltradas (gerenciadorTarefas e')) ->
      lista_tarefas (documento e')
      = GerenciadorTarefas.ordem_de_exibicao (gerenciadorTarefas e'))
  /\ alertas e' = alertas e.
Proof.
  intros Ht Hed e' novaTarefa.
  eassert (GerenciadorTarefas.salvarTarefa e = (Retorna tt, _)) as He.
  { unfold GerenciadorTarefas.salvarTarefa. executar.
    rewrite Ht. cbn [negb]. cbv iota. rewrite Hed. executar. reflexivity. }
  subst e'. unfold estado_apos, resultado_de. rewrite He. cbn [fst snd].
  projetar_documento.
  repeat split;
    try (etransitivity; [apply ordem_de_exibicao_Permutation|reflexivity]).
  unfold Array.push, Tarefa.nova. cbn [Tarefa.Dados.titulo Tarefa.Dados.descricao
    Tarefa.Dados.dataVencimento Tarefa.Dados.prioridade Tarefa.Dados.projetoId
    Tarefa.Dados.concluida Tarefa.Dados.dataCriacao].
  subst novaTarefa. now destruct (projeto_tarefa (documento e)).
Qed.

Lemma salvarTarefa_cria_witness :
  let e := estado_apos (Pagina.preencher_tarefa "  Buy milk " " 2 l " "" "alta" "")
             (Exemplo.estado [Exemplo.relatorio] [Exemplo.casa]) in
  tarefas (gerenciadorTarefas (estado_apos GerenciadorTarefas.salvarTarefa e))
  = [Exemplo.relatorio;
     {| Tarefa.id := "tarefa_1762077600000_4fzyo82mv"; Tarefa.titulo := "Buy milk";
        Tarefa.descricao := "2 l"; Tarefa.dataVencimento := "";
        Tarefa.prioridade := "alta"; Tarefa.projetoId := None;
        Tarefa.concluida := false;
        Tarefa.dataCriacao := "2025-11-02T10:00:00.000Z" |}]
  /\ lista_tarefas (documento (estado_apos GerenciadorTarefas.salvarTarefa e))
     = [{| Tarefa.id := "tarefa_1762077600000_4fzyo82mv"; Tarefa.titulo := "Buy milk";
           Tarefa.descricao := "2 l"; Tarefa.dataVencimento := "";
           Tarefa.prioridade := "alta"; Tarefa.projetoId := None;
           Tarefa.concluida := false;
           Tarefa.dataCriacao := "2025-11-02T10:00:00.000Z" |};
        Exemplo.relatorio].
Proof.
  intros e.
  destruct (salvarTarefa_cria e eq_refl eq_refl) as (_ & Ht & _ & _ & _ & _ & _ & _ & Hl & _).
  split; [exact Ht|]. refine (Hl _).
  eapply Forall_forall. intros t Hin. vm_compute in Hin.
  unfold prioridade_conhecida, niveis_de_prioridade.
  repeat (apply elem_of_cons in Hin as [->|Hin]; [cbn; set_solver|]).
  now apply elem_of_nil in Hin.
Defined.

(** X9: an edit of a task that is no longer in the store is dropped
    without notice.  When the form is open on a task whose id no task of the
    store has (it was removed meanwhile), a valid submission leaves the task
    list as it was, creates no task, hides the form, ends the edit and shows
    no alert. *)
Theorem salvarTarefa_edicao_perdida (e : Estado) (editando : Tarefa.t) :
  JSString.verdadeiro (JSString.trim (titulo_tarefa (documento e))) = true ->
  tarefaEditando (gerenciadorTarefas e) = Some editando ->
  (forall t, t ∈ tarefas (gerenciadorTarefas e) -> Tarefa.id t <> Tarefa.id editando) ->
  let e' := estado_apos GerenciadorTarefas.salvarTarefa e in
  resultado_de GerenciadorTarefas.salvarTarefa e = Retorna tt
  /\ tarefas (gerenciadorTarefas e') = tarefas (gerenciadorTarefas e)
  /\ tarefaEditando (gerenciadorTarefas e') = None
  /\ form_tarefa (documento e') = false
  /\ alertas e' = alertas e.
Proof.
  intros Ht Hed Hfora e'.
  assert (Array.findIndex (fun t => String.eqb (Tarefa.id t) (Tarefa.id editando))
                          (tarefas (gerenciadorTarefas e)) = None) as Hi.
  { apply findIndex_None. intros x Hx. apply String.eqb_neq. auto. }
  eassert (GerenciadorTarefas.salvarTarefa e = (Retorna tt, _)) as He.
  { unfold GerenciadorTarefas.salvarTarefa. executar.
    rewrite Ht. cbn [negb]. cbv iota. rewrite Hed, Hi. executar. reflexivity. }
  subst e'. unfold estado_apos, resultado_de. rewrite He. cbn [fst snd].
  projetar_documento. repeat split.
Qed.

Lemma salvarTarefa_edicao_perdida_witness :
  let e := Exemplo.editando Exemplo.relatorio "Report v2"
             (Exemplo.estado [Exemplo.leite] [Exemplo.casa]) in
  tarefas (gerenciadorTarefas (estado_apos GerenciadorTarefas.salvarTarefa e))
  = [Exemplo.leite].
Proof.
  intros e.
  refine (proj1 (proj2 (salvarTarefa_edicao_perdida e Exemplo.relatorio
                          eq_refl eq_refl _))).
  intros t Ht. apply elem_of_cons in Ht as [->|Ht]; [discriminate|].
  now apply elem_of_nil in Ht.
Defined.

(** X10: a refused write is not reported to the user, and the task is lost.
    When the browser refuses every write, a valid submission of a new task
    still returns normally and adds the task to the store in memory;
    [localStorage] is unchanged, no alert is shown and the only trace is the
    error line on the console.  When both stores were in [localStorage] as
    they were in memory and the two keys can be read, the next start-up
    brings back the task list of before the submission, without the new
    task. *)
Theorem salvarTarefa_escrita_recusada (e : Estado) (erro : Erro) :
  JSString.verdadeiro (JSString.trim (titulo_tarefa (documento e))) = true ->
  tarefaEditando (gerenciadorTarefas e) = None ->
  (forall m chave texto, falha_escrita (localStorage e) m chave texto = Some erro) ->
  let e' := estado_apos GerenciadorTarefas.salvarTarefa e in
  resultado_de GerenciadorTarefas.salvarTarefa e = Retorna tt
  /\ length (tarefas (gerenciadorTarefas e')) = S (length (tarefas (gerenciadorTarefas e)))
  /\ localStorage e' = localStorage e
  /\ alertas e' = alertas e
  /\ (Error, "[ERROR] Erro ao salvar dados para chave tarefas:") ∈ console e'
  /\ (persistido e ->
      falha_leitura (localStorage e) "projetos" = None ->
      falha_leitura (localStorage e) "tarefas" = None ->
      tarefas (gerenciadorTarefas (estado_apos Pagina.DOMContentLoaded e'))
      = tarefas (gerenciadorTarefas e)).
Proof.
  intros Ht Hed Hw e'.
  eassert (GerenciadorTarefas.salvarTarefa e = (Retorna tt, _)) as He.
  { unfold GerenciadorTarefas.salvarTarefa. executar.
    rewrite Ht. cbn [negb]. cbv iota. rewrite Hed. executar. reflexivity. }
  assert (localStorage e' = localStorage e) as Hl.
  { subst e'. unfold estado_apos. rewrite He. cbn [snd].
    projetar_documento. unfold apos_salvar. projetar. rewrite Hw. reflexivity. }
  split; [|split; [|split; [exact Hl|split; [|split]]]].
  - unfold resultado_de. now rewrite He.
  - subst e'. unfold estado_apos. rewrite He. cbn [snd]. projetar_documento.
    unfold Array.push. rewrite length_app. cbn [length]. lia.
  - subst e'. unfold estado_apos. rewrite He. cbn [snd]. projetar_documento.
    reflexivity.
  - subst e'. unfold estado_apos. rewrite He. cbn [snd]. projetar_documento.
    unfold apos_salvar. projetar. rewrite Hw. projetar.
    apply elem_of_app. left. apply elem_of_app. right. apply list_elem_of_here.
  - intros [Hgt Hgp] Hrp Hrt.
    destruct (DOMContentLoaded_executa e'
                (tarefas (gerenciadorTarefas e)) (projetos (gerenciadorProjetos e)))
      as (e4 & Hd & Ht4 & _).
    + now rewrite Hl.
    + now rewrite Hl.
    + now apply (guardado_ext _ _ e).
    + now apply (guardado_ext _ _ e).
    + unfold estado_apos. rewrite Hd. cbn [snd]. projetar. now rewrite Ht4.
Qed.

Lemma salvarTarefa_escrita_recusada_witness :
  let e :=
    com_localStorage
      (fun a => {| itens := itens a;
                   falha_leitura := falha_leitura a;
                   falha_escrita := fun _ _ _ => Some QuotaExceededError |})
      (estado_apos (Pagina.preencher_tarefa "Buy milk" "" "" "alta" "")
         (Pagina.navegador_novo Exemplo.amb)) in
  let e' := estado_apos GerenciadorTarefas.salvarTarefa e in
  length (tarefas (gerenciadorTarefas e')) = 1%nat
  /\ itens (localStorage e') !! "tarefas" = None
  /\ tarefas (gerenciadorTarefas (estado_apos Pagina.DOMContentLoaded e')) = [].
Proof.
  intros e e'.
  destruct (salvarTarefa_escrita_recusada e QuotaExceededError)
    as (_ & Hn & Hl & _ & _ & Hr); [reflexivity|reflexivity|reflexivity|].
  fold e' in Hn, Hl, Hr. rewrite Hn, Hl. split; [reflexivity|]. split; [reflexivity|].
  apply Hr; [|reflexivity|reflexivity].
  split; right; split; reflexivity.
Defined.

End CriarTarefa.


(* ===================================================================== *)
(** * removerTarefa *)
(* ===================================================================== *)

Section RemoverTarefa.

Lemma filter_todos {A} (p : A -> bool) l :
  (forall x, x ∈ l -> p x = true) -> List.filter p l = l.
Proof.
  induction l as [|a l IH]; intros H; cbn; [reflexivity|].
  rewrite (H a (list_elem_of_here _ _)). f_equal. apply IH.
  intros x Hx. apply H. now right.
Qed.

Lemma splice1_filter_id l id i :
  ids_tarefas_distintos l ->
  Array.findIndex (fun t => String.eqb (Tarefa.id t) id) l = Some i ->
  Array.splice1 i l = List.filter (fun t => negb (String.eqb (Tarefa.id t) id)) l.
Proof.
  unfold ids_tarefas_distintos. revert i.
  induction l as [|a l IH]; intros i Hnd;
    cbn [Array.findIndex List.filter]; [discriminate|].
  cbn [map] in Hnd. apply NoDup_cons in Hnd as [Ha Hnd].
  destruct (String.eqb_spec (Tarefa.id a) id) as [Heq|Hne]; cbn [negb].
  - intros [= <-]. cbn [Array.splice1]. symmetry. apply filter_todos. intros x Hx.
    apply negb_true_iff, String.eqb_neq. intros Hid. apply Ha.
    rewrite map_fmap. apply list_elem_of_fmap. exists x. split; [congruence|assumption].
  - destruct (Array.findIndex _ l) as [k|]; cbn [option_map]; [|discriminate].
    intros [= <-]. cbn [Array.splice1]. f_equal. now apply IH.
Qed.

Lemma removerTarefa_recusada e id :
  resposta (ambiente e) = false ->
  GerenciadorTarefas.removerTarefa id e
  = (Retorna tt, com_confirmacoes (fun c => c ++ [pergunta_remover_tarefa]) e).
Proof.
  intros Hr. unfold GerenciadorTarefas.removerTarefa. executar. now rewrite Hr.
Qed.

Lemma removerTarefa_tarefas e id :
  tarefas (gerenciadorTarefas (estado_apos (GerenciadorTarefas.removerTarefa id) e))
  = if resposta (ambiente e) then
      match Array.findIndex (fun t => String.eqb (Tarefa.id t) id)
                            (tarefas (gerenciadorTarefas e)) with
      | Some i => Array.splice1 i (tarefas (gerenciadorTarefas e))
      | None => tarefas (gerenciadorTarefas e)
      end
    else tarefas (gerenciadorTarefas e).
Proof.
  unfold GerenciadorTarefas.removerTarefa. executar.
  destruct (resposta (ambiente e)); [|reflexivity].
  executar. projetar.
  destruct (Array.findIndex _ _); executar; projetar; reflexivity.
Qed.

(** X11: [removerTarefa] always asks once, whatever the id, and changes no
    project.  When the user declines, nothing else changes.  When the user
    agrees and the task ids are pairwise distinct, the store keeps exactly
    the tasks with another id, in their order, so no task with the id is
    left.  When no task has the id, nothing changes beyond the dialog. *)
Theorem removerTarefa_remove (e : Estado) (id : string) :
  let e' := estado_apos (GerenciadorTarefas.removerTarefa id) e in
  confirmacoes e' = confirmacoes e ++ [pergunta_remover_tarefa]
  /\ gerenciadorProjetos e' = gerenciadorProjetos e
  /\ (resposta (ambiente e) = false ->
      GerenciadorTarefas.removerTarefa id e
      = (Retorna tt, com_confirmacoes (fun c => c ++ [pergunta_remover_tarefa]) e))
  /\ (resposta (ambiente e) = true ->
      ids_tarefas_distintos (tarefas (gerenciadorTarefas e)) ->
      tarefas (gerenciadorTarefas e')
      = List.filter (fun t => negb (String.eqb (Tarefa.id t) id))
                    (tarefas (gerenciadorTarefas e))
      /\ forall t, t ∈ tarefas (gerenciadorTarefas e') -> Tarefa.id t <> id)
  /\ (resposta (ambiente e) = true ->
      (forall t, t ∈ tarefas (gerenciadorTarefas e) -> Tarefa.id t <> id) ->
      GerenciadorTarefas.removerTarefa id e
      = (Retorna tt, com_confirmacoes (fun c => c ++ [pergunta_remover_tarefa]) e)).
Proof.
  intros e'. split; [|split; [|split; [|split]]].
  - subst e'. unfold GerenciadorTarefas.removerTarefa. executar.
    destruct (resposta (ambiente e)); [|reflexivity].
    executar. projetar.
    destruct (Array.findIndex _ _); executar; projetar; reflexivity.
  - subst e'. unfold GerenciadorTarefas.removerTarefa. executar.
    destruct (resposta (ambiente e)); [|reflexivity].
    executar. projetar.
    destruct (Array.findIndex _ _); executar; projetar; reflexivity.
  - apply removerTarefa_recusada.
  - intros Hr Hnd.
    assert (tarefas (gerenciadorTarefas e')
            = List.filter (fun t => negb (String.eqb (Tarefa.id t) id))
                          (tarefas (gerenciadorTarefas e))) as Heq.
    { subst e'. rewrite removerTarefa_tarefas, Hr.
      destruct (Array.findIndex _ _) as [i|] eqn:Hi.
      - now apply splice1_filter_id.
      - symmetry. apply filter_todos. intros x Hx.
        now rewrite (proj1 (findIndex_None _ _) Hi x Hx). }
    split; [exact Heq|]. rewrite Heq. intros t Ht.
    apply list_elem_of_In, List.filter_In in Ht as [_ Ht].
    now apply negb_true_iff, String.eqb_neq in Ht.
  - intros Hr Hfora. unfold GerenciadorTarefas.removerTarefa. executar.
    rewrite Hr. executar. projetar.
    assert (Array.findIndex (fun t => String.eqb (Tarefa.id t) id)
                            (tarefas (gerenciadorTarefas e)) = None) as ->.
    { apply findIndex_None. intros x Hx. apply String.eqb_neq. auto. }
    reflexivity.
Qed.

Lemma removerTarefa_remove_witness :
  let e := Exemplo.estado [Exemplo.leite; Exemplo.relatorio] [Exemplo.casa] in
  tarefas (gerenciadorTarefas
             (estado_apos (GerenciadorTarefas.removerTarefa "tarefa_1") e))
  = [Exemplo.relatorio].
Proof.
  intros e.
  destruct (removerTarefa_remove e "tarefa_1") as (_ & _ & _ & H & _).
  refine (proj1 (H eq_refl _)).
  unfold ids_tarefas_distintos. apply (bool_decide_unpack _). vm_compute. exact I.
Defined.

End RemoverTarefa.


(* ===================================================================== *)
(** * removerProjeto: the cases *)
(* ===================================================================== *)

Section RemoverProjetoCasos.

Lemma removerProjeto_ausente e id :
  Array.findIndex (fun p => String.eqb (Projeto.id p) id)
                  (projetos (gerenciadorProjetos e)) = None ->
  GerenciadorProjetos.removerProjeto id e = (Retorna tt, e).
Proof.
  intros Hi. unfold GerenciadorProjetos.removerProjeto. executar.
  apply find_findIndex in Hi. now rewrite Hi.
Qed.

Lemma removerProjeto_recusado e id i :
  Array.findIndex (fun p => String.eqb (Projeto.id p) id)
                  (projetos (gerenciadorProjetos e)) = Some i ->
  tarefas_do_projeto id e <> [] ->
  resposta (ambiente e) = false ->
  GerenciadorProjetos.removerProjeto id e
  = (Retorna tt,
     com_confirmacoes
       (fun c => c ++ [pergunta_remover (length (tarefas_do_projeto id e))]) e).
Proof.
  intros Hi Ht Hr. unfold GerenciadorProjetos.removerProjeto, tarefas_do_projeto in *.
  executar.
  destruct (Array.find _ _) as [p|] eqn:Hf;
    [|apply find_findIndex in Hf; congruence].
  executar.
  destruct (Array.filter _ _) as [|t l]; [congruence|].
  cbn [length Nat.ltb Nat.leb]. executar. rewrite Hr. reflexivity.
Qed.

(** What a removal that goes through leaves on the page and in the
    selection. *)
Lemma removerProjeto_confirmado_visao e id i :
  Array.findIndex (fun p => String.eqb (Projeto.id p) id)
                  (projetos (gerenciadorProjetos e)) = Some i ->
  (tarefas_do_projeto id e = [] \/ resposta (ambiente e) = true) ->
  let e' := estado_apos (GerenciadorProjetos.removerProjeto id) e in
  projetoAtivo (gerenciadorTarefas e')
  = (if String.eqb (projetoAtivo (gerenciadorTarefas e)) id
     then "todos" else projetoAtivo (gerenciadorTarefas e))
  /\ titulo_secao (documento e')
     = (if String.eqb (projetoAtivo (gerenciadorTarefas e)) id
        then "Todas as Tarefas" else titulo_secao (documento e))
  /\ opcoes_projeto_tarefa (documento e')
     = opcoes_de (projetos (gerenciadorProjetos e'))
  /\ lista_projetos (documento e') = GerenciadorProjetos.ordem_de_exibicao e'
  /\ lista_tarefas (documento e')
     = GerenciadorTarefas.ordem_de_exibicao (gerenciadorTarefas e')
  /\ alertas e' = alertas e
  /\ ambiente e' = ambiente e.
Proof.
  intros Hi Hok. unfold GerenciadorProjetos.removerProjeto, tarefas_do_projeto in *.
  set (pergunta := JSString.literal _).
  executar.
  destruct (Array.find _ _) as [projeto|] eqn:Hf;
    [|apply find_findIndex in Hf; congruence].
  executar. rewrite Hi.
  destruct (Array.filter _ _) as [|t l] eqn:Hl.
  - cbn [length Nat.ltb Nat.leb]. executar. projetar.
    destruct (String.eqb _ id); executar;
      unfold GerenciadorProjetos.ordem_de_exibicao; projetar_documento; repeat split.
  - destruct Hok as [Hok|Hok]; [discriminate|].
    cbn [length Nat.ltb Nat.leb]. executar. rewrite Hok. executar. projetar.
    destruct (String.eqb _ id); executar;
      unfold GerenciadorProjetos.ordem_de_exibicao; projetar_documento; repeat split.
Qed.

Lemma removerProjeto_casos e id :
  let e' := estado_apos (GerenciadorProjetos.removerProjeto id) e in
  (gerenciadorTarefas e' = gerenciadorTarefas e
   /\ gerenciadorProjetos e' = gerenciadorProjetos e)
  \/ (exists i,
        Array.findIndex (fun p => String.eqb (Projeto.id p) id)
                        (projetos (gerenciadorProjetos e)) = Some i
        /\ (tarefas_do_projeto id e = [] \/ resposta (ambiente e) = true)).
Proof.
  intros e'. subst e'.
  destruct (Array.findIndex (fun p => String.eqb (Projeto.id p) id)
                            (projetos (gerenciadorProjetos e))) as [i|] eqn:Hi.
  - destruct (tarefas_do_projeto id e) as [|t l] eqn:Ht; [right; eauto|].
    destruct (resposta (ambiente e)) eqn:Hr; [right; eauto|].
    left. unfold estado_apos. rewrite (removerProjeto_recusado e id i Hi); auto.
    now rewrite Ht.
  - left. unfold estado_apos. now rewrite removerProjeto_ausente.
Qed.

End RemoverProjetoCasos.


(* ===================================================================== *)
(** * removerProjeto: the selection and the page *)
(* ===================================================================== *)

Section RemoverProjetoVisao.

(** X12: [removerProjeto] without effect.  For an id that no project has,
    the method does nothing at all: no dialog, the state unchanged.  For a
    project with tasks, when the user declines, the state is unchanged but
    for the question asked: the project stays and its tasks keep their
    [projetoId]. *)
Theorem removerProjeto_sem_efeito (e : Estado) (id : string) :
  ((forall p, p ∈ projetos (gerenciadorProjetos e) -> Projeto.id p <> id) ->
   GerenciadorProjetos.removerProjeto id e = (Retorna tt, e))
  /\ (forall p,
        p ∈ projetos (gerenciadorProjetos e) -> Projeto.id p = id ->
        tarefas_do_projeto id e <> [] ->
        resposta (ambiente e) = false ->
        GerenciadorProjetos.removerProjeto id e
        = (Retorna tt,
           com_confirmacoes
             (fun c => c ++ [pergunta_remover (length (tarefas_do_projeto id e))]) e)).
Proof.
  split.
  - intros Hfora. apply removerProjeto_ausente.
    apply findIndex_None. intros x Hx. apply String.eqb_neq. auto.
  - intros p Hp Hid Ht Hr.
    destruct (Array.findIndex (fun p => String.eqb (Projeto.id p) id)
                              (projetos (gerenciadorProjetos e))) as [i|] eqn:Hi.
    + now apply (removerProjeto_recusado e id i).
    + apply (proj1 (findIndex_None _ _)) with (x := p) in Hi; [|assumption].
      apply String.eqb_neq in Hi. contradiction.
Qed.

Lemma removerProjeto_sem_efeito_witness :
  let e := Exemplo.estado [Exemplo.leite] [Exemplo.casa] in
  GerenciadorProjetos.removerProjeto "projeto_9" e = (Retorna tt, e).
Proof.
  intros e. apply (proj1 (removerProjeto_sem_efeito e "projeto_9")).
  intros p Hp. apply elem_of_cons in Hp as [->|Hp]; [discriminate|].
  now apply elem_of_nil in Hp.
Defined.

Lemma splice1_outro {A} (l : list A) i j x :
  l !! j = Some x -> j <> i -> x ∈ Array.splice1 i l.
Proof.
  intros Hx Hne. destruct (decide (j < i)%nat) as [Hlt|Hge].
  - apply (list_elem_of_lookup_2 _ j). now rewrite lookup_splice1_lt.
  - destruct j as [|j]; [lia|].
    apply (list_elem_of_lookup_2 _ j). rewrite lookup_splice1_ge; [assumption|lia].
Qed.

(** X13: a removal that goes through never leaves the removed project
    selected.  When the removed project was the active one, the selection
    goes back to "todos" and the section title to "Todas as Tarefas";
    otherwise both are kept.  A selection that was "todos" or a project of
    the store is so afterwards.  The options of the project select are
    those of the new store; the page lists every project of the new store
    once, by name when the collation is consistent, and every task of the
    new selection once, in display order when their priorities are among
    "alta", "media" and "baixa". *)
Theorem removerProjeto_projeto_ativo (e : Estado) (id : string) (p : Projeto.t) :
  p ∈ projetos (gerenciadorProjetos e) -> Projeto.id p = id ->
  tarefas_do_projeto id e = [] \/ resposta (ambiente e) = true ->
  let e' := estado_apos (GerenciadorProjetos.removerProjeto id) e in
  (projetoAtivo (gerenciadorTarefas e) = id ->
   projetoAtivo (gerenciadorTarefas e') = "todos"
   /\ titulo_secao (documento e') = "Todas as Tarefas")
  /\ (projetoAtivo (gerenciadorTarefas e) <> id ->
      projetoAtivo (gerenciadorTarefas e') = projetoAtivo (gerenciadorTarefas e)
      /\ titulo_secao (documento e') = titulo_secao (documento e))
  /\ (projeto_ativo_valido e -> projeto_ativo_valido e')
  /\ opcoes_projeto_tarefa (documento e') = opcoes_de (projetos (gerenciadorProjetos e'))
  /\ Permutation (lista_projetos (documento e')) (projetos (gerenciadorProjetos e'))
  /\ (colacao_consistente (ambiente e) ->
      por_nome (ambiente e) (lista_projetos (documento e')))
  /\ Permutation (lista_tarefas (documento e'))
                 (GerenciadorTarefas.obterTarefasFiltradas (gerenciadorTarefas e'))
  /\ (Forall prioridade_conhecida
             (GerenciadorTarefas.obterTarefasFiltradas (gerenciadorTarefas e')) ->
      lista_tarefas (documento e')
      = GerenciadorTarefas.ordem_de_exibicao (gerenciadorTarefas e')).
Proof.
  intros Hp Hid Hok e'.
  destruct (Array.findIndex (fun p => String.eqb (Projeto.id p) id)
                            (projetos (gerenciadorProjetos e))) as [i|] eqn:Hi.
  2:{ apply (proj1 (findIndex_None _ _)) with (x := p) in Hi; [|assumption].
      apply String.eqb_neq in Hi. contradiction. }
  destruct (removerProjeto_confirmado_visao e id i Hi Hok)
    as (Ha & Hts & Ho & Hlp & Hlt & _ & Hamb).
  destruct (removerProjeto_confirmado e id i Hi Hok) as (_ & Hps & _).
  fold e' in Ha, Hts, Ho, Hlp, Hlt, Hps, Hamb.
  split; [|split; [|split; [|split; [exact Ho|split; [|split; [|split; [|auto]]]]]]].
  4:{ rewrite Hlp. apply ordem_de_exibicao_projetos_Permutation. }
  4:{ rewrite Hlp. unfold GerenciadorProjetos.ordem_de_exibicao. rewrite Hamb.
      apply sort_por_nome. }
  4:{ rewrite Hlt. apply ordem_de_exibicao_Permutation. }
  - intros Heq. rewrite Ha, Hts. apply String.eqb_eq in Heq. now rewrite Heq.
  - intros Hne. rewrite Ha, Hts. apply String.eqb_neq in Hne. rewrite Hne. split; reflexivity.
  - intros [Htodos|(q & Hq & Hidq)]; unfold projeto_ativo_valido; rewrite Ha.
    + rewrite Htodos. destruct (String.eqb "todos" id); now left.
    + destruct (String.eqb_spec (projetoAtivo (gerenciadorTarefas e)) id) as [Heq|Hne];
        [now left|right].
      exists q. split; [|assumption]. rewrite Hps.
      apply list_elem_of_lookup_1 in Hq as (j & Hq).
      apply (splice1_outro _ i j q Hq). intros ->.
      apply findIndex_Some in Hi as (x & Hx & Hpx & _).
      apply String.eqb_eq in Hpx. congruence.
Qed.

Lemma removerProjeto_projeto_ativo_witness :
  let e := estado_apos (GerenciadorTarefas.definirProjetoAtivo "projeto_2")
             (Exemplo.estado [Exemplo.leite] [Exemplo.trabalho; Exemplo.casa]) in
  let e' := estado_apos (GerenciadorProjetos.removerProjeto "projeto_2") e in
  projetoAtivo (gerenciadorTarefas e') = "todos"
  /\ Permutation (lista_projetos (documento e')) [Exemplo.casa]
  /\ lista_tarefas (documento e') = [Exemplo.leite].
Proof.
  intros e e'.
  destruct (removerProjeto_projeto_ativo e "projeto_2" Exemplo.trabalho)
    as (H & _ & _ & _ & Hlp & _ & _ & Hl).
  - apply list_elem_of_here.
  - reflexivity.
  - left. reflexivity.
  - fold e' in Hlp, Hl.
    assert (Forall prioridade_conhecida [Exemplo.leite]) as Hc
        by (repeat constructor; unfold prioridade_conhecida, niveis_de_prioridade;
            cbn; set_solver).
    split; [exact (proj1 (H eq_refl))|]. split; [exact Hlp | exact (Hl Hc)].
Defined.

End RemoverProjetoVisao.


(* ===================================================================== *)
(** * Invariants of the task store *)
(* ===================================================================== *)

Section Invariantes.

Lemma salvarTarefa_tarefas e :
  let l := tarefas (gerenciadorTarefas e) in
  let dados := dados_do_formulario (documento e) (Date_toISOString (ambiente e)) in
  tarefas (gerenciadorTarefas (estado_apos GerenciadorTarefas.salvarTarefa e))
  = if JSString.verdadeiro (JSString.trim (titulo_tarefa (documento e))) then
      match tarefaEditando (gerenciadorTarefas e) with
      | Some editando =>
          match Array.findIndex
                  (fun t => String.eqb (Tarefa.id t) (Tarefa.id editando)) l with
          | Some i =>
              match l !! i with
              | Some antiga => <[i := Tarefa.espalhar antiga dados]> l
              | None => l
              end
          | None => l
          end
      | None => l ++ [Tarefa.nova (id_gerado "tarefa_" (ambiente e)) dados]
      end
    else l.
Proof.
  intros l dados. subst l dados.
  unfold GerenciadorTarefas.salvarTarefa. executar.
  destruct (JSString.verdadeiro _); cbn [negb]; cbv iota; [|reflexivity].
  executar. destruct (tarefaEditando (gerenciadorTarefas e)) as [ed|].
  - destruct (Array.findIndex _ _) as [i|]; executar; projetar; reflexivity.
  - executar. projetar. reflexivity.
Qed.

Lemma removerProjeto_tarefas e id :
  let e' := estado_apos (GerenciadorProjetos.removerProjeto id) e in
  tarefas (gerenciadorTarefas e') = tarefas (gerenciadorTarefas e)
  \/ tarefas (gerenciadorTarefas e')
     = GerenciadorProjetos.desassociar id (tarefas (gerenciadorTarefas e)).
Proof.
  intros e'. destruct (removerProjeto_casos e id) as [[Ht _]|(i & Hi & Hok)].
  - left. fold e' in Ht. now rewrite Ht.
  - right. now destruct (removerProjeto_confirmado e id i Hi Hok) as (Ht & _).
Qed.

Lemma Forall_splice1 {A} (P : A -> Prop) l i :
  Forall P l -> Forall P (Array.splice1 i l).
Proof.
  rewrite !Forall_forall. intros H x (j & _ & Hx)%elem_of_splice1.
  apply H. now apply list_elem_of_lookup_2 in Hx.
Qed.

Section Propriedade.
Context (P : Tarefa.t -> Prop).
Hypothesis P_alternar : forall t, P t -> P (alternar t).
Hypothesis P_sem_projeto : forall t, P t -> P (Tarefa.com_projetoId None t).

Lemma Forall_tarefas_preservado e id :
  Forall P (tarefas (gerenciadorTarefas e)) ->
  Forall P (tarefas (gerenciadorTarefas
              (estado_apos (GerenciadorTarefas.alternarConclusao id) e)))
  /\ Forall P (tarefas (gerenciadorTarefas
                 (estado_apos (GerenciadorTarefas.removerTarefa id) e)))
  /\ Forall P (tarefas (gerenciadorTarefas
                 (estado_apos (GerenciadorProjetos.removerProjeto id) e))).
Proof.
  intros H. split; [|split].
  - rewrite alternarConclusao_tarefas.
    destruct (Array.findIndex _ _) as [i|]; [|assumption].
    apply Forall_alter; auto.
  - rewrite removerTarefa_tarefas.
    destruct (resposta (ambiente e)); [|assumption].
    destruct (Array.findIndex _ _) as [i|]; [|assumption].
    now apply Forall_splice1.
  - destruct (removerProjeto_tarefas e id) as [->| ->]; [assumption|].
    unfold GerenciadorProjetos.desassociar. rewrite map_fmap.
    apply Forall_fmap. eapply Forall_impl; [exact H|]. intros t Ht. cbn.
    destruct (GerenciadorTarefas.projetoId_igual t id); auto.
Qed.

End Propriedade.

(** X14: no method ever puts a task with an empty title in the store: when
    every task has a title, this still holds after [salvarTarefa] (for any
    input: an empty or blank title is refused, and a stored title is the
    trimmed input), after [alternarConclusao], after [removerTarefa] and
    after [removerProjeto]. *)
Theorem titulos_sempre_preenchidos (e : Estado) (id : string) :
  titulos_preenchidos (tarefas (gerenciadorTarefas e)) ->
  titulos_preenchidos
    (tarefas (gerenciadorTarefas (estado_apos GerenciadorTarefas.salvarTarefa e)))
  /\ titulos_preenchidos
       (tarefas (gerenciadorTarefas
                   (estado_apos (GerenciadorTarefas.alternarConclusao id) e)))
  /\ titulos_preenchidos
       (tarefas (gerenciadorTarefas
                   (estado_apos (GerenciadorTarefas.removerTarefa id) e)))
  /\ titulos_preenchidos
       (tarefas (gerenciadorTarefas
                   (estado_apos (GerenciadorProjetos.removerProjeto id) e))).
Proof.
  intros H. split.
  - rewrite salvarTarefa_tarefas. cbv zeta.
    destruct (JSString.verdadeiro _) eqn:Hv; [|assumption].
    assert (JSString.trim (titulo_tarefa (documento e)) <> EmptyString) as Hne
        by (intros Heq; rewrite Heq in Hv; discriminate).
    destruct (tarefaEditando (gerenciadorTarefas e)) as [ed|].
    + destruct (Array.findIndex _ _) as [i|]; [|assumption].
      destruct (_ !! i) as [antiga|]; [|assumption].
      apply Forall_insert; assumption.
    + apply Forall_app. split; [assumption|]. apply Forall_singleton. exact Hne.
  - apply (Forall_tarefas_preservado
             (fun t => Tarefa.titulo t <> EmptyString)); auto.
Qed.

Lemma titulos_sempre_preenchidos_witness :
  let e := estado_apos (Pagina.preencher_tarefa "Buy milk" "" "" "alta" "")
             (Exemplo.estado [Exemplo.relatorio] [Exemplo.casa]) in
  titulos_preenchidos
    (tarefas (gerenciadorTarefas (estado_apos GerenciadorTarefas.salvarTarefa e))).
Proof.
  intros e. refine (proj1 (titulos_sempre_preenchidos e "" _)).
  apply Forall_singleton. discriminate.
Defined.

Lemma map_id_alter_tarefa (f : Tarefa.t -> Tarefa.t) l i :
  (forall t, Tarefa.id (f t) = Tarefa.id t) ->
  map Tarefa.id (alter f i l) = map Tarefa.id l.
Proof.
  intros Hf. revert i. induction l as [|a l IH]; intros [|i]; cbn; auto.
  - now rewrite Hf.
  - now rewrite IH.
Qed.

Lemma map_id_insert_tarefa l i antiga d :
  l !! i = Some antiga ->
  map Tarefa.id (<[i := Tarefa.espalhar antiga d]> l) = map Tarefa.id l.
Proof.
  revert i. induction l as [|a l IH]; intros [|i]; cbn; try discriminate.
  - now intros [= ->].
  - intros H. now rewrite IH.
Qed.

(** X15: pairwise distinct task ids stay so under [alternarConclusao],
    [removerTarefa] and [removerProjeto], and under [salvarTarefa]: always
    for an edit, which keeps the id of the edited task, and for a new task
    as long as the generated id is not the id of a task of the store. *)
Theorem ids_tarefas_preservados (e : Estado) (id : string) :
  ids_tarefas_distintos (tarefas (gerenciadorTarefas e)) ->
  ids_tarefas_distintos
    (tarefas (gerenciadorTarefas
                (estado_apos (GerenciadorTarefas.alternarConclusao id) e)))
  /\ ids_tarefas_distintos
       (tarefas (gerenciadorTarefas
                   (estado_apos (GerenciadorTarefas.removerTarefa id) e)))
  /\ ids_tarefas_distintos
       (tarefas (gerenciadorTarefas
                   (estado_apos (GerenciadorProjetos.removerProjeto id) e)))
  /\ ((tarefaEditando (gerenciadorTarefas e) = None ->
       forall t, t ∈ tarefas (gerenciadorTarefas e) ->
                 Tarefa.id t <> id_gerado "tarefa_" (ambiente e)) ->
      ids_tarefas_distintos
        (tarefas (gerenciadorTarefas
                    (estado_apos GerenciadorTarefas.salvarTarefa e)))).
Proof.
  unfold ids_tarefas_distintos. intros H. split; [|split; [|split]].
  - rewrite alternarConclusao_tarefas.
    destruct (Array.findIndex _ _) as [i|]; [|assumption].
    rewrite map_id_alter_tarefa; [assumption|]. now intros [].
  - rewrite removerTarefa_tarefas.
    destruct (resposta (ambiente e)); [|assumption].
    destruct (Array.findIndex _ _) as [i|]; [|assumption].
    now apply NoDup_map_splice1.
  - destruct (removerProjeto_tarefas e id) as [->| ->]; [assumption|].
    unfold GerenciadorProjetos.desassociar. rewrite map_map.
    erewrite map_ext; [exact H|]. intros t. cbn.
    now destruct (GerenciadorTarefas.projetoId_igual t id).
  - intros Hnovo. rewrite salvarTarefa_tarefas. cbv zeta.
    destruct (JSString.verdadeiro _); [|assumption].
    destruct (tarefaEditando (gerenciadorTarefas e)) as [ed|].
    + destruct (Array.findIndex _ _) as [i|]; [|assumption].
      destruct (_ !! i) as [antiga|] eqn:Hi; [|assumption].
      now rewrite map_id_insert_tarefa.
    + apply (NoDup_map_push Tarefa.id); [|assumption]. intros t Ht. now apply Hnovo.
Qed.

Lemma ids_tarefas_preservados_witness :
  let e := Exemplo.estado [Exemplo.leite; Exemplo.relatorio] [Exemplo.casa] in
  ids_tarefas_distintos
    (tarefas (gerenciadorTarefas
                (estado_apos (GerenciadorTarefas.alternarConclusao "tarefa_1") e))).
Proof.
  intros e. refine (proj1 (ids_tarefas_preservados e "tarefa_1" _)).
  unfold ids_tarefas_distintos. apply (bool_decide_unpack _). vm_compute. exact I.
Defined.

End Invariantes.


(* ===================================================================== *)
(** * References from tasks to projects *)
(* ===================================================================== *)

Section Referencias.

Lemma elem_of_alter_inv {A} (f : A -> A) (l : list A) i x :
  x ∈ alter f i l -> x ∈ l \/ exists y, y ∈ l /\ x = f y.
Proof.
  intros (j & Hj)%list_elem_of_lookup_1.
  destruct (decide (j = i)) as [->|Hne].
  - rewrite list_lookup_alter_eq in Hj.
    destruct (l !! i) as [y|] eqn:Hy; [|discriminate].
    injection Hj as <-. right. exists y. split; [|reflexivity].
    now apply list_elem_of_lookup_2 in Hy.
  - rewrite list_lookup_alter_ne in Hj by congruence.
    left. now apply list_elem_of_lookup_2 in Hj.
Qed.

Lemma elem_of_insert_inv {A} (l : list A) i x y :
  y ∈ <[i := x]> l -> y = x \/ y ∈ l.
Proof.
  intros (j & Hj)%list_elem_of_lookup_1.
  destruct (decide (j = i)) as [->|Hne].
  - destruct (decide (i < length l)%nat) as [Hlt|Hge].
    + rewrite list_lookup_insert_eq in Hj by assumption. left. congruence.
    + rewrite list_insert_ge in Hj by lia. right.
      now apply list_elem_of_lookup_2 in Hj.
  - rewrite list_lookup_insert_ne in Hj by congruence.
    right. now apply list_elem_of_lookup_2 in Hj.
Qed.

Lemma adicionarProjeto_ids_mantidos e q :
  q ∈ projetos (gerenciadorProjetos e) ->
  exists q', q' ∈ projetos (gerenciadorProjetos
                              (estado_apos GerenciadorProjetos.adicionarProjeto e))
             /\ Projeto.id q' = Projeto.id q.
Proof.
  intros Hq.
  destruct (JSString.verdadeiro (nome_digitado e)) eqn:Hv;
    [|unfold estado_apos; rewrite adicionarProjeto_sem_nome by assumption; eauto].
  destruct (Array.find (GerenciadorProjetos.mesmo_nome (nome_digitado e)
                          (projetoEditando (gerenciadorProjetos e)))
                       (projetos (gerenciadorProjetos e))) as [x|] eqn:Hf;
    [unfold estado_apos; rewrite (adicionarProjeto_repetido e x) by assumption; eauto|].
  destruct (adicionarProjeto_aceito e Hv Hf) as (-> & _).
  destruct (projetoEditando (gerenciadorProjetos e)) as [ed|].
  - destruct (Array.findIndex _ _) as [i|]; [|eauto].
    apply list_elem_of_lookup_1 in Hq as (j & Hj).
    destruct (decide (j = i)) as [->|Hne].
    + exists (Projeto.com_nome (nome_digitado e) q). split; [|reflexivity].
      apply (list_elem_of_lookup_2 _ i). now rewrite list_lookup_alter_eq, Hj.
    + exists q. split; [|reflexivity].
      apply (list_elem_of_lookup_2 _ j). rewrite list_lookup_alter_ne by congruence.
      exact Hj.
  - exists q. split; [|reflexivity]. apply elem_of_app. now left.
Qed.

Lemma adicionarProjeto_tarefas e :
  tarefas (gerenciadorTarefas (estado_apos GerenciadorProjetos.adicionarProjeto e))
  = tarefas (gerenciadorTarefas e).
Proof.
  destruct (JSString.verdadeiro (nome_digitado e)) eqn:Hv;
    [|unfold estado_apos; now rewrite adicionarProjeto_sem_nome].
  destruct (Array.find (GerenciadorProjetos.mesmo_nome (nome_digitado e)
                          (projetoEditando (gerenciadorProjetos e)))
                       (projetos (gerenciadorProjetos e))) as [x|] eqn:Hf;
    [unfold estado_apos; now rewrite (adicionarProjeto_repetido e x)|].
  now destruct (adicionarProjeto_aceito e Hv Hf) as (_ & _ & ->).
Qed.

Lemma removerTarefa_projetos e id :
  gerenciadorProjetos (estado_apos (GerenciadorTarefas.removerTarefa id) e)
  = gerenciadorProjetos e.
Proof.
  unfold GerenciadorTarefas.removerTarefa. executar.
  destruct (resposta (ambiente e)); [|reflexivity].
  executar. projetar.
  destruct (Array.findIndex _ _); executar; projetar; reflexivity.
Qed.

Lemma alternarConclusao_projetos e id :
  gerenciadorProjetos (estado_apos (GerenciadorTarefas.alternarConclusao id) e)
  = gerenciadorProjetos e.
Proof.
  unfold GerenciadorTarefas.alternarConclusao. executar.
  destruct (Array.findIndex _ _) as [i|]; [|reflexivity].
  executar. projetar.
  destruct (alter _ i _ !! i); executar; projetar; reflexivity.
Qed.

Lemma salvarTarefa_projetos e :
  gerenciadorProjetos (estado_apos GerenciadorTarefas.salvarTarefa e)
  = gerenciadorProjetos e.
Proof.
  unfold GerenciadorTarefas.salvarTarefa. executar.
  destruct (negb _); [reflexivity|].
  executar. destruct (tarefaEditando (gerenciadorTarefas e)) as [ed|].
  - destruct (Array.findIndex _ _) as [i|]; executar; projetar; reflexivity.
  - executar. projetar. reflexivity.
Qed.

(** X16: no dangling project reference.  When every task's [projetoId] is
    [null] or the id of a project of the store, this still holds after
    [removerProjeto] (whatever the id and the answer), after
    [adicionarProjeto], after [removerTarefa] and after [alternarConclusao];
    and after [salvarTarefa] when the project select of the form is on "Sem
    projeto" or on a project of the store. *)
Theorem referencias_preservadas (e : Estado) (id : string) :
  referencias_validas e ->
  referencias_validas (estado_apos (GerenciadorProjetos.removerProjeto id) e)
  /\ referencias_validas (estado_apos GerenciadorProjetos.adicionarProjeto e)
  /\ referencias_validas (estado_apos (GerenciadorTarefas.removerTarefa id) e)
  /\ referencias_validas (estado_apos (GerenciadorTarefas.alternarConclusao id) e)
  /\ (projeto_tarefa (documento e) = EmptyString
      \/ (exists q, q ∈ projetos (gerenciadorProjetos e)
                    /\ Projeto.id q = projeto_tarefa (documento e)) ->
      referencias_validas (estado_apos GerenciadorTarefas.salvarTarefa e)).
Proof.
  intros H. split; [|split; [|split; [|split]]].
  - destruct (removerProjeto_casos e id) as [[Ht Hp]|(i & Hi & Hok)].
    + unfold referencias_validas. rewrite Ht, Hp. exact H.
    + destruct (removerProjeto_confirmado e id i Hi Hok) as (Ht & Hp & _).
      unfold referencias_validas. rewrite Ht, Hp. intros t' p Ht' Hpid.
      unfold GerenciadorProjetos.desassociar in Ht'. rewrite map_fmap in Ht'.
      apply list_elem_of_fmap in Ht' as (t & -> & Hin).
      assert (Tarefa.projetoId t = Some p /\ p <> id) as [Hpt Hne].
      { destruct (GerenciadorTarefas.projetoId_igual t id) eqn:Hig;
          [discriminate|].
        split; [assumption|]. intros ->.
        rewrite projetoId_igual_decide in Hig.
        now apply bool_decide_eq_false in Hig. }
      destruct (H t p Hin Hpt) as (q & Hq & Hidq).
      exists q. split; [|assumption].
      apply list_elem_of_lookup_1 in Hq as (j & Hq).
      apply (splice1_outro _ i j q Hq). intros ->.
      apply findIndex_Some in Hi as (x & Hx & Hpx & _).
      apply String.eqb_eq in Hpx. congruence.
  - unfold referencias_validas. rewrite adicionarProjeto_tarefas.
    intros t p Ht Hp. destruct (H t p Ht Hp) as (q & Hq & <-).
    now apply adicionarProjeto_ids_mantidos.
  - unfold referencias_validas.
    rewrite removerTarefa_projetos, removerTarefa_tarefas.
    intros t p Ht. apply H.
    destruct (resposta (ambiente e)); [|assumption].
    destruct (Array.findIndex _ _) as [i|]; [|assumption].
    apply elem_of_splice1 in Ht as (j & _ & Hj).
    now apply list_elem_of_lookup_2 in Hj.
  - unfold referencias_validas.
    rewrite alternarConclusao_projetos, alternarConclusao_tarefas.
    destruct (Array.findIndex _ _) as [i|]; [|exact H].
    intros t p [Ht|(y & Hy & ->)]%elem_of_alter_inv; [now apply H|].
    intros Hp. apply (H y p Hy). exact Hp.
  - intros Hform. unfold referencias_validas.
    rewrite salvarTarefa_projetos, salvarTarefa_tarefas. cbv zeta.
    assert (forall p,
              Tarefa.Dados.projetoId
                (dados_do_formulario (documento e) (Date_toISOString (ambiente e)))
              = Some p ->
              exists q, q ∈ projetos (gerenciadorProjetos e) /\ Projeto.id q = p)
      as Hd.
    { intros p. cbn [dados_do_formulario Tarefa.Dados.projetoId].
      destruct Hform as [->|(q & Hq & Hidq)]; [discriminate|].
      destruct (JSString.verdadeiro _); [|discriminate].
      intros [= <-]. eauto. }
    destruct (JSString.verdadeiro _); [|exact H].
    destruct (tarefaEditando (gerenciadorTarefas e)) as [ed|].
    + destruct (Array.findIndex _ _) as [i|]; [|exact H].
      destruct (_ !! i) as [antiga|]; [|exact H].
      intros t p [->|Ht]%elem_of_insert_inv; [apply Hd|now apply H].
    + intros t p [Ht|Ht]%elem_of_app; [now apply H|].
      apply list_elem_of_singleton in Ht as ->. apply Hd.
Qed.

Lemma referencias_preservadas_witness :
  let e := Exemplo.estado [Exemplo.leite; Exemplo.relatorio]
                          [Exemplo.casa; Exemplo.trabalho] in
  referencias_validas (estado_apos (GerenciadorProjetos.removerProjeto "projeto_1") e).
Proof.
  intros e. refine (proj1 (referencias_preservadas e "projeto_1" _)).
  intros t p Ht Hp.
  apply elem_of_cons in Ht as [->|Ht].
  - injection Hp as <-. exists Exemplo.casa. split; [apply list_elem_of_here|reflexivity].
  - apply elem_of_cons in Ht as [->|Ht]; [|now apply elem_of_nil in Ht].
    injection Hp as <-. exists Exemplo.trabalho.
    split; [apply list_elem_of_further, list_elem_of_here|reflexivity].
Defined.

End Referencias.


(* ===================================================================== *)
(** * gerarId *)
(* ===================================================================== *)

Section GerarId.

Lemma string_of_uint_separador d1 d2 r1 r2 :
  (NilEmpty.string_of_uint d1 ++ String "_" r1)%string
  = (NilEmpty.string_of_uint d2 ++ String "_" r2)%string ->
  d1 = d2.
Proof.
  revert d2. induction d1 as [|d1 IH|d1 IH|d1 IH|d1 IH|d1 IH|d1 IH|d1 IH|d1 IH|d1 IH|d1 IH];
    intros [|d2|d2|d2|d2|d2|d2|d2|d2|d2|d2]; cbn; intros H;
    try discriminate; try reflexivity;
    injection H as H; f_equal; now apply IH.
Qed.

Lemma append_prefixo p a b : (p ++ a)%string = (p ++ b)%string -> a = b.
Proof. induction p as [|c p IH]; cbn; [auto|]. intros [= H]. auto. Qed.

Lemma id_gerado_relogio prefixo a1 a2 :
  id_gerado prefixo a1 = id_gerado prefixo a2 -> Date_now a1 = Date_now a2.
Proof.
  unfold id_gerado, JSString.de_numero. intros H.
  apply append_prefixo in H.
  apply string_of_uint_separador in H.
  now apply DecimalN.Unsigned.to_uint_inj.
Qed.

(** X17: [gerarId] returns the class prefix, the clock reading and nine
    characters of the random text, and leaves the state unchanged.  Two ids
    of the same class generated at different clock readings are different,
    whatever the random texts; and a task id is never a project id. *)
Theorem gerarId_distintos (e1 e2 : Estado) :
  GerenciadorTarefas.gerarId e1 = (Retorna (id_gerado "tarefa_" (ambiente e1)), e1)
  /\ GerenciadorProjetos.gerarId e1 = (Retorna (id_gerado "projeto_" (ambiente e1)), e1)
  /\ (Date_now (ambiente e1) <> Date_now (ambiente e2) ->
      resultado_de GerenciadorTarefas.gerarId e1
      <> resultado_de GerenciadorTarefas.gerarId e2
      /\ resultado_de GerenciadorProjetos.gerarId e1
         <> resultado_de GerenciadorProjetos.gerarId e2)
  /\ resultado_de GerenciadorTarefas.gerarId e1
     <> resultado_de GerenciadorProjetos.gerarId e2.
Proof.
  split; [reflexivity|]. split; [reflexivity|]. split.
  - intros Hne. split; intros [= H]; apply Hne;
      now apply (id_gerado_relogio _ _ _ H).
  - intros [=].
Qed.

End GerarId.


(* ===================================================================== *)
(** * adicionarProjeto: a new project *)
(* ===================================================================== *)

Section CriarProjeto.

(** X18: submitting the project form with a name that is empty or white
    space only shows the alert and does nothing else: the project list, the
    project under edit, [localStorage] and the page are as they were. *)
Theorem adicionarProjeto_nome_vazio (e : Estado) :
  so_espacos (nome_projeto (documento e)) = true ->
  GerenciadorProjetos.adicionarProjeto e
  = (Retorna tt,
     com_alertas
       (fun a => a ++ [JSString.literal "O nome do projeto é obrigatório."]) e)
  /\ let e' := estado_apos GerenciadorProjetos.adicionarProjeto e in
     projetos (gerenciadorProjetos e') = projetos (gerenciadorProjetos e)
     /\ projetoEditando (gerenciadorProjetos e') = projetoEditando (gerenciadorProjetos e)
     /\ localStorage e' = localStorage e
     /\ documento e' = documento e.
Proof.
  intros H.
  assert (JSString.verdadeiro (nome_digitado e) = false) as Hv
      by (unfold nome_digitado; now rewrite (trim_so_espacos _ H)).
  split; [now apply adicionarProjeto_sem_nome|].
  unfold estado_apos. rewrite (adicionarProjeto_sem_nome e Hv). cbn [snd].
  projetar. repeat split.
Qed.

Lemma adicionarProjeto_nome_vazio_witness :
  let e := com_gerenciadorProjetos (com_projetoEditando (Some Exemplo.casa))
             (estado_apos (Pagina.preencher_projeto "  ")
                (Exemplo.estado [] [Exemplo.casa])) in
  let e' := estado_apos GerenciadorProjetos.adicionarProjeto e in
  projetos (gerenciadorProjetos e') = [Exemplo.casa]
  /\ projetoEditando (gerenciadorProjetos e') = Some Exemplo.casa.
Proof.
  intros e e'.
  destruct (adicionarProjeto_nome_vazio e eq_refl) as (_ & Hp & Hed & _).
  split; [exact Hp|exact Hed].
Defined.

(** X19: submitting the project form with a name that no project has up
    to case, when no project is under edit, appends one project to the
    store: its id is the generated id, its name the trimmed input, its
    [dataCriacao] the time of the call.  The tasks are unchanged, the form
    is hidden, the page lists every project of the new store once, by name
    when the collation is consistent, and the project select of the task
    form offers "Sem projeto" and every project of the new store, in the
    order of the store, with "Sem projeto" selected.  No alert is shown. *)
Theorem adicionarProjeto_cria (e : Estado) :
  JSString.verdadeiro (nome_digitado e) = true ->
  projetoEditando (gerenciadorProjetos e) = None ->
  (forall p, p ∈ projetos (gerenciadorProjetos e) ->
             JSString.toLowerCase (Projeto.nome p)
             <> JSString.toLowerCase (nome_digitado e)) ->
  let e' := estado_apos GerenciadorProjetos.adicionarProjeto e in
  let novoProjeto :=
    {| Projeto.id := id_gerado "projeto_" (ambiente e);
       Projeto.nome := nome_digitado e;
       Projeto.dataCriacao := Date_toISOString (ambiente e) |} in
  resultado_de GerenciadorProjetos.adicionarProjeto e = Retorna tt
  /\ projetos (gerenciadorProjetos e') = projetos (gerenciadorProjetos e) ++ [novoProjeto]
  /\ projetoEditando (gerenciadorProjetos e') = None
  /\ gerenciadorTarefas e' = gerenciadorTarefas e
  /\ form_projeto (documento e') = false
  /\ Permutation (lista_projetos (documento e')) (projetos (gerenciadorProjetos e'))
  /\ (colacao_consistente (ambiente e) ->
      por_nome (ambiente e) (lista_projetos (documento e')))
  /\ opcoes_projeto_tarefa (documento e') = opcoes_de (projetos (gerenciadorProjetos e'))
  /\ projeto_tarefa (documento e') = EmptyString
  /\ alertas e' = alertas e.
Proof.
  intros Hv Hed Hnovo e' novoProjeto.
  assert (Array.find (GerenciadorProjetos.mesmo_nome (nome_digitado e) None)
                     (projetos (gerenciadorProjetos e)) = None) as Hf.
  { apply find_None_forall. intros x Hx. unfold GerenciadorProjetos.mesmo_nome.
    rewrite andb_true_r. apply String.eqb_neq. auto. }
  eassert (GerenciadorProjetos.adicionarProjeto e = (Retorna tt, _)) as He.
  { unfold GerenciadorProjetos.adicionarProjeto, nome_digitado in *. executar.
    rewrite Hv. cbn [negb]. cbv beta iota. rewrite Hed, Hf. executar. reflexivity. }
  subst e'. unfold estado_apos, resultado_de. rewrite He. cbn [fst snd].
  unfold GerenciadorProjetos.ordem_de_exibicao.
  projetar_documento. repeat split; auto using sort_Permutation, sort_por_nome.
Qed.

Lemma adicionarProjeto_cria_witness :
  let e := estado_apos (Pagina.preencher_projeto " Garden ")
             (Exemplo.estado [Exemplo.leite] [Exemplo.casa]) in
  let e' := estado_apos GerenciadorProjetos.adicionarProjeto e in
  projetos (gerenciadorProjetos e')
  = [Exemplo.casa;
     {| Projeto.id := "projeto_1762077600000_4fzyo82mv"; Projeto.nome := "Garden";
        Projeto.dataCriacao := "2025-11-02T10:00:00.000Z" |}]
  /\ Permutation (lista_projetos (documento e')) (projetos (gerenciadorProjetos e'))
  /\ por_nome Exemplo.amb (lista_projetos (documento e'))
  /\ lista_projetos (documento e')
     = [{| Projeto.id := "projeto_1762077600000_4fzyo82mv"; Projeto.nome := "Garden";
           Projeto.dataCriacao := "2025-11-02T10:00:00.000Z" |};
        Exemplo.casa]
  /\ opcoes_projeto_tarefa (documento e')
     = [("", "Sem projeto"); ("projeto_1", "Home");
        ("projeto_1762077600000_4fzyo82mv", "Garden")].
Proof.
  intros e e'.
  destruct (adicionarProjeto_cria e eq_refl eq_refl)
    as (_ & Hp & _ & _ & _ & Hl & Hn & Ho & _).
  - intros p Hp. apply elem_of_cons in Hp as [->|Hp]; [discriminate|].
    now apply elem_of_nil in Hp.
  - fold e' in Hp, Hl, Hn, Ho. split; [exact Hp|]. split; [exact Hl|].
    split; [exact (Hn comparar_sem_caixa_consistente)|]. split; [reflexivity|].
    rewrite Ho, Hp. reflexivity.
Defined.

End CriarProjeto.


(* ===================================================================== *)
(** * The filters *)
(* ===================================================================== *)

Section Filtros.

Lemma filter_sublist {A} (p : A -> bool) l : sublist (List.filter p l) l.
Proof.
  induction l as [|a l IH]; cbn; [constructor|].
  destruct (p a); now constructor.
Qed.

Lemma filter_particao {A} (p q : A -> bool) l :
  (forall x, x ∈ l -> q x = negb (p x)) ->
  Permutation (List.filter p l ++ List.filter q l) l.
Proof.
  induction l as [|a l IH]; intros H; cbn; [constructor|].
  rewrite (H a (list_elem_of_here _ _)).
  assert (Permutation (List.filter p l ++ List.filter q l) l) as IH'
      by (apply IH; intros x Hx; apply H; now right).
  destruct (p a); cbn.
  - now constructor.
  - symmetry. apply Permutation_cons_app. now symmetry.
Qed.

(** The tasks of the selected project, before the filter. *)
Lemma filtradas_base filtro g :
  let base :=
    if negb (String.eqb (projetoAtivo g) "todos")
    then List.filter (fun t => GerenciadorTarefas.projetoId_igual t (projetoAtivo g))
                     (tarefas g)
    else tarefas g in
  filtradas filtro g
  = if String.eqb filtro "pendentes" then
      List.filter (fun t => negb (Tarefa.concluida t)) base
    else if String.eqb filtro "concluidas" then
      List.filter (fun t => Tarefa.concluida t) base
    else if String.eqb filtro "alta" then
      List.filter (fun t => String.eqb (Tarefa.prioridade t) "alta") base
    else if String.eqb filtro "media" then
      List.filter (fun t => String.eqb (Tarefa.prioridade t) "media") base
    else if String.eqb filtro "baixa" then
      List.filter (fun t => String.eqb (Tarefa.prioridade t) "baixa") base
    else base.
Proof. reflexivity. Qed.

(** X20: what the filters show.  For every filter name the filtered list
    is a sublist of the task store: the same objects in the same order.
    Under any project selection the lists of "pendentes" and of "concluidas"
    together are a rearrangement of the unfiltered list, and so are the
    lists of "alta", "media" and "baixa" together when every task has one of
    these priorities.  With "todos" selected and a filter name other than
    these five, as "todas", the list is the whole store.  With a project selected,
    every task shown belongs to it: a task without project is shown under
    "todos" only. *)
Theorem obterTarefasFiltradas_particao (g : Tarefas) :
  (forall filtro, sublist (filtradas filtro g) (tarefas g))
  /\ Permutation (filtradas "pendentes" g ++ filtradas "concluidas" g)
                 (filtradas "todas" g)
  /\ (Forall prioridade_valida (tarefas g) ->
      Permutation (filtradas "alta" g ++ filtradas "media" g ++ filtradas "baixa" g)
                  (filtradas "todas" g))
  /\ (projetoAtivo g = "todos" ->
      forall filtro,
        filtro ∉ ["pendentes"; "concluidas"; "alta"; "media"; "baixa"] ->
        filtradas filtro g = tarefas g)
  /\ (projetoAtivo g <> "todos" ->
      forall filtro t, t ∈ filtradas filtro g ->
                       Tarefa.projetoId t = Some (projetoAtivo g)).
Proof.
  set (base := if negb (String.eqb (projetoAtivo g) "todos")
               then List.filter
                      (fun t => GerenciadorTarefas.projetoId_igual t (projetoAtivo g))
                      (tarefas g)
               else tarefas g).
  assert (sublist base (tarefas g)) as Hbase.
  { subst base. destruct (negb _); [apply filter_sublist|reflexivity]. }
  assert (forall filtro, sublist (filtradas filtro g) base) as Hsub.
  { intros filtro. rewrite filtradas_base. fold base.
    repeat (destruct (String.eqb filtro _); [apply filter_sublist|]). reflexivity. }
  split; [|split; [|split; [|split]]].
  - intros filtro. now transitivity base.
  - rewrite !filtradas_base. fold base.
    cbn [String.eqb Ascii.eqb Bool.eqb]. cbv iota.
    apply filter_particao. intros x _. now rewrite negb_involutive.
  - intros Hval. rewrite !filtradas_base. fold base.
    cbn [String.eqb Ascii.eqb Bool.eqb]. cbv iota.
    assert (Forall prioridade_valida base) as Hb.
    { rewrite Forall_forall in *. intros x Hx. apply Hval.
      now apply (elem_of_sublist _ _ _ Hx Hbase). }
    clear Hbase Hsub Hval. induction base as [|a l IH]; [constructor|].
    apply Forall_cons in Hb as [Ha Hb]. specialize (IH Hb).
    unfold prioridade_valida, GerenciadorTarefas.prioridades in Ha.
    cbn [List.filter].
    destruct (String.eqb (Tarefa.prioridade a) "alta") eqn:Halta.
    { apply String.eqb_eq in Halta. rewrite Halta.
      cbn [String.eqb Ascii.eqb Bool.eqb app]. now constructor. }
    destruct (String.eqb (Tarefa.prioridade a) "media") eqn:Hmedia.
    { apply String.eqb_eq in Hmedia. rewrite Hmedia.
      cbn [String.eqb Ascii.eqb Bool.eqb].
      symmetry. apply Permutation_cons_app. now symmetry. }
    destruct (String.eqb (Tarefa.prioridade a) "baixa") eqn:Hbaixa;
      [|now destruct Ha].
    symmetry. rewrite app_assoc. apply Permutation_cons_app.
    rewrite <- app_assoc. now symmetry.
  - intros Htodos filtro Hfora. rewrite filtradas_base, Htodos.
    cbn [String.eqb Ascii.eqb Bool.eqb negb]. cbv iota.
    repeat match goal with
           | |- context [String.eqb filtro ?x] =>
               destruct (String.eqb_spec filtro x) as [->|_];
               [exfalso; apply Hfora;
                repeat first [apply list_elem_of_here | apply list_elem_of_further]|]
           end.
    reflexivity.
  - intros Hne filtro t Ht.
    apply (fun H => elem_of_sublist _ _ _ H (Hsub filtro)) in Ht. subst base.
    apply String.eqb_neq in Hne. rewrite Hne in Ht. cbn [negb] in Ht.
    apply list_elem_of_In, List.filter_In in Ht as [_ Ht].
    rewrite projetoId_igual_decide in Ht. now apply bool_decide_eq_true in Ht.
Qed.

End Filtros.


(* ===================================================================== *)
(** * Selecting a filter or a project *)
(* ===================================================================== *)

Section Selecao.

(** X21: selecting a filter or a project changes the view only.  After
    [aplicarFiltro] of one of the five filters of the page, after
    [definirProjetoAtivo], and after [selecionarProjeto] of "todos" or of a
    project that has its item on the page, the tasks, the task under edit,
    the projects, [localStorage] and the alerts are as they were, and the
    page lists every task of the new selection once, in display order when
    their priorities are among "alta", "media" and "baixa"; each changes its
    own part of the selection and keeps the other.  [selecionarProjeto]
    sets the section title to "Todas as Tarefas" for "todos" and, with
    pairwise distinct project ids, to the name of the project of the
    store. *)
Theorem selecao_so_muda_a_visao (e : Estado) (filtro projetoId : string) :
  filtro ∈ filtros_da_pagina ->
  tem_item_projeto (documento e) projetoId ->
  let inalterado (e' : Estado) :=
    tarefas (gerenciadorTarefas e') = tarefas (gerenciadorTarefas e)
    /\ tarefaEditando (gerenciadorTarefas e') = tarefaEditando (gerenciadorTarefas e)
    /\ gerenciadorProjetos e' = gerenciadorProjetos e
    /\ localStorage e' = localStorage e
    /\ alertas e' = alertas e
    /\ Permutation (lista_tarefas (documento e'))
                   (GerenciadorTarefas.obterTarefasFiltradas (gerenciadorTarefas e'))
    /\ (Forall prioridade_conhecida
               (GerenciadorTarefas.obterTarefasFiltradas (gerenciadorTarefas e')) ->
        lista_tarefas (documento e')
        = GerenciadorTarefas.ordem_de_exibicao (gerenciadorTarefas e')) in
  (let e' := estado_apos (GerenciadorTarefas.aplicarFiltro filtro) e in
   inalterado e'
   /\ filtroAtivo (gerenciadorTarefas e') = filtro
   /\ projetoAtivo (gerenciadorTarefas e') = projetoAtivo (gerenciadorTarefas e))
  /\ (forall id,
        let e' := estado_apos (GerenciadorTarefas.definirProjetoAtivo id) e in
        inalterado e'
        /\ projetoAtivo (gerenciadorTarefas e') = id
        /\ filtroAtivo (gerenciadorTarefas e') = filtroAtivo (gerenciadorTarefas e))
  /\ (let e' := estado_apos (GerenciadorProjetos.selecionarProjeto projetoId) e in
      inalterado e'
      /\ projetoAtivo (gerenciadorTarefas e') = projetoId
      /\ filtroAtivo (gerenciadorTarefas e') = filtroAtivo (gerenciadorTarefas e)
      /\ (projetoId = "todos" -> titulo_secao (documento e') = "Todas as Tarefas")
      /\ (projetoId <> "todos" ->
          ids_distintos (projetos (gerenciadorProjetos e)) ->
          forall p, p ∈ projetos (gerenciadorProjetos e) -> Projeto.id p = projetoId ->
                    titulo_secao (documento e') = Projeto.nome p)).
Proof.
  intros _ _ inalterado. subst inalterado. cbv beta zeta.
  split; [|split].
  - unfold GerenciadorTarefas.aplicarFiltro. executar. projetar_documento.
    repeat split; apply ordem_de_exibicao_Permutation.
  - intros id. unfold GerenciadorTarefas.definirProjetoAtivo. executar.
    projetar_documento. repeat split; apply ordem_de_exibicao_Permutation.
  - unfold GerenciadorProjetos.selecionarProjeto. executar. projetar_documento.
    repeat split.
    + apply ordem_de_exibicao_Permutation.
    + intros ->. reflexivity.
    + intros Hne Hid p Hp Hidp. apply String.eqb_neq in Hne. rewrite Hne.
      apply list_elem_of_lookup_1 in Hp as (i & Hp). subst projetoId.
      pose proof (findIndex_ids_distintos _ i p Hid Hp) as Hi.
      unfold Array.find.
      destruct (List.find _ _) as [q|] eqn:Hf.
      * apply List.find_some in Hf as [Hq Hidq].
        apply String.eqb_eq in Hidq.
        apply list_elem_of_In, list_elem_of_lookup_1 in Hq as (j & Hq).
        assert (j = i) as -> by apply (ids_distintos_indice _ j i q p Hid Hq Hp Hidq).
        congruence.
      * apply (find_findIndex (fun q => String.eqb (Projeto.id q) (Projeto.id p)))
          in Hf. congruence.
Qed.

Lemma selecao_so_muda_a_visao_witness :
  let e := estado_apos GerenciadorProjetos.renderizarProjetos
             (Exemplo.estado [Exemplo.leite; Exemplo.relatorio]
                             [Exemplo.trabalho; Exemplo.casa]) in
  let e' := estado_apos (GerenciadorProjetos.selecionarProjeto "projeto_2") e in
  let e'' := estado_apos (GerenciadorTarefas.aplicarFiltro "pendentes") e in
  lista_projetos (documento e) = [Exemplo.casa; Exemplo.trabalho]
  /\ titulo_secao (documento e') = "Work"
  /\ lista_tarefas (documento e') = [Exemplo.relatorio]
  /\ tarefas (gerenciadorTarefas e') = [Exemplo.leite; Exemplo.relatorio]
  /\ lista_tarefas (documento e'') = [Exemplo.leite].
Proof.
  intros e e' e''.
  assert (Forall prioridade_conhecida [Exemplo.relatorio]) as Hc1
      by (repeat constructor; unfold prioridade_conhecida, niveis_de_prioridade;
          cbn; set_solver).
  assert (Forall prioridade_conhecida [Exemplo.leite]) as Hc2
      by (repeat constructor; unfold prioridade_conhecida, niveis_de_prioridade;
          cbn; set_solver).
  destruct (selecao_so_muda_a_visao e "pendentes" "projeto_2") as (Hf & _ & H).
  - unfold filtros_da_pagina. set_solver.
  - right. split; [reflexivity|]. exists Exemplo.trabalho.
    split; [apply list_elem_of_further, list_elem_of_here|reflexivity].
  - destruct H as ((Ht & _ & _ & _ & _ & _ & Hl) & _ & _ & _ & Hn).
    destruct Hf as ((_ & _ & _ & _ & _ & _ & Hl') & _).
    fold e' in Ht, Hl, Hn. fold e'' in Hl'.
    split; [reflexivity|]. split; [|split; [exact (Hl Hc1)|split; [exact Ht|exact (Hl' Hc2)]]].
    apply (Hn ltac:(discriminate)) with (p := Exemplo.trabalho);
      [|apply list_elem_of_here|reflexivity].
    unfold ids_distintos. apply (bool_decide_unpack _). vm_compute. exact I.
Defined.

End Selecao.


(* ===================================================================== *)
(** * salvarTarefa: an edit *)
(* ===================================================================== *)

Section EditarTarefa.

(** X22: what an edit does to the store.  When the form is open on a task
    and the submission is valid, the first task with the id under edit is
    replaced, in its place, by a task with the same id, the trimmed title
    and description and the other fields of the form, [concluida] false and
    the time of the call as [dataCriacao]; every other position, the length
    of the list and the sequence of ids are unchanged. *)
Theorem salvarTarefa_edita (e : Estado) (editando antiga : Tarefa.t) (i : nat) :
  JSString.verdadeiro (JSString.trim (titulo_tarefa (documento e))) = true ->
  tarefaEditando (gerenciadorTarefas e) = Some editando ->
  tarefas (gerenciadorTarefas e) !! i = Some antiga ->
  Tarefa.id antiga = Tarefa.id editando ->
  (forall j t, (j < i)%nat -> tarefas (gerenciadorTarefas e) !! j = Some t ->
               Tarefa.id t <> Tarefa.id editando) ->
  let e' := estado_apos GerenciadorTarefas.salvarTarefa e in
  tarefas (gerenciadorTarefas e') !! i
  = Some {| Tarefa.id := Tarefa.id antiga;
            Tarefa.titulo := JSString.trim (titulo_tarefa (documento e));
            Tarefa.descricao := JSString.trim (descricao_tarefa (documento e));
            Tarefa.dataVencimento := data_vencimento (documento e);
            Tarefa.prioridade := prioridade_tarefa (documento e);
            Tarefa.projetoId :=
              match projeto_tarefa (documento e) with
              | EmptyString => None
              | p => Some p
              end;
            Tarefa.concluida := false;
            Tarefa.dataCriacao := Date_toISOString (ambiente e) |}
  /\ (forall j, j <> i ->
        tarefas (gerenciadorTarefas e') !! j = tarefas (gerenciadorTarefas e) !! j)
  /\ length (tarefas (gerenciadorTarefas e')) = length (tarefas (gerenciadorTarefas e))
  /\ map Tarefa.id (tarefas (gerenciadorTarefas e'))
     = map Tarefa.id (tarefas (gerenciadorTarefas e)).
Proof.
  intros Hv Hed Hi Hid Hantes e'.
  assert (Array.findIndex (fun t => String.eqb (Tarefa.id t) (Tarefa.id editando))
                          (tarefas (gerenciadorTarefas e)) = Some i) as Hf.
  { apply (findIndex_primeiro _ _ i antiga Hi).
    - now apply String.eqb_eq.
    - intros j y Hj Hy. apply String.eqb_neq. eauto. }
  subst e'. rewrite (salvarTarefa_edicao_tarefas e editando i Hv Hed Hf), Hi.
  split; [|split; [|split]].
  - rewrite list_lookup_insert_eq by (now apply lookup_lt_Some in Hi).
    unfold Tarefa.espalhar, dados_do_formulario.
    cbn [Tarefa.Dados.titulo Tarefa.Dados.descricao Tarefa.Dados.dataVencimento
         Tarefa.Dados.prioridade Tarefa.Dados.projetoId Tarefa.Dados.concluida
         Tarefa.Dados.dataCriacao].
    now destruct (projeto_tarefa (documento e)).
  - intros j Hj. apply list_lookup_insert_ne. congruence.
  - apply length_insert.
  - now apply map_id_insert_tarefa.
Qed.

Lemma salvarTarefa_edita_witness :
  let e := Exemplo.editando Exemplo.relatorio "Report v2"
             (Exemplo.estado [Exemplo.leite; Exemplo.relatorio]
                             [Exemplo.casa; Exemplo.trabalho]) in
  let e' := estado_apos GerenciadorTarefas.salvarTarefa e in
  tarefas (gerenciadorTarefas e') !! 0%nat = Some Exemplo.leite
  /\ map Tarefa.id (tarefas (gerenciadorTarefas e')) = ["tarefa_1"; "tarefa_2"].
Proof.
  intros e e'.
  destruct (salvarTarefa_edita e Exemplo.relatorio Exemplo.relatorio 1%nat)
    as (_ & Hj & _ & Hids); try reflexivity.
  - intros [|j] t Hj; [|lia]. intros [= <-]. discriminate.
  - split; [exact (Hj 0%nat (O_S _))|exact Hids].
Defined.

End EditarTarefa.

(* ===================================================================== *)
(** * Invariants of the project store *)
(* ===================================================================== *)

Section InvariantesProjetos.

Lemma removerProjeto_projetos e id :
  let l' := projetos (gerenciadorProjetos
              (estado_apos (GerenciadorProjetos.removerProjeto id) e)) in
  l' = projetos (gerenciadorProjetos e)
  \/ exists i, l' = Array.splice1 i (projetos (gerenciadorProjetos e)).
Proof.
  intros l'. subst l'.
  destruct (removerProjeto_casos e id) as [[_ Hp]|(i & Hi & Hok)].
  - left. now rewrite Hp.
  - right. exists i.
    now destruct (removerProjeto_confirmado e id i Hi Hok) as (_ & Hp & _).
Qed.

(** X23: the invariants of the project store.  [removerProjeto], whatever
    the id and the answer, keeps the project ids pairwise distinct and the
    names pairwise distinct up to case.  No project with an empty name
    enters the store: names that are all non-empty are so after
    [removerProjeto] and after [adicionarProjeto], for any input.
    [adicionarProjeto] keeps the ids pairwise distinct as long as the
    generated id is not the id of a project of the store. *)
Theorem invariantes_dos_projetos (e : Estado) (id : string) :
  let apos_remover :=
    projetos (gerenciadorProjetos
                (estado_apos (GerenciadorProjetos.removerProjeto id) e)) in
  let apos_adicionar :=
    projetos (gerenciadorProjetos
                (estado_apos GerenciadorProjetos.adicionarProjeto e)) in
  (ids_distintos (projetos (gerenciadorProjetos e)) -> ids_distintos apos_remover)
  /\ (nomes_distintos (projetos (gerenciadorProjetos e)) -> nomes_distintos apos_remover)
  /\ (nomes_preenchidos (projetos (gerenciadorProjetos e)) ->
      nomes_preenchidos apos_remover /\ nomes_preenchidos apos_adicionar)
  /\ (ids_distintos (projetos (gerenciadorProjetos e)) ->
      (forall p, p ∈ projetos (gerenciadorProjetos e) ->
                 Projeto.id p <> id_gerado "projeto_" (ambiente e)) ->
      ids_distintos apos_adicionar).
Proof.
  intros apos_remover apos_adicionar.
  split; [apply removerProjeto_preserva_distintos|].
  split; [apply removerProjeto_preserva_distintos|]. split.
  - intros H. split.
    + subst apos_remover.
      destruct (removerProjeto_projetos e id) as [->|[i ->]]; [assumption|].
      now apply Forall_splice1.
    + subst apos_adicionar.
      destruct (JSString.verdadeiro (nome_digitado e)) eqn:Hv;
        [|unfold estado_apos; now rewrite adicionarProjeto_sem_nome].
      destruct (Array.find (GerenciadorProjetos.mesmo_nome (nome_digitado e)
                              (projetoEditando (gerenciadorProjetos e)))
                           (projetos (gerenciadorProjetos e))) as [x|] eqn:Hf;
        [unfold estado_apos; now rewrite (adicionarProjeto_repetido e x)|].
      destruct (adicionarProjeto_aceito e Hv Hf) as (-> & _).
      assert (nome_digitado e <> EmptyString) as Hne
          by (intros Heq; rewrite Heq in Hv; discriminate).
      destruct (projetoEditando (gerenciadorProjetos e)) as [ed|].
      * destruct (Array.findIndex _ _) as [i|]; [|assumption].
        apply Forall_alter; [assumption|]. intros p _ _. exact Hne.
      * apply Forall_app. split; [assumption|]. apply Forall_singleton. exact Hne.
  - intros Hid Hnovo. now apply adicionarProjeto_preserva_ids.
Qed.

(** X24: a rename of a project that is no longer in the store is dropped
    without notice.  When the form is open on a project whose id no project
    of the store has, and the name typed is not taken, the submission
    leaves the project list as it was, creates no project, hides the form,
    ends the edit and shows no alert. *)
Theorem adicionarProjeto_edicao_perdida (e : Estado) (editando : Projeto.t) :
  JSString.verdadeiro (nome_digitado e) = true ->
  projetoEditando (gerenciadorProjetos e) = Some editando ->
  (forall p, p ∈ projetos (gerenciadorProjetos e) ->
             Projeto.id p <> Projeto.id editando
             /\ JSString.toLowerCase (Projeto.nome p)
                <> JSString.toLowerCase (nome_digitado e)) ->
  let e' := estado_apos GerenciadorProjetos.adicionarProjeto e in
  resultado_de GerenciadorProjetos.adicionarProjeto e = Retorna tt
  /\ projetos (gerenciadorProjetos e') = projetos (gerenciadorProjetos e)
  /\ projetoEditando (gerenciadorProjetos e') = None
  /\ form_projeto (documento e') = false
  /\ alertas e' = alertas e.
Proof.
  intros Hv Hed Hfora e'.
  assert (Array.find (GerenciadorProjetos.mesmo_nome (nome_digitado e) (Some editando))
                     (projetos (gerenciadorProjetos e)) = None) as Hf.
  { apply find_None_forall. intros x Hx. unfold GerenciadorProjetos.mesmo_nome.
    apply andb_false_iff. left. apply String.eqb_neq. now apply Hfora. }
  assert (Array.findIndex (fun p => String.eqb (Projeto.id p) (Projeto.id editando))
                          (projetos (gerenciadorProjetos e)) = None) as Hi.
  { apply findIndex_None. intros x Hx. apply String.eqb_neq. now apply Hfora. }
  eassert (GerenciadorProjetos.adicionarProjeto e = (Retorna tt, _)) as He.
  { unfold GerenciadorProjetos.adicionarProjeto, nome_digitado in *. executar.
    rewrite Hv. cbn [negb]. cbv beta iota. rewrite Hed, Hf, Hi. executar.
    reflexivity. }
  subst e'. unfold estado_apos, resultado_de. rewrite He. cbn [fst snd].
  projetar_documento. repeat split.
Qed.

Lemma adicionarProjeto_edicao_perdida_witness :
  let e := com_gerenciadorProjetos (com_projetoEditando (Some Exemplo.trabalho))
             (estado_apos (Pagina.preencher_projeto "Office")
                (Exemplo.estado [] [Exemplo.casa])) in
  let e' := estado_apos GerenciadorProjetos.adicionarProjeto e in
  projetos (gerenciadorProjetos e') = [Exemplo.casa]
  /\ projetoEditando (gerenciadorProjetos e') = None.
Proof.
  intros e e'.
  destruct (adicionarProjeto_edicao_perdida e Exemplo.trabalho eq_refl eq_refl)
    as (_ & Hp & Hed & _).
  - intros p Hp. apply elem_of_cons in Hp as [->|Hp];
      [split; discriminate|now apply elem_of_nil in Hp].
  - split; [exact Hp|exact Hed].
Defined.

End InvariantesProjetos.
